(** * apple-doc-mcp: search, ranking, cache and fallback logic

    A shallow embedding of [src/apple-client.ts] (class [AppleDevDocsClient])
    and of the documentation-lookup handlers of the MCP server
    ([src/index.ts] and its built counterpart [dist/index.js]), with the
    properties of the search / match / rank engine, the request cache and
    the fallback resolver.

    Modelling conventions.
    - A JavaScript string is a [string] of ASCII characters.  Case mapping
      is [A]-[Z] against [a]-[z]; a character code above 127 is an opaque
      symbol: it has no case and is neither whitespace nor a line
      terminator.  The properties that compare the case folding of the
      [i] flag with [toLowerCase] are stated for ASCII strings ([isAscii]),
      where the two agree with JavaScript.
    - [maxResults] is a natural number (a result count).
    - JSON documents are records with optional fields where the code
      tests for their presence; a JavaScript object used as a map is an
      association list in its iteration order.
    - Asynchronous methods run to completion one after the other: they are
      functions from a [World] (cache, clock, log of network requests) to a
      result or a thrown error and the next [World]. *)

From Stdlib Require Import ZArith QArith Qround Ascii String List Lia Bool.
From stdpp Require Import base option list sorting strings pretty gmap.

Local Open Scope string_scope.
Local Open Scope list_scope.
Local Open Scope nat_scope.

(** ** JavaScript strings *)

Module Js.

Definition isUpper (c : ascii) : bool :=
  let n := nat_of_ascii c in (65 <=? n)%nat && (n <=? 90)%nat.

Definition isLower (c : ascii) : bool :=
  let n := nat_of_ascii c in (97 <=? n)%nat && (n <=? 122)%nat.

Definition lowerChar (c : ascii) : ascii :=
  if isUpper c then ascii_of_nat (nat_of_ascii c + 32) else c.

Definition upperChar (c : ascii) : ascii :=
  if isLower c then ascii_of_nat (nat_of_ascii c - 32) else c.

(** [s.toLowerCase()] *)
Fixpoint toLowerCase (s : string) : string :=
  match s with
  | "" => ""
  | String c r => String (lowerChar c) (toLowerCase r)
  end.

(** [s.startsWith(p)] *)
Fixpoint startsWith (s p : string) : bool :=
  match p, s with
  | "", _ => true
  | String _ _, "" => false
  | String a p', String c s' => Ascii.eqb c a && startsWith s' p'
  end.

(** [s.includes(p)] *)
Fixpoint includes (s p : string) : bool :=
  startsWith s p ||
  match s with
  | "" => false
  | String _ s' => includes s' p
  end.

(** [s.replace(/c/g, '')] for a single character [c]. *)
Fixpoint removeAll (c : ascii) (s : string) : string :=
  match s with
  | "" => ""
  | String d r => if Ascii.eqb d c then removeAll c r else String d (removeAll c r)
  end.

(** The class [\s] on ASCII: TAB, LF, VT, FF, CR, SPACE. *)
Definition isWhitespace (c : ascii) : bool :=
  let n := nat_of_ascii c in ((9 <=? n)%nat && (n <=? 13)%nat) || (n =? 32)%nat.

(** [s.replace(/\s+/g, '')] *)
Fixpoint removeWhitespace (s : string) : string :=
  match s with
  | "" => ""
  | String d r => if isWhitespace d then removeWhitespace r else String d (removeWhitespace r)
  end.

(** [s.replace(/^p/, '')] for a literal [p]. *)
Fixpoint stripPrefix (p s : string) : option string :=
  match p, s with
  | "", _ => Some s
  | String a p', String c s' => if Ascii.eqb c a then stripPrefix p' s' else None
  | String _ _, "" => None
  end.

Definition removeLeading (p s : string) : string :=
  default s (stripPrefix p s).

(** [s.split(c)[0]] *)
Fixpoint firstSegment (c : ascii) (s : string) : string :=
  match s with
  | "" => ""
  | String d r => if Ascii.eqb d c then "" else String d (firstSegment c r)
  end.

(** [arr.join(sep)] *)
Fixpoint join (sep : string) (l : list string) : string :=
  match l with
  | [] => ""
  | [x] => x
  | x :: rest => x +:+ sep +:+ join sep rest
  end.

(** [\`${v}\`] of a possibly undefined string. *)
Definition show (v : option string) : string := default "undefined" v.

(** Truthiness of a possibly undefined string. *)
Definition truthy (v : option string) : bool :=
  match v with
  | Some (String _ _) => true
  | _ => false
  end.

(** [s.replace(/\\x/g, rep)]: every backslash followed by [x] becomes [rep];
    the scan goes left to right and resumes after each match. *)
Fixpoint replaceEscaped (x : ascii) (rep : string) (s : string) : string :=
  match s with
  | "" => ""
  | String c r =>
      match r with
      | String d r' =>
          if Ascii.eqb c "\" && Ascii.eqb d x
          then rep +:+ replaceEscaped x rep r'
          else String c (replaceEscaped x rep r)
      | "" => String c ""
      end
  end.

End Js.

(** ** Regular expressions: the fragment [createSearchPattern] produces *)

Module RegExp.

(** SyntaxCharacter of the ECMAScript pattern grammar:
    [^ $ \ . * + ? ( ) [ ] { } |] *)
Definition isSyntaxChar (c : ascii) : bool :=
  existsb (Ascii.eqb c)
    ["."; "*"; "+"; "?"; "^"; "$"; "{"; "}"; "("; ")"; "|"; "["; "]"; "\"]%char.

(** LF and CR: the line terminators of ASCII. *)
Definition isLineTerminator (c : ascii) : bool :=
  Ascii.eqb c "010" || Ascii.eqb c "013".

Inductive atom : Type :=
| Char (c : ascii)      (* a pattern character or an escaped syntax character *)
| AnyChar.              (* [.] *)

Inductive term : Type :=
| Once (a : atom)
| ZeroOrMore (a : atom). (* [a*] *)

Definition regexp : Type := list term.

(** [new RegExp(src, 'i')]: [None] stands for the SyntaxError the
    constructor throws, and for every pattern outside the fragment. *)
Fixpoint compile (src : string) : option regexp :=
  match src with
  | "" => Some []
  | String c rest =>
      if Ascii.eqb c "\" then
        match rest with
        | "" => None
        | String d rest' =>
            if isSyntaxChar d then
              match rest' with
              | "" => Some [Once (Char d)]
              | String q rest'' =>
                  if Ascii.eqb q "*"
                  then cons (ZeroOrMore (Char d)) <$> compile rest''
                  else cons (Once (Char d)) <$> compile rest'
              end
            else None
        end
      else
        let quantified (a : atom) :=
          match rest with
          | "" => Some [Once a]
          | String q rest' =>
              if Ascii.eqb q "*"
              then cons (ZeroOrMore a) <$> compile rest'
              else cons (Once a) <$> compile rest
          end in
        if Ascii.eqb c "." then quantified AnyChar
        else if isSyntaxChar c then None
        else quantified (Char c)
  end.

(** Canonicalize of the [i] flag: comparison of upper-cased characters. *)
Definition atomMatches (a : atom) (c : ascii) : bool :=
  match a with
  | Char x => Ascii.eqb (Js.upperChar x) (Js.upperChar c)
  | AnyChar => negb (isLineTerminator c)
  end.

(** Does [re] match at the start of [s]?  (Backtracking matcher.) *)
Fixpoint matchHere (re : regexp) (s : string) : bool :=
  match re with
  | [] => true
  | Once a :: re' =>
      match s with
      | "" => false
      | String c s' => atomMatches a c && matchHere re' s'
      end
  | ZeroOrMore a :: re' =>
      (fix star (s : string) : bool :=
         matchHere re' s ||
         match s with
         | "" => false
         | String c s' => atomMatches a c && star s'
         end) s
  end.

(** [re.test(s)] without the [g] or [y] flag: a match at any position. *)
Fixpoint test (re : regexp) (s : string) : bool :=
  matchHere re s ||
  match s with
  | "" => false
  | String _ s' => test re s'
  end.

End RegExp.

(** ** Pattern compilation and scoring ([apple-client.ts]) *)

(** [query.replace(/[.*+?^${}()|[\]\\]/g, '\\$&')] *)
Fixpoint escapeSpecial (query : string) : string :=
  match query with
  | "" => ""
  | String c r =>
      if RegExp.isSyntaxChar c
      then String "\" (String c (escapeSpecial r))
      else String c (escapeSpecial r)
  end.

Definition patternSource (query : string) : string :=
  let escaped := escapeSpecial query in
  Js.replaceEscaped "?" "." (Js.replaceEscaped "*" ".*" escaped).

Definition createSearchPattern (query : string) : option RegExp.regexp :=
  RegExp.compile (patternSource query).

Definition scoreMatch (title query : string) : nat :=
  let lowerTitle := Js.toLowerCase title in
  let lowerQuery := Js.toLowerCase (Js.removeAll "*" query) in
  if String.eqb lowerTitle lowerQuery then 0
  else if Js.startsWith lowerTitle lowerQuery then 1
  else if Js.includes lowerTitle lowerQuery then 2
  else 3.

(** ** Documents of the upstream API *)

Record Fragment : Type := { frag_text : string; frag_type : string }.

Record Platform : Type :=
  { plat_name : option string; plat_introducedAt : option string; plat_beta : bool }.

(** One entry of a [references] object: a [Technology] in the technology
    index, a symbol reference in a framework or symbol document. *)
Record Reference : Type :=
  { ref_title : option string;
    ref_abstract : option (list Fragment);
    ref_url : string;
    ref_kind : option string;
    ref_role : option string;
    ref_platforms : option (list Platform) }.

Abbreviation Technology := Reference.

Record TopicSection : Type :=
  { sec_title : string; sec_identifiers : option (list string) }.

Record Metadata : Type :=
  { md_title : option string;
    md_symbolKind : option string;
    md_platforms : option (list Platform) }.

(** [FrameworkData], [SymbolData] and the technology index share this shape. *)
Record Document : Type :=
  { doc_metadata : option Metadata;
    doc_abstract : option (list Fragment);
    doc_topicSections : option (list TopicSection);
    doc_references : option (list (string * Reference)) }.

Record SearchResult : Type :=
  { res_title : string;
    res_description : string;
    res_path : string;
    res_framework : string;
    res_symbolKind : option string;
    res_platforms : string }.

(** The options of a search whose [maxResults] is a whole number; the
    number-valued options are [Numeric.Options]. *)
Record SearchOptions : Type :=
  { symbolType : option string;
    platform : option string;
    maxResults : option nat }.

(** ** Pure helpers of the client *)

Definition extractText (abstract : option (list Fragment)) : string :=
  match abstract with
  | Some items => Js.join "" (map frag_text items)
  | None => ""
  end.

Definition formatPlatform (p : Platform) : string :=
  Js.show (plat_name p) +:+ " " +:+ Js.show (plat_introducedAt p) +:+ "+" +:+
  (if plat_beta p then " (Beta)" else "").

Definition formatPlatforms (platforms : option (list Platform)) : string :=
  match platforms with
  | None | Some [] => "All platforms"
  | Some ps => Js.join ", " (map formatPlatform ps)
  end.

(** [p.name?.toLowerCase().includes(options.platform.toLowerCase())] *)
Definition platformNamed (wanted : string) (p : Platform) : bool :=
  match plat_name p with
  | Some n => Js.includes (Js.toLowerCase n) (Js.toLowerCase wanted)
  | None => false
  end.

Definition matchesSearch (ref : Reference) (pattern : RegExp.regexp)
    (options : SearchOptions) : bool :=
  if negb (Js.truthy (ref_title ref)) then false
  else if negb (RegExp.test pattern (default "" (ref_title ref))) then false
  else if Js.truthy (symbolType options) &&
          negb (bool_decide (ref_kind ref = symbolType options)) then false
  else
    match Js.truthy (platform options), ref_platforms ref with
    | true, Some ps =>
        let hasPlat := existsb (platformNamed (default "" (platform options))) ps in
        if negb hasPlat then false else true
    | _, _ => true
    end.

(** ** [Array.prototype.sort] with a comparator

    The sort is stable; for a comparator that orders consistently the
    outcome is the one stable sorted arrangement, computed here by
    insertion from the right. *)

Section Sort.
Context {A : Type} (cmp : A → A → Z).

Fixpoint insertSorted (x : A) (l : list A) : list A :=
  match l with
  | [] => [x]
  | y :: l' => if (0 <? cmp x y)%Z then y :: insertSorted x l' else x :: l
  end.

Fixpoint sortBy (l : list A) : list A :=
  match l with
  | [] => []
  | x :: l' => insertSorted x (sortBy l')
  end.
End Sort.

(** ** Errors, results and the world *)

Record JsError : Type := { err_name : string; err_message : string }.

(** [\`${error}\`], that is [Error.prototype.toString]: the name alone when
    the message is empty, the message alone when the name is empty. *)
Definition errorToString (e : JsError) : string :=
  if String.eqb (err_name e) "" then err_message e
  else if String.eqb (err_message e) "" then err_name e
  else err_name e +:+ ": " +:+ err_message e.

(** [new Error(message)] *)
Definition newError (message : string) : JsError :=
  {| err_name := "Error"; err_message := message |}.

Definition typeError (message : string) : JsError :=
  {| err_name := "TypeError"; err_message := message |}.

Inductive Result (A : Type) : Type :=
| Ok (a : A)
| Throw (e : JsError).
Arguments Ok {A} a.
Arguments Throw {A} e.

Definition isOk {A} (r : Result A) : bool :=
  match r with Ok _ => true | Throw _ => false end.

(** What [axios.get] does with a URL at a given time: the JSON body or a
    rejection, and the time the exchange takes. *)
Record Response : Type := { outcome : Result Document; elapsed : Z }.

Record CacheEntry : Type := { data : Document; timestamp : Z }.

Record World : Type :=
  { cache : gmap string CacheEntry;      (* [this.cache] *)
    now : Z;                             (* [Date.now()] *)
    requests : list string }.            (* URLs handed to [axios.get], oldest first *)

Definition M (A : Type) : Type := World → Result A * World.

Definition ret {A} (a : A) : M A := fun w => (Ok a, w).
Definition throw {A} (e : JsError) : M A := fun w => (Throw e, w).

Definition bind {A B} (m : M A) (k : A → M B) : M B :=
  fun w =>
    match m w with
    | (Ok a, w') => k a w'
    | (Throw e, w') => (Throw e, w')
    end.

(** [try { m } catch (error) { handler(error) }] *)
Definition tryCatch {A} (m : M A) (handler : JsError → M A) : M A :=
  fun w =>
    match m w with
    | (Ok a, w') => (Ok a, w')
    | (Throw e, w') => handler e w'
    end.

Notation "'let*' x := m 'in' k" := (bind m (fun x => k))
  (at level 10, x name, m at level 100, k at level 200).

Definition BASE_URL : string := "https://developer.apple.com/tutorials/data".

Definition cacheTimeout : Z := 10 * 60 * 1000.

(** ** The client ([AppleDevDocsClient]) *)

Section Client.

(** The network the client talks to. *)
Variable axios_get : string → Z → Response.

(** The [try] branch of [makeRequest]: the request proper. *)
Definition fetch (url : string) : M Document := fun w =>
  let response := axios_get url (now w) in
  let later := (now w + elapsed response)%Z in
  match outcome response with
  | Ok body =>
      (Ok body,
       {| cache := <[url := {| data := body; timestamp := later |}]> (cache w);
          now := later;
          requests := requests w ++ [url] |})
  | Throw error =>
      (Throw (newError ("Failed to fetch documentation: " +:+ errorToString error)),
       {| cache := cache w; now := later; requests := requests w ++ [url] |})
  end.

Definition makeRequest (url : string) : M Document := fun w =>
  match cache w !! url with
  | Some cached =>
      if (now w - timestamp cached <? cacheTimeout)%Z
      then (Ok (data cached), w)
      else fetch url w
  | None => fetch url w
  end.

Definition technologiesUrl : string :=
  BASE_URL +:+ "/documentation/technologies.json".

Definition frameworkUrl (frameworkName : string) : string :=
  BASE_URL +:+ "/documentation/" +:+ frameworkName +:+ ".json".

Definition symbolUrl (path : string) : string :=
  let cleanPath := if Js.startsWith path "/" then Js.removeLeading "/" path else path in
  BASE_URL +:+ "/" +:+ cleanPath +:+ ".json".

Definition getTechnologies : M (list (string * Technology)) :=
  let* data := makeRequest technologiesUrl in
  ret (default [] (doc_references data)).

Definition getFramework (frameworkName : string) : M Document :=
  makeRequest (frameworkUrl frameworkName).

Definition getSymbol (path : string) : M Document :=
  makeRequest (symbolUrl path).

(** *** [searchFramework] *)

Definition toResult (frameworkName : string) (framework : Document)
    (ref : Reference) : SearchResult :=
  {| res_title := default "" (ref_title ref);
     res_description := extractText (Some (default [] (ref_abstract ref)));
     res_path := ref_url ref;
     res_framework := frameworkName;
     res_symbolKind := ref_kind ref;
     res_platforms :=
       formatPlatforms
         (match ref_platforms ref with
          | Some ps => Some ps
          | None => doc_metadata framework ≫= md_platforms
          end) |}.

(** The [forEach] over [Object.entries(framework.references)]: once the
    cap is reached the callback returns at once for every later entry. *)
Fixpoint collect (frameworkName : string) (framework : Document)
    (pattern : RegExp.regexp) (options : SearchOptions) (cap : nat)
    (entries : list (string * Reference)) (results : list SearchResult)
    : list SearchResult :=
  match entries with
  | [] => results
  | (_, ref) :: rest =>
      if (cap <=? length results)%nat
      then collect frameworkName framework pattern options cap rest results
      else if matchesSearch ref pattern options
      then collect frameworkName framework pattern options cap rest
             (results ++ [toResult frameworkName framework ref])
      else collect frameworkName framework pattern options cap rest results
  end.

Definition byScore (query : string) (a b : SearchResult) : Z :=
  (Z.of_nat (scoreMatch (res_title a) query) - Z.of_nat (scoreMatch (res_title b) query))%Z.

Definition searchFramework (frameworkName query : string)
    (options : SearchOptions) : M (list SearchResult) :=
  let cap := default 20%nat (maxResults options) in
  tryCatch
    (let* framework := getFramework frameworkName in
     match createSearchPattern query with
     | None => throw {| err_name := "SyntaxError"; err_message := "Invalid regular expression" |}
     | Some searchPattern =>
         match doc_references framework with
         | None => throw (typeError "Cannot convert undefined or null to object")
         | Some entries =>
             let results :=
               collect frameworkName framework searchPattern options cap entries [] in
             ret (sortBy (byScore query) results)
         end
     end)
    (fun error =>
       throw (newError ("Framework search failed for " +:+ frameworkName +:+ ": "
                        +:+ errorToString error))).

(** *** [searchGlobal] *)

Definition isFramework (tech : Technology) : bool :=
  bool_decide (ref_kind tech = Some "symbol") &&
  bool_decide (ref_role tech = Some "collection").

(** [Math.ceil(maxResults / 4)] *)
Definition subCap (cap : nat) : nat := ((cap + 3) / 4)%nat.

(** The [for ... of] loop over [searchFrameworks]. *)
Fixpoint searchLoop (query : string) (options : SearchOptions) (cap : nat)
    (searchFrameworks : list Technology) (results : list SearchResult)
    (w : World) : list SearchResult * World :=
  match searchFrameworks with
  | [] => (results, w)
  | framework :: rest =>
      if (cap <=? length results)%nat then (results, w)
      else
        match searchFramework (Js.show (ref_title framework)) query
                {| symbolType := symbolType options;
                   platform := platform options;
                   maxResults := Some (subCap cap) |} w with
        | (Ok frameworkResults, w') =>
            searchLoop query options cap rest (results ++ frameworkResults) w'
        | (Throw _, w') =>
            searchLoop query options cap rest results w'
        end
  end.

Definition searchGlobal (query : string) (options : SearchOptions)
    : M (list SearchResult) :=
  let cap := default 50%nat (maxResults options) in
  tryCatch
    (let* technologies := getTechnologies in
     let frameworks := filter (fun tech => isFramework tech = true) (map snd technologies) in
     let searchFrameworks := take 20 frameworks in
     fun w =>
       let '(results, w') := searchLoop query options cap searchFrameworks [] w in
       (Ok (take cap results), w'))
    (fun error => throw (newError ("Global search failed: " +:+ errorToString error))).

End Client.

(** ** The documentation-lookup tool of the MCP server *)

(** The text content of a tool response, kept as the template it is
    rendered from together with the values that fill it. *)
Inductive Payload : Type :=
| SymbolDocumentation (data : Document)
    (* "# title ... ## Overview ... ## API Reference" *)
| FrameworkDetected (frameworkName originalPath : string) (data : Document)
    (* "# Framework Detected: title ..." *)
| SymbolNotFound (originalPath : string).
    (* "# Symbol Not Found: path ..." *)

Inductive ErrorCode : Type := MethodNotFound | InternalError.

Record McpError : Type := { mcp_code : ErrorCode; mcp_message : string }.

Section Server.

Variable axios_get : string → Z → Response.

(** The [catch] of the [CallToolRequestSchema] handler, around one tool. *)
Definition callTool {A} (handler : A → M Payload) (args : A)
    : World → (Payload + McpError) * World := fun w =>
  match handler args w with
  | (Ok content, w') => (inl content, w')
  | (Throw error, w') =>
      (inr {| mcp_code := InternalError;
              mcp_message := "Error executing tool: " +:+ err_message error |}, w')
  end.

(** [src/index.ts], tool [get_symbol]. *)
Definition handleGetSymbol (path : string) : M Payload :=
  let* data := getSymbol axios_get path in
  ret (SymbolDocumentation data).

(** [dist/index.js], tool [get_documentation]. *)

Definition sameTitle (title candidate : string) : bool :=
  String.eqb (Js.toLowerCase title) (Js.toLowerCase candidate).

Definition sameTitleNoSpaces (title candidate : string) : bool :=
  String.eqb (Js.removeWhitespace (Js.toLowerCase title))
             (Js.removeWhitespace (Js.toLowerCase candidate)).

(** The [for ... of] loop of [checkIfTechnology]. *)
Fixpoint findTechnology (cleanPath potentialFramework : string)
    (technologies : list Technology) : option string :=
  match technologies with
  | [] => None
  | tech :: rest =>
      if Js.truthy (ref_title tech) then
        let title := default "" (ref_title tech) in
        if sameTitle title potentialFramework || sameTitle title cleanPath
        then Some title
        else if sameTitleNoSpaces title potentialFramework ||
                sameTitleNoSpaces title cleanPath
        then Some title
        else findTechnology cleanPath potentialFramework rest
      else findTechnology cleanPath potentialFramework rest
  end.

Definition cleanPathOf (path : string) : string :=
  Js.removeLeading "documentation/" path.

Definition checkIfTechnology (path : string) : M (option string) :=
  tryCatch
    (let* technologies := getTechnologies axios_get in
     let cleanPath := cleanPathOf path in
     let potentialFramework := Js.firstSegment "/" cleanPath in
     ret (findTechnology cleanPath potentialFramework (map snd technologies)))
    (fun _ => ret None).

Definition handleTechnologyFallback (frameworkName originalPath : string)
    : M Payload :=
  tryCatch
    (let* data := getFramework axios_get frameworkName in
     match doc_topicSections data with
     | None => throw (typeError "Cannot read properties of undefined (reading 'map')")
     | Some _ => ret (FrameworkDetected frameworkName originalPath data)
     end)
    (fun _ => ret (SymbolNotFound originalPath)).

Definition handleGetDocumentation (path : string) : M Payload :=
  tryCatch
    (let* data := getSymbol axios_get path in
     ret (SymbolDocumentation data))
    (fun error =>
       let* frameworkName := checkIfTechnology path in
       match frameworkName with
       | Some name => handleTechnologyFallback name path
       | None => throw error
       end).

End Server.

(** ** A small network for examples *)

Module Sample.

Definition mkRef (title kind role : string) (platforms : option (list Platform))
    : Reference :=
  {| ref_title := Some title; ref_abstract := None;
     ref_url := "/documentation/" +:+ title;
     ref_kind := Some kind; ref_role := Some role; ref_platforms := platforms |}.

Definition iOS : Platform :=
  {| plat_name := Some "iOS"; plat_introducedAt := Some "13.0"; plat_beta := false |}.

Definition technologiesDoc : Document :=
  {| doc_metadata := None; doc_abstract := None; doc_topicSections := None;
     doc_references :=
       Some [("t1", mkRef "SwiftUI" "symbol" "collection" None);
             ("t2", mkRef "Broken" "symbol" "collection" None);
             ("t3", mkRef "Swift Playgrounds" "article" "overview" None);
             ("t4", mkRef "UIKit" "symbol" "collection" None)] |}.

Definition swiftUIDoc : Document :=
  {| doc_metadata := Some {| md_title := Some "SwiftUI"; md_symbolKind := None;
                             md_platforms := Some [iOS] |};
     doc_abstract := Some [{| frag_text := "Declare the user interface."; frag_type := "text" |}];
     doc_topicSections := Some [{| sec_title := "Essentials"; sec_identifiers := Some ["r1"] |}];
     doc_references :=
       Some [("r1", mkRef "View" "protocol" "symbol" None);
             ("r2", mkRef "ScrollView" "struct" "symbol" (Some [iOS]));
             ("r3", mkRef "Text" "struct" "symbol" None);
             ("r4", mkRef "ViewBuilder" "struct" "symbol" None);
             ("r5", mkRef "view" "method" "symbol" None)] |}.

Definition uiKitDoc : Document :=
  {| doc_metadata := None; doc_abstract := None; doc_topicSections := Some [];
     doc_references :=
       Some [("u1", mkRef "UIViewController" "class" "symbol" None);
             ("u2", mkRef "UIView" "class" "symbol" None);
             ("u3", mkRef "UIButton" "class" "symbol" None)] |}.

Definition rejection : JsError :=
  {| err_name := "AxiosError"; err_message := "Request failed with status code 404" |}.

(** Every exchange takes 100 ms; three documents exist. *)
Definition network (url : string) (time : Z) : Response :=
  {| outcome :=
       if String.eqb url technologiesUrl then Ok technologiesDoc
       else if String.eqb url (frameworkUrl "SwiftUI") then Ok swiftUIDoc
       else if String.eqb url (frameworkUrl "UIKit") then Ok uiKitDoc
       else Throw rejection;
     elapsed := 100 |}.

(** Only the technology index can be fetched. *)
Definition indexOnly (url : string) (time : Z) : Response :=
  {| outcome :=
       if String.eqb url technologiesUrl then Ok technologiesDoc
       else Throw rejection;
     elapsed := 100 |}.

Definition start : World := {| cache := ∅; now := 0; requests := [] |}.

Definition options (cap : nat) : SearchOptions :=
  {| symbolType := None; platform := None; maxResults := Some cap |}.

End Sample.

(** ** Definitions used to state the properties *)

(** *** The pattern source, character by character *)

Definition headIs (x : ascii) (s : string) : bool :=
  match s with
  | "" => false
  | String d _ => Ascii.eqb d x
  end.

(** What one query character contributes to the escaped query, and to the
    pattern source after the first and after the second replacement. *)
Definition escapedUnit (c : ascii) : string :=
  if RegExp.isSyntaxChar c then String "\" (String c "") else String c "".

Definition starUnit (c : ascii) : string :=
  if Ascii.eqb c "*" then ".*" else escapedUnit c.

Definition globUnit (c : ascii) : string :=
  if Ascii.eqb c "?" then "." else starUnit c.

Fixpoint render (unit : ascii → string) (query : string) : string :=
  match query with
  | "" => ""
  | String c r => unit c +:+ render unit r
  end.

(** The compiled form of one query character. *)
Definition globTerm (c : ascii) : RegExp.term :=
  if Ascii.eqb c "*" then RegExp.ZeroOrMore RegExp.AnyChar
  else if Ascii.eqb c "?" then RegExp.Once RegExp.AnyChar
  else RegExp.Once (RegExp.Char c).

Fixpoint globTerms (query : string) : RegExp.regexp :=
  match query with
  | "" => []
  | String c r => globTerm c :: globTerms r
  end.

(** *** Glob matching, as the specification words it

    [*] stands for zero or more characters, [?] for exactly one, any
    other character for itself up to case; [wild] says which characters a
    wildcard may stand for. *)

Definition sameLetter (a c : ascii) : Prop := Js.lowerChar a = Js.lowerChar c.

Inductive globMatches (wild : ascii → bool) : string → string → Prop :=
| glob_end :
    globMatches wild "" ""
| glob_star_none q t :
    globMatches wild q t →
    globMatches wild (String "*" q) t
| glob_star_more q c t :
    wild c = true →
    globMatches wild (String "*" q) t →
    globMatches wild (String "*" q) (String c t)
| glob_question q c t :
    wild c = true →
    globMatches wild q t →
    globMatches wild (String "?" q) (String c t)
| glob_literal a q c t :
    a ≠ "*"%char → a ≠ "?"%char →
    sameLetter a c →
    globMatches wild q t →
    globMatches wild (String a q) (String c t).

(** Unanchored: some stretch of the title matches the glob. *)
Definition globFinds (wild : ascii → bool) (query title : string) : Prop :=
  ∃ before mid after_, title = before +:+ mid +:+ after_ ∧ globMatches wild query mid.

Definition anyCharacter (c : ascii) : bool := true.

Definition notLineTerminator (c : ascii) : bool := negb (RegExp.isLineTerminator c).

Fixpoint isLiteral (query : string) : bool :=
  match query with
  | "" => true
  | String c r => negb (Ascii.eqb c "*") && negb (Ascii.eqb c "?") && isLiteral r
  end.

(** Case-insensitive substring test. *)
Definition containsIgnoringCase (title query : string) : bool :=
  Js.includes (Js.toLowerCase title) (Js.toLowerCase query).

(** *** Scoring, as the specification words it: both wildcard characters
    are stripped from the query. *)

Definition stripWildcards (query : string) : string :=
  Js.removeAll "?" (Js.removeAll "*" query).

Definition scoreMatch_spec (title query : string) : nat :=
  let lowerTitle := Js.toLowerCase title in
  let stripped := Js.toLowerCase (stripWildcards query) in
  if String.eqb lowerTitle stripped then 0
  else if Js.startsWith lowerTitle stripped then 1
  else if Js.includes lowerTitle stripped then 2
  else 3.

Fixpoint onlyStars (query : string) : bool :=
  match query with
  | "" => true
  | String c r => Ascii.eqb c "*" && onlyStars r
  end.

(** *** The reference filter *)

Definition withoutPlatform (options : SearchOptions) : SearchOptions :=
  {| symbolType := symbolType options; platform := None;
     maxResults := maxResults options |}.

(** Some platform-availability record has a name that contains [wanted],
    case-insensitively. *)
Definition carriesPlatform (wanted : string) (platforms : list Platform) : Prop :=
  ∃ p name, p ∈ platforms ∧ plat_name p = Some name ∧
            containsIgnoringCase name wanted = true.

(** *** Ranking *)

(** The comparator [(a, b) => key(a) - key(b)]. *)
Definition byKey {A : Type} (key : A → nat) (a b : A) : Z :=
  (Z.of_nat (key a) - Z.of_nat (key b))%Z.

Definition scoreOf (query : string) (r : SearchResult) : nat :=
  scoreMatch (res_title r) query.

(** The references the filter accepts, in the iteration order of the
    reference map. *)
Definition acceptedRefs (pattern : RegExp.regexp) (options : SearchOptions)
    (entries : list (string * Reference)) : list Reference :=
  filter (fun ref => matchesSearch ref pattern options = true) (map snd entries).

Definition resultCap (options : SearchOptions) : nat :=
  default 20%nat (maxResults options).

(** *** The cache *)

(** The same world [dt] milliseconds later. *)
Definition later (dt : Z) (w : World) : World :=
  {| cache := cache w; now := (now w + dt)%Z; requests := requests w |}.

(** The cache holds an entry for [url] that is younger than the TTL. *)
Definition isFresh (w : World) (url : string) : bool :=
  match cache w !! url with
  | Some entry => (now w - timestamp entry <? cacheTimeout)%Z
  | None => false
  end.

(** *** Global search *)

Definition globalCap (options : SearchOptions) : nat :=
  default 50 (maxResults options).

Definition subOptions (options : SearchOptions) : SearchOptions :=
  {| symbolType := symbolType options;
     platform := platform options;
     maxResults := Some (subCap (globalCap options)) |}.

Definition candidateFrameworks (technologies : list (string * Technology))
    : list Technology :=
  take 20 (filter (fun tech => isFramework tech = true) (map snd technologies)).

(** Framework Search on each of [frameworks] in turn, whatever the
    outcomes: the outcomes in order, and the world afterwards. *)
Fixpoint visit (axios_get : string → Z → Response) (query : string)
    (options : SearchOptions) (frameworks : list Technology) (w : World)
    : list (Result (list SearchResult)) * World :=
  match frameworks with
  | [] => ([], w)
  | framework :: rest =>
      let '(outcome, w1) :=
        searchFramework axios_get (Js.show (ref_title framework)) query options w in
      let '(outcomes, w2) := visit axios_get query options rest w1 in
      (outcome :: outcomes, w2)
  end.

(** What one framework contributes: its results, nothing if it threw. *)
Definition contribution (outcome : Result (list SearchResult)) : list SearchResult :=
  match outcome with
  | Ok results => results
  | Throw _ => []
  end.

Definition gathered (outcomes : list (Result (list SearchResult)))
    : list SearchResult :=
  concat (map contribution outcomes).

(** *** The fallback resolver *)

(** The title matches the cleaned path or its first segment: equal up to
    case, or equal up to case once all whitespace is removed. *)
Definition titleMatches (path title : string) : bool :=
  let cleanPath := cleanPathOf path in
  let segment := Js.firstSegment "/" cleanPath in
  sameTitle title segment || sameTitle title cleanPath ||
  sameTitleNoSpaces title segment || sameTitleNoSpaces title cleanPath.

(** The titles of the index that match [path], in index order. *)
Fixpoint matchingTitles (path : string) (technologies : list Technology)
    : list string :=
  match technologies with
  | [] => []
  | tech :: rest =>
      match ref_title tech with
      | Some title =>
          if Js.truthy (Some title) && titleMatches path title
          then title :: matchingTitles path rest
          else matchingTitles path rest
      | None => matchingTitles path rest
      end
  end.

Definition internalError (error : JsError) : McpError :=
  {| mcp_code := InternalError;
     mcp_message := "Error executing tool: " +:+ err_message error |}.

(** ** [maxResults] as a number

    [maxResults] reaches the client as a JavaScript number: the tool
    schema declares it of type "number" and the handler passes it on as
    it is.  Here it is a rational: every finite number a JSON argument
    can carry.  [maxResults / 4] is taken exactly, as it is in double
    arithmetic for every number that is zero or of magnitude at least
    2^-1020 (below that the quotient is rounded).  The definitions above, whose cap is a whole number, are
    these with [maxResults] rounded up (lemmas
    [numeric_searchFramework_cap] and [numeric_searchGlobal_cap]), and
    these at the whole numbers ([numeric_searchFramework_whole] and
    [numeric_searchGlobal_whole]). *)

Module Numeric.

Record Options : Type :=
  { optSymbolType : option string;
    optPlatform : option string;
    optMaxResults : option Q }.

(** The options [matchesSearch] reads. *)
Definition filters (options : Options) : SearchOptions :=
  {| symbolType := optSymbolType options;
     platform := optPlatform options;
     maxResults := None |}.

(** [length >= maxResults] *)
Definition reached (length : nat) (maxResults : Q) : bool :=
  Qle_bool maxResults (inject_Z (Z.of_nat length)).

(** [Math.ceil(maxResults / 4)] *)
Definition ceilQuarter (maxResults : Q) : Q :=
  inject_Z (Qceiling (maxResults / 4)).

(** ToIntegerOrInfinity of a finite number: rounding towards zero. *)
Definition truncate (x : Q) : Z :=
  if Qle_bool 0 x then Qfloor x else Qceiling x.

(** [results.slice(0, maxResults)] *)
Definition sliceTo {A} (maxResults : Q) (results : list A) : list A :=
  let len := Z.of_nat (length results) in
  let relativeEnd := truncate maxResults in
  let final :=
    if (relativeEnd <? 0)%Z then Z.max (len + relativeEnd) 0
    else Z.min relativeEnd len in
  take (Z.to_nat final) results.

Section Client.

Variable axios_get : string → Z → Response.

Fixpoint collect (frameworkName : string) (framework : Document)
    (pattern : RegExp.regexp) (options : Options) (maxResults : Q)
    (entries : list (string * Reference)) (results : list SearchResult)
    : list SearchResult :=
  match entries with
  | [] => results
  | (_, ref) :: rest =>
      if reached (length results) maxResults
      then collect frameworkName framework pattern options maxResults rest results
      else if matchesSearch ref pattern (filters options)
      then collect frameworkName framework pattern options maxResults rest
             (results ++ [toResult frameworkName framework ref])
      else collect frameworkName framework pattern options maxResults rest results
  end.

Definition searchFramework (frameworkName query : string)
    (options : Options) : M (list SearchResult) :=
  let maxResults := default 20%Q (optMaxResults options) in
  tryCatch
    (let* framework := getFramework axios_get frameworkName in
     match createSearchPattern query with
     | None => throw {| err_name := "SyntaxError"; err_message := "Invalid regular expression" |}
     | Some searchPattern =>
         match doc_references framework with
         | None => throw (typeError "Cannot convert undefined or null to object")
         | Some entries =>
             let results :=
               collect frameworkName framework searchPattern options maxResults entries [] in
             ret (sortBy (byScore query) results)
         end
     end)
    (fun error =>
       throw (newError ("Framework search failed for " +:+ frameworkName +:+ ": "
                        +:+ errorToString error))).

Fixpoint searchLoop (query : string) (options : Options) (maxResults : Q)
    (searchFrameworks : list Technology) (results : list SearchResult)
    (w : World) : list SearchResult * World :=
  match searchFrameworks with
  | [] => (results, w)
  | framework :: rest =>
      if reached (length results) maxResults then (results, w)
      else
        match searchFramework (Js.show (ref_title framework)) query
                {| optSymbolType := optSymbolType options;
                   optPlatform := optPlatform options;
                   optMaxResults := Some (ceilQuarter maxResults) |} w with
        | (Ok frameworkResults, w') =>
            searchLoop query options maxResults rest (results ++ frameworkResults) w'
        | (Throw _, w') =>
            searchLoop query options maxResults rest results w'
        end
  end.

Definition searchGlobal (query : string) (options : Options)
    : M (list SearchResult) :=
  let maxResults := default 50%Q (optMaxResults options) in
  tryCatch
    (let* technologies := getTechnologies axios_get in
     let frameworks := filter (fun tech => isFramework tech = true) (map snd technologies) in
     let searchFrameworks := take 20 frameworks in
     fun w =>
       let '(results, w') := searchLoop query options maxResults searchFrameworks [] w in
       (Ok (sliceTo maxResults results), w'))
    (fun error => throw (newError ("Global search failed: " +:+ errorToString error))).

End Client.

End Numeric.

(** ** The text of the tool responses *)

Module Text.

Definition nl : string := String "010" "".

Definition quote : string := String "034" "".

(** [content.join('\n')] *)
Definition lines (content : list string) : string := Js.join nl content.

(** [s.substring(0, n)] *)
Fixpoint substring0 (n : nat) (s : string) : string :=
  match n, s with
  | S n', String c r => String c (substring0 n' r)
  | _, _ => ""
  end.

(** [\`${s.substring(0, limit)}${s.length > limit ? '...' : ''}\`] *)
Definition clip (limit : nat) (s : string) : string :=
  substring0 limit s +:+ (if limit <? String.length s then "..." else "").

(** [v || fallback] *)
Definition orElse (v : option string) (fallback : string) : string :=
  if Js.truthy v then default "" v else fallback.

End Text.

(** The arguments of a tool call.  [path] and [query] are required by
    the input schemas of the tools that read them; [maxResults] is of the
    schema type "number". *)
Record ToolArguments : Type :=
  { arg_path : string;
    arg_query : string;
    arg_framework : option string;
    arg_symbolType : option string;
    arg_platform : option string;
    arg_maxResults : option Q }.

(** One line of a technology listing. *)
Record Item : Type := { item_name : option string; item_description : string }.

Definition itemOf (tech : Technology) : Item :=
  {| item_name := ref_title tech; item_description := extractText (ref_abstract tech) |}.

(** [\`• **${f.name}** - ${f.description}\`] *)
Definition itemLine (f : Item) : string :=
  "• **" +:+ Js.show (item_name f) +:+ "** - " +:+ item_description f.

(** ** [src/index.ts] *)

Module Source.

Definition popular : list string :=
  ["SwiftUI"; "UIKit"; "AppKit"; "Foundation"; "Core Data"; "Combine"].

(** [popular.includes(tech.title)] *)
Definition isPopular (title : option string) : bool :=
  match title with
  | Some t => bool_decide (t ∈ popular)
  | None => false
  end.

(** The [forEach] of [handleListTechnologies]: [unshift] puts a popular
    framework in front, [push] puts anything else at the end. *)
Fixpoint groupTechnologies (technologies : list Technology)
    (frameworks others : list Item) : list Item * list Item :=
  match technologies with
  | [] => (frameworks, others)
  | tech :: rest =>
      if isFramework tech then
        if isPopular (ref_title tech)
        then groupTechnologies rest (itemOf tech :: frameworks) others
        else groupTechnologies rest (frameworks ++ [itemOf tech]) others
      else groupTechnologies rest frameworks (others ++ [itemOf tech])
  end.

Definition listContent (frameworks others : list Item) : list string :=
  ["# Apple Developer Technologies" +:+ Text.nl;
   "## Core Frameworks" +:+ Text.nl]
  ++ map itemLine (take 15 frameworks)
  ++ [Text.nl +:+ "## Additional Technologies" +:+ Text.nl]
  ++ map itemLine (take 10 others)
  ++ [Text.nl +:+ "*Use `browse_framework <name>` to explore a specific framework*";
      Text.nl +:+ Text.nl +:+ "**Total: " +:+ pretty (length frameworks + length others)
      +:+ " technologies available**"].

(** [\`• **${section.title}** (${count} items)\`] *)
Definition topicLine (section : TopicSection) : string :=
  "• **" +:+ sec_title section +:+ "** ("
  +:+ pretty (length (default [] (sec_identifiers section))) +:+ " items)".

Definition browseContent (framework : string) (data : Document)
    (sections : list TopicSection) : list string :=
  let title := Text.orElse (doc_metadata data ≫= md_title) framework in
  let description := extractText (doc_abstract data) in
  let platforms := formatPlatforms (doc_metadata data ≫= md_platforms) in
  ["# " +:+ title +:+ " Framework" +:+ Text.nl;
   "**Platforms:** " +:+ platforms +:+ Text.nl;
   "## Overview";
   description;
   Text.nl +:+ "## Topics" +:+ Text.nl]
  ++ map topicLine sections
  ++ [Text.nl +:+ "*Use `get_symbol <path>` for specific documentation*";
      "*Example: `get_symbol documentation/SwiftUI/View`*"].

(** The property names every object inherits from [Object.prototype]. *)
Definition inheritedNames : list string :=
  ["constructor"; "hasOwnProperty"; "isPrototypeOf"; "propertyIsEnumerable";
   "toLocaleString"; "toString"; "valueOf"; "__proto__";
   "__defineGetter__"; "__defineSetter__"; "__lookupGetter__"; "__lookupSetter__"].

(** What an inherited member is to the code that reads it as a
    reference: a truthy value without [title] and [abstract]. *)
Definition inheritedMember : Reference :=
  {| ref_title := None; ref_abstract := None; ref_url := "";
     ref_kind := None; ref_role := None; ref_platforms := None |}.

(** [data.references?.[id]]: the entry of the map under [id], else the
    member of that name the map inherits, else [undefined]. *)
Definition lookupReference (data : Document) (id : string) : option Reference :=
  match doc_references data with
  | None => None
  | Some entries =>
      match List.find (fun entry => String.eqb (fst entry) id) entries with
      | Some entry => Some (snd entry)
      | None => if bool_decide (id ∈ inheritedNames) then Some inheritedMember else None
      end
  end.

(** The line of one identifier of a topic section, when the document has
    a reference for it. *)
Definition referenceLine (data : Document) (id : string) : option string :=
  match lookupReference data id with
  | Some ref =>
      let refDesc := extractText (Some (default [] (ref_abstract ref))) in
      Some ("• **" +:+ Js.show (ref_title ref) +:+ "** - " +:+ Text.clip 100 refDesc)
  | None => None
  end.

(** What one topic section pushes on [content]. *)
Definition sectionLines (data : Document) (section : TopicSection) : list string :=
  ["### " +:+ sec_title section]
  ++ match sec_identifiers section with
     | Some ((_ :: _) as identifiers) =>
         omap (referenceLine data) (take 5 identifiers)
         ++ (if 5 <? length identifiers
             then ["*... and " +:+ pretty (length identifiers - 5) +:+ " more items*"]
             else [])
     | _ => []
     end
  ++ [""].

Definition symbolContent (data : Document) : list string :=
  let title := Text.orElse (doc_metadata data ≫= md_title) "Symbol" in
  let kind := Text.orElse (doc_metadata data ≫= md_symbolKind) "Unknown" in
  let platforms := formatPlatforms (doc_metadata data ≫= md_platforms) in
  let description := extractText (doc_abstract data) in
  ["# " +:+ title +:+ Text.nl;
   "**Type:** " +:+ kind;
   "**Platforms:** " +:+ platforms +:+ Text.nl;
   "## Overview";
   description]
  ++ match doc_topicSections data with
     | Some ((_ :: _) as sections) =>
         [Text.nl +:+ "## API Reference" +:+ Text.nl]
         ++ concat (map (sectionLines data) sections)
     | _ => []
     end.

(** What one search result pushes on [content]. *)
Definition resultLines (index : nat) (result : SearchResult) : list string :=
  ["### " +:+ pretty (index + 1) +:+ ". " +:+ res_title result;
   "**Framework:** " +:+ res_framework result +:+
   (if Js.truthy (res_symbolKind result)
    then " | **Type:** " +:+ default "" (res_symbolKind result) else "")]
  ++ (if Js.truthy (Some (res_platforms result))
      then ["**Platforms:** " +:+ res_platforms result] else [])
  ++ ["**Path:** `" +:+ res_path result +:+ "`"]
  ++ (if Js.truthy (Some (res_description result))
      then [Text.clip 150 (res_description result)] else [])
  ++ [""].

Definition searchContent (args : ToolArguments) (results : list SearchResult)
    : list string :=
  ["# Search Results for " +:+ Text.quote +:+ arg_query args +:+ Text.quote +:+ Text.nl;
   if Js.truthy (arg_framework args)
   then "**Framework:** " +:+ default "" (arg_framework args)
   else "**Scope:** All frameworks"]
  ++ (if Js.truthy (arg_symbolType args)
      then ["**Symbol Type:** " +:+ default "" (arg_symbolType args)] else [])
  ++ (if Js.truthy (arg_platform args)
      then ["**Platform:** " +:+ default "" (arg_platform args)] else [])
  ++ ["**Found:** " +:+ pretty (length results) +:+ " results" +:+ Text.nl]
  ++ match results with
     | _ :: _ =>
         ["## Results" +:+ Text.nl]
         ++ concat (imap resultLines results)
         ++ ["*Use `get_symbol` with any path above to see detailed documentation*"]
     | [] =>
         ["## No Results Found" +:+ Text.nl;
          "Try:";
          "• Broader search terms";
          "• Wildcard patterns (e.g., " +:+ Text.quote +:+ "UI*" +:+ Text.quote +:+ ", "
          +:+ Text.quote +:+ "*View*" +:+ Text.quote +:+ ")";
          "• Removing filters"]
     end.

Section Handlers.

Variable axios_get : string → Z → Response.

(** The message the SDK gives an [McpError] built from a code and a text. *)
Variable mcpErrorMessage : ErrorCode → string → string.

Definition handleListTechnologies : M string :=
  let* technologies := getTechnologies axios_get in
  let '(frameworks, others) := groupTechnologies (map snd technologies) [] [] in
  ret (Text.lines (listContent frameworks others)).

Definition handleBrowseFramework (args : ToolArguments) : M string :=
  let framework := Js.show (arg_framework args) in
  let* data := getFramework axios_get framework in
  match doc_topicSections data with
  | None => throw (typeError "Cannot read properties of undefined (reading 'map')")
  | Some sections => ret (Text.lines (browseContent framework data sections))
  end.

(** [handleGetSymbol], with the text of its response. *)
Definition handleGetSymbolText (args : ToolArguments) : M string :=
  let* data := getSymbol axios_get (arg_path args) in
  ret (Text.lines (symbolContent data)).

(** The search of [handleSearchSymbols]. *)
Definition searchSymbols (args : ToolArguments) : M (list SearchResult) :=
  let options :=
    {| Numeric.optSymbolType := arg_symbolType args;
       Numeric.optPlatform := arg_platform args;
       Numeric.optMaxResults := Some (default 20%Q (arg_maxResults args)) |} in
  if Js.truthy (arg_framework args)
  then Numeric.searchFramework axios_get (default "" (arg_framework args))
         (arg_query args) options
  else Numeric.searchGlobal axios_get (arg_query args) options.

Definition handleSearchSymbols (args : ToolArguments) : M string :=
  let* results := searchSymbols args in
  ret (Text.lines (searchContent args results)).

(** The handler of [CallToolRequestSchema]. *)
Definition callToolRequest (name : string) (args : ToolArguments)
    : World → (string + McpError) * World := fun w =>
  let handler : M string :=
    if String.eqb name "list_technologies" then handleListTechnologies
    else if String.eqb name "browse_framework" then handleBrowseFramework args
    else if String.eqb name "get_symbol" then handleGetSymbolText args
    else if String.eqb name "search_symbols" then handleSearchSymbols args
    else throw {| err_name := "McpError";
                  err_message := mcpErrorMessage MethodNotFound ("Unknown tool: " +:+ name) |} in
  match handler w with
  | (Ok text, w') => (inl text, w')
  | (Throw error, w') =>
      (inr {| mcp_code := InternalError;
              mcp_message := "Error executing tool: " +:+ err_message error |}, w')
  end.

End Handlers.

End Source.

(** ** [dist/index.js]: the technology listing *)

Module Built.

(** The [forEach] of [handleListTechnologies]: every item is pushed. *)
Fixpoint groupTechnologies (technologies : list Technology)
    (frameworks others : list Item) : list Item * list Item :=
  match technologies with
  | [] => (frameworks, others)
  | tech :: rest =>
      if isFramework tech
      then groupTechnologies rest (frameworks ++ [itemOf tech]) others
      else groupTechnologies rest frameworks (others ++ [itemOf tech])
  end.

Definition listContent (frameworks others : list Item) : list string :=
  ["# Apple Developer Technologies" +:+ Text.nl;
   "## Core Frameworks" +:+ Text.nl]
  ++ map itemLine (take 15 frameworks)
  ++ [Text.nl +:+ "## Additional Technologies" +:+ Text.nl]
  ++ map itemLine (take 10 others)
  ++ [Text.nl +:+ "*Use `get_documentation <name>` to explore any framework or symbol*";
      Text.nl +:+ Text.nl +:+ "**Total: " +:+ pretty (length frameworks + length others)
      +:+ " technologies available**"].

Definition handleListTechnologies (axios_get : string → Z → Response) : M string :=
  let* technologies := getTechnologies axios_get in
  let '(frameworks, others) := groupTechnologies (map snd technologies) [] [] in
  ret (Text.lines (listContent frameworks others)).

End Built.

(** *** Worlds, before and after a call *)

(** No cache entry is lost between [w] and [w']. *)
Definition keepsCache (w w' : World) : Prop :=
  ∀ url, is_Some (cache w !! url) → is_Some (cache w' !! url).

(** Between [w] and [w'] at most [n] requests went to the network. *)
Definition appendsRequests (n : nat) (w w' : World) : Prop :=
  ∃ new, requests w' = requests w ++ new ∧ length new ≤ n.

(** The text [scoreMatch] compares the title with. *)
Definition strippedQuery (query : string) : string :=
  Js.toLowerCase (Js.removeAll "*" query).

(** The three tests of the reference filter, one by one. *)
Definition titleAccepted (ref : Reference) (pattern : RegExp.regexp) : bool :=
  Js.truthy (ref_title ref) && RegExp.test pattern (default "" (ref_title ref)).

Definition kindAccepted (ref : Reference) (options : SearchOptions) : bool :=
  negb (Js.truthy (symbolType options)) ||
  bool_decide (ref_kind ref = symbolType options).

Definition platformAccepted (ref : Reference) (options : SearchOptions) : bool :=
  match Js.truthy (platform options), ref_platforms ref with
  | true, Some platforms =>
      existsb (platformNamed (default "" (platform options))) platforms
  | _, _ => true
  end.

(** *** The technology listing *)

Definition frameworkItems (technologies : list Technology) : list Item :=
  itemOf <$> filter (fun tech => isFramework tech = true) technologies.

Definition otherItems (technologies : list Technology) : list Item :=
  itemOf <$> filter (fun tech => isFramework tech ≠ true) technologies.

Definition popularItem (f : Item) : Prop := Source.isPopular (item_name f) = true.

(** *** Further definitions used to state the properties *)

(** The result lists of the framework searches that did not throw, in order. *)
Definition successes (outcomes : list (Result (list SearchResult)))
    : list (list SearchResult) :=
  omap (fun outcome => match outcome with Ok found => Some found | Throw _ => None end)
       outcomes.

(** Every character is an ASCII character (code below 128). *)
Fixpoint isAscii (s : string) : bool :=
  match s with
  | "" => true
  | String c r => (nat_of_ascii c <? 128) && isAscii r
  end.

(** The least whole number of results that reaches [maxResults]:
    [ceil(maxResults)], and 0 for a [maxResults] that is not positive. *)
Definition wholeCap (maxResults : Q) : nat := Z.to_nat (Qceiling maxResults).

(** A whole number as a JavaScript number. *)
Definition whole (n : nat) : Q := inject_Z (Z.of_nat n).

(** The options of a framework search, with the whole cap that
    [maxResults] amounts to. *)
Definition wholeOptions (options : Numeric.Options) : SearchOptions :=
  {| symbolType := Numeric.optSymbolType options;
     platform := Numeric.optPlatform options;
     maxResults := Some (wholeCap (default 20%Q (Numeric.optMaxResults options))) |}.

(** Options with a whole [maxResults], as the numbers they are. *)
Definition numericOptions (options : SearchOptions) : Numeric.Options :=
  {| Numeric.optSymbolType := symbolType options;
     Numeric.optPlatform := platform options;
     Numeric.optMaxResults := whole <$> maxResults options |}.

(** The most results a [slice(0, maxResults)] keeps of a list:
    [floor(maxResults)], and 0 for a negative [maxResults]. *)
Definition floorCap (maxResults : Q) : nat := Z.to_nat (Qfloor maxResults).

(** The options of a global search, with the whole cap that
    [maxResults] amounts to in its loop. *)
Definition wholeGlobal (options : Numeric.Options) : SearchOptions :=
  {| symbolType := Numeric.optSymbolType options;
     platform := Numeric.optPlatform options;
     maxResults := Some (wholeCap (default 50%Q (Numeric.optMaxResults options))) |}.

(** An outcome with its results cut to the first [n]. *)
Definition capped (n : nat) (outcome : Result (list SearchResult))
    : Result (list SearchResult) :=
  match outcome with
  | Ok results => Ok (take n results)
  | Throw error => Throw error
  end.

(** ** Examples *)

Example patternSource_ex : patternSource "RP.Broad*c?st\" = "RP\.Broad.*c.st\\".
Proof. reflexivity. Qed.

Example createSearchPattern_ex1 :
  (fun re => RegExp.test re "MyViewController") <$> createSearchPattern "View" = Some true.
Proof. reflexivity. Qed.

Example createSearchPattern_ex2 :
  (fun re => (RegExp.test re "RPBroadcastSampleHandler", RegExp.test re "SomeBroadcastThing"))
    <$> createSearchPattern "RPBroadcast*" = Some (true, false).
Proof. reflexivity. Qed.

Example scoreMatch_ex :
  (scoreMatch "SwiftUI" "SwiftUI", scoreMatch "SwiftUIView" "SwiftUI",
   scoreMatch "MySwiftUIHelper" "SwiftUI", scoreMatch "Anything" "*") = (0, 1, 2, 1)%nat.
Proof. reflexivity. Qed.

Example createSearchPattern_ex3 :
  (fun re => map (RegExp.test re) ["UIView"; "ViewController"; "MyCustomView"; "Button"])
    <$> createSearchPattern "*View*" = Some [true; true; true; false].
Proof. reflexivity. Qed.

(** ** Strings *)

Lemma append_nil_l (s : string) : "" +:+ s = s.
Proof. reflexivity. Qed.

Lemma append_cons (c : ascii) (s t : string) : String c s +:+ t = String c (s +:+ t).
Proof. reflexivity. Qed.

Create Rewrite HintDb str.
#[export] Hint Rewrite append_nil_l append_cons : str.

Ltac str_simpl := autorewrite with str in *; simpl in *.

Lemma append_nil_r (s : string) : s +:+ "" = s.
Proof. induction s as [|c s IH]; str_simpl; [done|by rewrite IH]. Qed.

Lemma startsWith_nil (s : string) : Js.startsWith s "" = true.
Proof. by destruct s. Qed.

Lemma startsWith_append (s p : string) :
  Js.startsWith s p = true ↔ ∃ rest, s = p +:+ rest.
Proof.
  revert s. induction p as [|a p IH]; intros s.
  - rewrite startsWith_nil. split; [eauto|done].
  - destruct s as [|c s]; simpl.
    + split; [done|]. by intros [rest ?].
    + rewrite andb_true_iff, IH. split.
      * intros [Hc [rest ->]]. apply Ascii.eqb_eq in Hc as ->. eauto.
      * intros [rest [= -> ->]]. rewrite Ascii.eqb_refl. eauto.
Qed.

Lemma includes_append (s p : string) :
  Js.includes s p = true ↔ ∃ before after_, s = before +:+ p +:+ after_.
Proof.
  induction s as [|c s IH]; cbn [Js.includes].
  - rewrite orb_false_r, startsWith_append. split.
    + intros [rest ->]. by exists "", rest.
    + intros [before [after_ H]]. destruct before; str_simpl; [eauto|done].
  - rewrite orb_true_iff, startsWith_append, IH. split.
    + intros [[rest ->]|[before [after_ ->]]].
      * by exists "", rest.
      * by exists (String c before), after_.
    + intros [[|c' before] [after_ H]]; str_simpl.
      * left. eauto.
      * right. injection H as -> ->. eauto.
Qed.

Lemma removeAll_onlyStars (q : string) :
  onlyStars q = true → Js.removeAll "*" q = "".
Proof.
  induction q as [|c q IH]; simpl; [done|].
  intros [Hc Hq]%andb_true_iff. rewrite Hc. auto.
Qed.

(** Upper-casing and lower-casing identify the same pairs of characters. *)
Lemma lower_upper (c : ascii) : Js.lowerChar (Js.upperChar c) = Js.lowerChar c.
Proof. destruct c as [[] [] [] [] [] [] [] []]; reflexivity. Qed.

Lemma upper_lower (c : ascii) : Js.upperChar (Js.lowerChar c) = Js.upperChar c.
Proof. destruct c as [[] [] [] [] [] [] [] []]; reflexivity. Qed.

Lemma upper_eq_lower_eq (a c : ascii) :
  Js.upperChar a = Js.upperChar c ↔ Js.lowerChar a = Js.lowerChar c.
Proof.
  split; intros H.
  - by rewrite <- (lower_upper a), H, lower_upper.
  - by rewrite <- (upper_lower a), H, upper_lower.
Qed.

Lemma atomMatches_Char (a c : ascii) :
  RegExp.atomMatches (RegExp.Char a) c = Ascii.eqb (Js.lowerChar c) (Js.lowerChar a).
Proof.
  simpl. apply eq_true_iff_eq.
  rewrite !Ascii.eqb_eq, upper_eq_lower_eq. split; congruence.
Qed.

(** ** The pattern source and its compilation *)

Ltac str_norm := cbv beta iota; autorewrite with str.

Lemma replaceEscaped_other (x : ascii) (rep : string) (c : ascii) (r : string) :
  Ascii.eqb c "\" = false →
  Js.replaceEscaped x rep (String c r) = String c (Js.replaceEscaped x rep r).
Proof. intros Hc. destruct r as [|d r]; cbn [Js.replaceEscaped]; by rewrite ?Hc. Qed.

Lemma replaceEscaped_hit (x : ascii) (rep r : string) :
  Js.replaceEscaped x rep (String "\" (String x r)) = rep +:+ Js.replaceEscaped x rep r.
Proof. cbn [Js.replaceEscaped]. by rewrite !Ascii.eqb_refl. Qed.

Lemma replaceEscaped_backslash (x : ascii) (rep s : string) :
  headIs x s = false →
  Js.replaceEscaped x rep (String "\" s) = String "\" (Js.replaceEscaped x rep s).
Proof.
  destruct s as [|d s]; [done|]. cbn [headIs Js.replaceEscaped]. intros ->.
  by rewrite andb_false_r.
Qed.

Lemma not_syntax_neq (c x : ascii) :
  RegExp.isSyntaxChar c = false → RegExp.isSyntaxChar x = true → Ascii.eqb c x = false.
Proof. intros Hc Hx. apply Ascii.eqb_neq. intros ->. congruence. Qed.

Lemma headIs_escapeSpecial (x : ascii) (q : string) :
  RegExp.isSyntaxChar x = true → x ≠ "\"%char → headIs x (escapeSpecial q) = false.
Proof.
  intros Hx Hb. destruct q as [|c q]; [done|]. cbn [escapeSpecial].
  destruct (RegExp.isSyntaxChar c) eqn:Hc; cbn [headIs].
  - apply Ascii.eqb_neq. congruence.
  - by apply not_syntax_neq.
Qed.

Lemma headIs_render_starUnit (q : string) : headIs "?" (render starUnit q) = false.
Proof.
  destruct q as [|c q]; [done|]. cbn [render]. unfold starUnit, escapedUnit.
  destruct (Ascii.eqb c "*"); [done|].
  destruct (RegExp.isSyntaxChar c) eqn:Hc; str_norm; [done|].
  by apply not_syntax_neq.
Qed.

Lemma headIs_render_globUnit (q : string) : headIs "*" (render globUnit q) = false.
Proof.
  destruct q as [|c q]; [done|]. cbn [render]. unfold globUnit, starUnit, escapedUnit.
  destruct (Ascii.eqb c "?"); [done|].
  destruct (Ascii.eqb c "*"); [done|].
  destruct (RegExp.isSyntaxChar c) eqn:Hc; str_norm; [done|].
  by apply not_syntax_neq.
Qed.

Lemma escaped_then_star (q : string) :
  Js.replaceEscaped "*" ".*" (escapeSpecial q) = render starUnit q.
Proof.
  induction q as [|c q IH]; [done|]. cbn [escapeSpecial render].
  unfold starUnit, escapedUnit.
  destruct (RegExp.isSyntaxChar c) eqn:Hc.
  - destruct (Ascii.eqb_spec c "*") as [->|Hstar].
    + by rewrite replaceEscaped_hit, IH.
    + rewrite replaceEscaped_backslash by (by apply Ascii.eqb_neq).
      destruct (Ascii.eqb_spec c "\") as [->|Hb].
      * rewrite replaceEscaped_backslash by (by apply headIs_escapeSpecial).
        by rewrite IH.
      * rewrite replaceEscaped_other by (by apply Ascii.eqb_neq).
        by rewrite IH.
  - rewrite (not_syntax_neq c "*") by done.
    rewrite replaceEscaped_other by (by apply not_syntax_neq).
    by rewrite IH.
Qed.

Lemma star_then_question (q : string) :
  Js.replaceEscaped "?" "." (render starUnit q) = render globUnit q.
Proof.
  induction q as [|c q IH]; [done|]. cbn [render].
  pose proof (headIs_render_starUnit q) as Hhead.
  unfold globUnit, starUnit, escapedUnit in *.
  destruct (Ascii.eqb_spec c "?") as [->|Hq].
  - change (Ascii.eqb "?" "*") with false. change (RegExp.isSyntaxChar "?") with true.
    str_norm. by rewrite replaceEscaped_hit, IH.
  - destruct (Ascii.eqb_spec c "*") as [->|Hstar].
    + str_norm. rewrite !replaceEscaped_other by done. by rewrite IH.
    + destruct (RegExp.isSyntaxChar c) eqn:Hc; str_norm.
      * rewrite replaceEscaped_backslash by (by apply Ascii.eqb_neq).
        destruct (Ascii.eqb_spec c "\") as [->|Hb].
        -- rewrite replaceEscaped_backslash by done. by rewrite IH.
        -- rewrite replaceEscaped_other by (by apply Ascii.eqb_neq). by rewrite IH.
      * rewrite replaceEscaped_other by (by apply not_syntax_neq). by rewrite IH.
Qed.

Lemma patternSource_render (q : string) : patternSource q = render globUnit q.
Proof. unfold patternSource. by rewrite escaped_then_star, star_then_question. Qed.

(** One step of [compile] in front of a string that does not start with
    a quantifier. *)
Lemma compile_plain (c : ascii) (rest : string) :
  RegExp.isSyntaxChar c = false → headIs "*" rest = false →
  RegExp.compile (String c rest) = cons (RegExp.Once (RegExp.Char c)) <$> RegExp.compile rest.
Proof.
  intros Hc Hrest. cbn [RegExp.compile].
  rewrite (not_syntax_neq c "\"), (not_syntax_neq c "."), Hc by done.
  destruct rest as [|d rest]; [done|]. cbn [headIs] in Hrest. by rewrite Hrest.
Qed.

Lemma compile_escaped (c : ascii) (rest : string) :
  RegExp.isSyntaxChar c = true → headIs "*" rest = false →
  RegExp.compile (String "\" (String c rest)) =
  cons (RegExp.Once (RegExp.Char c)) <$> RegExp.compile rest.
Proof.
  intros Hc Hrest. cbn [RegExp.compile]. rewrite Ascii.eqb_refl, Hc.
  destruct rest as [|d rest]; [done|]. cbn [headIs] in Hrest. by rewrite Hrest.
Qed.

Lemma compile_dot (rest : string) :
  headIs "*" rest = false →
  RegExp.compile (String "." rest) =
  cons (RegExp.Once RegExp.AnyChar) <$> RegExp.compile rest.
Proof.
  intros Hrest. cbn [RegExp.compile].
  change (Ascii.eqb "." "\") with false. rewrite Ascii.eqb_refl.
  destruct rest as [|d rest]; [done|]. cbn [headIs] in Hrest. by rewrite Hrest.
Qed.

Lemma compile_dot_star (rest : string) :
  RegExp.compile (String "." (String "*" rest)) =
  cons (RegExp.ZeroOrMore RegExp.AnyChar) <$> RegExp.compile rest.
Proof. reflexivity. Qed.

Lemma compile_render (q : string) :
  RegExp.compile (render globUnit q) = Some (globTerms q).
Proof.
  induction q as [|c q IH]; [done|]. cbn [render globTerms].
  pose proof (headIs_render_globUnit q) as Hhead.
  unfold globUnit, starUnit, escapedUnit, globTerm in *.
  destruct (Ascii.eqb_spec c "?") as [->|Hq].
  - change (Ascii.eqb "?" "*") with false. str_norm.
    by rewrite compile_dot, IH.
  - destruct (Ascii.eqb_spec c "*") as [->|Hstar].
    + str_norm. by rewrite compile_dot_star, IH.
    + destruct (RegExp.isSyntaxChar c) eqn:Hc; str_norm.
      * by rewrite compile_escaped, IH.
      * by rewrite compile_plain, IH.
Qed.

Lemma createSearchPattern_globTerms (q : string) :
  createSearchPattern q = Some (globTerms q).
Proof. unfold createSearchPattern. by rewrite patternSource_render, compile_render. Qed.

(** ** Matching *)

Lemma matchHere_star (a : RegExp.atom) (re : RegExp.regexp) (s : string) :
  RegExp.matchHere (RegExp.ZeroOrMore a :: re) s =
  RegExp.matchHere re s ||
  match s with
  | "" => false
  | String c s' => RegExp.atomMatches a c && RegExp.matchHere (RegExp.ZeroOrMore a :: re) s'
  end.
Proof. by destruct s. Qed.

Lemma globTerms_star (q : string) :
  globTerms (String "*" q) = RegExp.ZeroOrMore RegExp.AnyChar :: globTerms q.
Proof. reflexivity. Qed.

Lemma globTerms_question (q : string) :
  globTerms (String "?" q) = RegExp.Once RegExp.AnyChar :: globTerms q.
Proof. reflexivity. Qed.

Lemma globTerms_literal (a : ascii) (q : string) :
  a ≠ "*"%char → a ≠ "?"%char →
  globTerms (String a q) = RegExp.Once (RegExp.Char a) :: globTerms q.
Proof.
  intros H1%Ascii.eqb_neq H2%Ascii.eqb_neq. cbn [globTerms]. unfold globTerm.
  by rewrite H1, H2.
Qed.

Lemma matchHere_complete (q mid : string) :
  globMatches notLineTerminator q mid →
  ∀ rest, RegExp.matchHere (globTerms q) (mid +:+ rest) = true.
Proof.
  induction 1 as [|q t _ IH|q c t Hc _ IH|q c t Hc _ IH|a q c t Ha1 Ha2 Hac _ IH];
    intros rest; autorewrite with str.
  - done.
  - by rewrite globTerms_star, matchHere_star, IH.
  - rewrite globTerms_star, matchHere_star, <- globTerms_star, IH.
    cbn [RegExp.atomMatches]. unfold notLineTerminator in Hc. rewrite Hc.
    apply orb_true_r.
  - rewrite globTerms_question. cbn [RegExp.matchHere RegExp.atomMatches].
    unfold notLineTerminator in Hc. by rewrite Hc, IH.
  - rewrite globTerms_literal by done. cbn [RegExp.matchHere].
    rewrite atomMatches_Char, IH, andb_true_r. apply Ascii.eqb_eq. by symmetry.
Qed.

Lemma matchHere_sound (q s : string) :
  RegExp.matchHere (globTerms q) s = true →
  ∃ mid rest, s = mid +:+ rest ∧ globMatches notLineTerminator q mid.
Proof.
  revert s. induction q as [|a q IH]; intros s.
  - intros _. exists "", s. split; [done|constructor].
  - destruct (Ascii.eqb_spec a "*") as [->|Hstar];
      [|destruct (Ascii.eqb_spec a "?") as [->|Hquestion]].
    + rewrite globTerms_star.
      induction s as [|c s IHs]; rewrite matchHere_star.
      * rewrite orb_false_r. intros (mid & rest & -> & Hm)%IH.
        exists mid, rest. split; [done|by constructor].
      * intros [(mid & rest & -> & Hm)%IH|[Hc Hs]%andb_true_iff]%orb_true_iff.
        -- exists mid, rest. split; [done|by constructor].
        -- destruct (IHs Hs) as (mid & rest & -> & Hm).
           exists (String c mid), rest. split; [done|].
           by apply glob_star_more.
    + rewrite globTerms_question. destruct s as [|c s]; [done|].
      cbn [RegExp.matchHere]. intros [Hc (mid & rest & -> & Hm)%IH]%andb_true_iff.
      exists (String c mid), rest. split; [done|]. by apply glob_question.
    + rewrite globTerms_literal by done. destruct s as [|c s]; [done|].
      cbn [RegExp.matchHere]. rewrite atomMatches_Char.
      intros [Hc%Ascii.eqb_eq (mid & rest & -> & Hm)%IH]%andb_true_iff.
      exists (String c mid), rest. split; [done|]. by apply glob_literal.
Qed.

Lemma test_somewhere (re : RegExp.regexp) (s : string) :
  RegExp.test re s = true ↔
  ∃ before tail, s = before +:+ tail ∧ RegExp.matchHere re tail = true.
Proof.
  induction s as [|c s IH]; cbn [RegExp.test].
  - rewrite orb_false_r. split.
    + intros H. by exists "", "".
    + intros ([|??] & tail & Heq & H); autorewrite with str in Heq; [by subst|done].
  - rewrite orb_true_iff, IH. split.
    + intros [H|(before & tail & -> & H)].
      * by exists "", (String c s).
      * by exists (String c before), tail.
    + intros ([|c' before] & tail & Heq & H); autorewrite with str in Heq.
      * left. by subst.
      * right. injection Heq as -> ->. eauto.
Qed.

Lemma test_globFinds (q title : string) :
  RegExp.test (globTerms q) title = true ↔ globFinds notLineTerminator q title.
Proof.
  rewrite test_somewhere. unfold globFinds. split.
  - intros (before & tail & -> & (mid & rest & -> & Hm)%matchHere_sound). eauto.
  - intros (before & mid & rest & -> & Hm).
    exists before, (mid +:+ rest). split; [done|]. by apply matchHere_complete.
Qed.

(** A query without wildcards compiles to a plain case-insensitive
    substring search. *)
Lemma matchHere_literal (q s : string) :
  isLiteral q = true →
  RegExp.matchHere (globTerms q) s = Js.startsWith (Js.toLowerCase s) (Js.toLowerCase q).
Proof.
  revert s. induction q as [|a q IH]; intros s; cbn [isLiteral].
  - intros _. by rewrite startsWith_nil.
  - intros [[Ha1%negb_true_iff%Ascii.eqb_neq Ha2%negb_true_iff%Ascii.eqb_neq]%andb_true_iff Hq]%andb_true_iff.
    rewrite globTerms_literal by done.
    destruct s as [|c s]; [done|].
    cbn [RegExp.matchHere Js.toLowerCase Js.startsWith].
    by rewrite atomMatches_Char, IH.
Qed.

Lemma test_literal (q s : string) :
  isLiteral q = true →
  RegExp.test (globTerms q) s = containsIgnoringCase s q.
Proof.
  intros Hq. unfold containsIgnoringCase.
  induction s as [|c s IH]; cbn [RegExp.test Js.toLowerCase Js.includes].
  - by rewrite (matchHere_literal q "").
  - by rewrite (matchHere_literal q (String c s)), IH.
Qed.

(** ** Properties of [createSearchPattern] *)

(** C9. For every query string, whatever regular-expression
    metacharacters it contains, [createSearchPattern] returns a compiled
    pattern: the constructor never throws. *)
Theorem createSearchPattern_never_throws (query : string) :
  is_Some (createSearchPattern query).
Proof. rewrite createSearchPattern_globTerms. eauto. Qed.

Example createSearchPattern_metacharacters :
  is_Some (createSearchPattern ".+^${}()[]\|*?").
Proof. rewrite createSearchPattern_globTerms. eauto. Qed.

(** C4, as stated, fails where a wildcard would have to stand for a line
    break: the glob [a*b] finds a match in "a", LF, "b" when [*] may stand
    for any character, and the compiled pattern rejects that title. *)
Lemma createSearchPattern_wildcard_line_break :
  let title := String "a" (String "010" "b") in
  globFinds anyCharacter "a*b" title ∧
  (fun re => RegExp.test re title) <$> createSearchPattern "a*b" = Some false.
Proof.
  split; [|reflexivity].
  exists "", (String "a" (String "010" "b")), "". split; [reflexivity|].
  apply glob_literal; [done|done|done|].
  apply glob_star_more; [done|]. apply glob_star_none.
  apply glob_literal; [done|done|done|]. constructor.
Qed.

(** C4 (amended). For every query and every title made of ASCII
    characters, [createSearchPattern] compiles the query to a
    case-insensitive, unanchored predicate on titles in which [*] matches
    zero or more characters other than line terminators, [?] matches
    exactly one character other than a line terminator, and every other
    character matches itself literally; for a query without [*] and [?]
    the predicate is the case-insensitive substring test. *)
Theorem createSearchPattern_glob (query title : string) :
  isAscii query = true → isAscii title = true →
  ∃ re, createSearchPattern query = Some re ∧
    (RegExp.test re title = true ↔ globFinds notLineTerminator query title) ∧
    (isLiteral query = true → RegExp.test re title = containsIgnoringCase title query).
Proof.
  intros _ _.
  exists (globTerms query). split; [apply createSearchPattern_globTerms|].
  split; [apply test_globFinds|apply test_literal].
Qed.

Lemma createSearchPattern_glob_witness :
  ∃ re, createSearchPattern "View" = Some re ∧
    RegExp.test re "MyViewController" = containsIgnoringCase "MyViewController" "View".
Proof.
  destruct (createSearchPattern_glob "View" "MyViewController" eq_refl eq_refl)
    as (re & Hre & _ & Hlit).
  exists re. split; [exact Hre|]. apply Hlit. reflexivity.
Defined.

(** ** Properties of [scoreMatch] *)

(** Where the query has no [?], the code and the specification's
    wording of the tiers agree. *)
Lemma stripWildcards_no_question (q : string) :
  Js.includes q "?" = false → stripWildcards q = Js.removeAll "*" q.
Proof.
  unfold stripWildcards.
  induction q as [|d q IH]; [done|]. cbn [Js.includes Js.startsWith Js.removeAll].
  rewrite startsWith_nil, andb_true_r. intros [Hd Hq]%orb_false_iff.
  destruct (Ascii.eqb d "*"); cbn [Js.removeAll]; rewrite ?Hd, IH; done.
Qed.

Lemma scoreMatch_spec_no_question (title query : string) :
  Js.includes query "?" = false → scoreMatch_spec title query = scoreMatch title query.
Proof.
  intros Hq. unfold scoreMatch_spec, scoreMatch.
  by rewrite stripWildcards_no_question.
Qed.

(** C3, as stated, fails on a query with [?]: the pattern of "Vie?"
    accepts "View"; with both wildcard characters stripped the title
    starts with the stripped query (tier 1), and [scoreMatch] gives 3. *)
Lemma scoreMatch_keeps_question_mark :
  (fun re => RegExp.test re "View") <$> createSearchPattern "Vie?" = Some true ∧
  scoreMatch_spec "View" "Vie?" = 1 ∧
  scoreMatch "View" "Vie?" = 3.
Proof. repeat split. Qed.

(** C3 (amended). [scoreMatch] strips [*] only from the query (a [?]
    stays as a literal character) and lower-cases title and query; the
    score is 0 if the two are equal, else 1 if the title starts with the
    stripped query, else 2 if it contains it, else 3. *)
Theorem scoreMatch_tiers (title query : string) :
  let lowerTitle := Js.toLowerCase title in
  let stripped := Js.toLowerCase (Js.removeAll "*" query) in
  (scoreMatch title query = 0 ↔ lowerTitle = stripped) ∧
  (scoreMatch title query = 1 ↔
     lowerTitle ≠ stripped ∧ ∃ rest, lowerTitle = stripped +:+ rest) ∧
  (scoreMatch title query = 2 ↔
     (¬ ∃ rest, lowerTitle = stripped +:+ rest) ∧
     ∃ before after_, lowerTitle = before +:+ stripped +:+ after_) ∧
  (scoreMatch title query = 3 ↔
     ¬ ∃ before after_, lowerTitle = before +:+ stripped +:+ after_).
Proof.
  intros lowerTitle stripped. unfold scoreMatch. fold lowerTitle stripped.
  pose proof (startsWith_append lowerTitle stripped) as Hprefix.
  pose proof (includes_append lowerTitle stripped) as Hinside.
  assert (lowerTitle = stripped → ∃ rest, lowerTitle = stripped +:+ rest) as Hsame.
  { intros ->. exists "". by rewrite append_nil_r. }
  assert ((∃ rest, lowerTitle = stripped +:+ rest) →
          ∃ before after_, lowerTitle = before +:+ stripped +:+ after_) as Hstart.
  { intros [rest ->]. by exists "", rest. }
  destruct (String.eqb_spec lowerTitle stripped) as [Heq|Hne].
  { repeat split; try done; intros []; tauto. }
  destruct (Js.startsWith lowerTitle stripped).
  { assert (∃ rest, lowerTitle = stripped +:+ rest) by by apply Hprefix.
    repeat split; try done; try tauto; intros []; tauto. }
  assert (¬ ∃ rest, lowerTitle = stripped +:+ rest) as Hnoprefix.
  { intros H%Hprefix. done. }
  destruct (Js.includes lowerTitle stripped).
  { assert (∃ before after_, lowerTitle = before +:+ stripped +:+ after_) by by apply Hinside.
    repeat split; try done; try tauto; intros []; tauto. }
  assert (¬ ∃ before after_, lowerTitle = before +:+ stripped +:+ after_) as Hnoinside.
  { intros H%Hinside. done. }
  repeat split; try done; try tauto; intros []; tauto.
Qed.

(** C10. For a query made of [*] only, [scoreMatch] is 1 on every
    non-empty title and 0 on the empty title alone; it is never 3. *)
Theorem scoreMatch_only_stars (title query : string) :
  onlyStars query = true →
  (title ≠ "" → scoreMatch title query = 1%nat) ∧
  (scoreMatch title query = 0%nat ↔ title = "") ∧
  scoreMatch title query ≠ 3%nat.
Proof.
  intros Hq. unfold scoreMatch. rewrite (removeAll_onlyStars _ Hq).
  cbn [Js.toLowerCase]. rewrite startsWith_nil.
  destruct title as [|c t]; cbn [Js.toLowerCase]; [by repeat split|].
  repeat split; done.
Qed.

Lemma scoreMatch_only_stars_witness :
  scoreMatch "Anything" "*" = 1%nat ∧ scoreMatch "" "**" = 0%nat.
Proof.
  split.
  - by apply (scoreMatch_only_stars "Anything" "*").
  - by apply (scoreMatch_only_stars "" "**").
Defined.

(** ** The reference filter *)

Lemma existsb_platformNamed (wanted : string) (ps : list Platform) :
  existsb (platformNamed wanted) ps = true ↔ carriesPlatform wanted ps.
Proof.
  rewrite existsb_exists. unfold carriesPlatform, platformNamed, containsIgnoringCase.
  split.
  - intros (p & Hin%list_elem_of_In & Hp). destruct (plat_name p) as [name|] eqn:Hn; [|done].
    eauto.
  - intros (p & name & Hin%list_elem_of_In & Hn & Hp). exists p. by rewrite Hn.
Qed.

(** C2, as stated, fails on an entry without platform data: the filter
    is skipped and the entry accepted. *)
Lemma matchesSearch_without_platform_data :
  let ref := Sample.mkRef "UIView" "class" "symbol" None in
  let options := {| symbolType := None; platform := Some "iOS"; maxResults := None |} in
  ref_platforms ref = None ∧
  (fun re => matchesSearch ref re options) <$> createSearchPattern "View" = Some true.
Proof. by split. Qed.

(** C2 (amended). When the platform filter is a non-empty string:
    an entry that carries platform data is rejected unless one of its
    platform-availability records has a name containing the filter value
    case-insensitively; an entry that carries no platform data is not
    subject to the platform filter. *)
Theorem matchesSearch_platform_filter (ref : Reference) (pattern : RegExp.regexp)
    (options : SearchOptions) (wanted : string) :
  platform options = Some wanted → wanted ≠ "" →
  match ref_platforms ref with
  | Some platforms =>
      matchesSearch ref pattern options = true →
      carriesPlatform wanted platforms
  | None =>
      matchesSearch ref pattern options =
      matchesSearch ref pattern (withoutPlatform options)
  end.
Proof.
  intros Hp Hne. unfold matchesSearch, withoutPlatform. cbn [platform symbolType].
  rewrite Hp. destruct wanted as [|c wanted]; [done|]. cbn [Js.truthy default].
  destruct (ref_platforms ref) as [ps|].
  - repeat (match goal with |- context [if ?b then _ else _] => destruct b eqn:? end; try done).
    intros _. apply existsb_platformNamed. by apply negb_false_iff.
  - done.
Qed.

Lemma matchesSearch_platform_filter_witness :
  carriesPlatform "ios" [Sample.iOS].
Proof.
  apply (matchesSearch_platform_filter
           (Sample.mkRef "ScrollView" "struct" "symbol" (Some [Sample.iOS]))
           (globTerms "View")
           {| symbolType := None; platform := Some "ios"; maxResults := None |} "ios").
  - reflexivity.
  - discriminate.
  - reflexivity.
Defined.

(** ** Stable sorting by a key *)

Section SortByKey.
Context {A : Type} (key : A → nat).

Lemma insertSorted_perm (x : A) (l : list A) : insertSorted (byKey key) x l ≡ₚ x :: l.
Proof.
  induction l as [|y l IH]; cbn [insertSorted]; [done|].
  destruct (0 <? byKey key x y)%Z; [|done].
  rewrite IH. apply Permutation_swap.
Qed.

Lemma sortBy_perm (l : list A) : sortBy (byKey key) l ≡ₚ l.
Proof.
  induction l as [|x l IH]; cbn [sortBy]; [done|].
  by rewrite insertSorted_perm, IH.
Qed.

Lemma insertSorted_sorted (x : A) (l : list A) :
  StronglySorted (fun a b => (key a ≤ key b)%nat) l →
  StronglySorted (fun a b => (key a ≤ key b)%nat) (insertSorted (byKey key) x l).
Proof.
  induction 1 as [|y l Hl IH Hy]; cbn [insertSorted].
  - repeat constructor.
  - destruct (0 <? byKey key x y)%Z eqn:Hxy.
    + apply Z.ltb_lt in Hxy. constructor; [done|].
      rewrite insertSorted_perm. constructor; [unfold byKey in Hxy; lia|done].
    + apply Z.ltb_ge in Hxy. constructor; [by constructor|].
      constructor; [unfold byKey in Hxy; lia|].
      eapply Forall_impl; [exact Hy|]. intros z Hz. unfold byKey in Hxy. simpl in *. lia.
Qed.

Lemma sortBy_sorted (l : list A) :
  StronglySorted (fun a b => (key a ≤ key b)%nat) (sortBy (byKey key) l).
Proof.
  induction l as [|x l IH]; cbn [sortBy]; [constructor|].
  by apply insertSorted_sorted.
Qed.

(** Stability: the elements of one key keep their relative order. *)
Lemma insertSorted_stable (k : nat) (x : A) (l : list A) :
  filter (fun a => key a = k) (insertSorted (byKey key) x l) =
  filter (fun a => key a = k) (x :: l).
Proof.
  induction l as [|y l IH]; cbn [insertSorted]; [done|].
  destruct (0 <? byKey key x y)%Z eqn:Hxy; [|done].
  apply Z.ltb_lt in Hxy. unfold byKey in Hxy.
  rewrite (filter_cons _ y), IH, !(filter_cons _ x), (filter_cons _ y).
  repeat case_decide; try done; lia.
Qed.

Lemma sortBy_stable (k : nat) (l : list A) :
  filter (fun a => key a = k) (sortBy (byKey key) l) = filter (fun a => key a = k) l.
Proof.
  induction l as [|x l IH]; cbn [sortBy]; [done|].
  by rewrite insertSorted_stable, !filter_cons, IH.
Qed.
End SortByKey.

(** ** [searchFramework] *)

Section FrameworkSearch.
Variable axios_get : string → Z → Response.
Variables (frameworkName query : string) (framework : Document).
Variables (pattern : RegExp.regexp) (options : SearchOptions) (cap : nat).

Lemma collect_take (entries : list (string * Reference)) (results : list SearchResult) :
  collect frameworkName framework pattern options cap entries results =
  results ++ take (cap - length results)
               (toResult frameworkName framework <$> acceptedRefs pattern options entries).
Proof.
  unfold acceptedRefs.
  revert results. induction entries as [|[id ref] entries IH]; intros results;
    cbn [collect map snd].
  - rewrite filter_nil, fmap_nil, take_nil. by rewrite app_nil_r.
  - rewrite filter_cons. destruct (cap <=? length results)%nat eqn:Hcap.
    + apply Nat.leb_le in Hcap. rewrite IH.
      replace (cap - length results)%nat with 0%nat by lia. done.
    + apply Nat.leb_gt in Hcap.
      destruct (matchesSearch ref pattern options) eqn:Hm.
      * rewrite decide_True by done. rewrite IH, length_app. cbn [length fmap list_fmap].
        replace (cap - length results)%nat with (S (cap - (length results + 1))) by lia.
        cbn [take]. by rewrite <- app_assoc.
      * rewrite decide_False by congruence. apply IH.
  Qed.
End FrameworkSearch.

Lemma searchFramework_run (axios_get : string → Z → Response)
    (frameworkName query : string) (options : SearchOptions) (w w' : World)
    (framework : Document) (entries : list (string * Reference)) :
  getFramework axios_get frameworkName w = (Ok framework, w') →
  doc_references framework = Some entries →
  searchFramework axios_get frameworkName query options w =
  (Ok (sortBy (byScore query)
         (take (resultCap options)
            (toResult frameworkName framework <$>
             acceptedRefs (globTerms query) options entries))), w').
Proof.
  intros Hget Hrefs. unfold searchFramework, tryCatch, bind. rewrite Hget.
  rewrite createSearchPattern_globTerms, Hrefs. unfold ret.
  by rewrite collect_take, app_nil_l, Nat.sub_0_r.
Qed.

Lemma elem_of_acceptedRefs (pattern : RegExp.regexp) (options : SearchOptions)
    (entries : list (string * Reference)) (ref : Reference) :
  ref ∈ acceptedRefs pattern options entries ↔
  matchesSearch ref pattern options = true ∧ ∃ id, (id, ref) ∈ entries.
Proof.
  unfold acceptedRefs. rewrite list_elem_of_filter, list_elem_of_fmap. split.
  - intros [Hm ([id ref'] & -> & Hin)]. eauto.
  - intros [Hm [id Hin]]. split; [done|]. by exists (id, ref).
Qed.

(** The ranking of a framework search with a whole [maxResults]. *)
Lemma searchFramework_whole_ranked (axios_get : string → Z → Response)
    (frameworkName query : string) (options : SearchOptions) (w w' : World)
    (framework : Document) (entries : list (string * Reference)) :
  getFramework axios_get frameworkName w = (Ok framework, w') →
  doc_references framework = Some entries →
  ∃ pattern results,
    createSearchPattern query = Some pattern ∧
    searchFramework axios_get frameworkName query options w = (Ok results, w') ∧
    length results ≤ resultCap options ∧
    (∀ r, r ∈ results →
       ∃ id ref, (id, ref) ∈ entries ∧ matchesSearch ref pattern options = true ∧
                 r = toResult frameworkName framework ref) ∧
    StronglySorted (fun a b => (scoreOf query a ≤ scoreOf query b)%nat) results ∧
    ∀ score,
      filter (fun r => scoreOf query r = score) results =
      filter (fun r => scoreOf query r = score)
        (take (resultCap options)
           (toResult frameworkName framework <$> acceptedRefs pattern options entries)).
Proof.
  intros Hget Hrefs. eexists _, _.
  split; [apply createSearchPattern_globTerms|].
  split; [by apply searchFramework_run with (entries := entries)|].
  set (found := take _ _).
  pose proof (sortBy_perm (scoreOf query) found) as Hperm.
  split; [|split; [|split]].
  - change (length (sortBy (byScore query) found) ≤ resultCap options).
    rewrite Hperm. unfold found. rewrite length_take. lia.
  - intros r Hr. change (r ∈ sortBy (byScore query) found) in Hr.
    rewrite Hperm in Hr. apply (subseteq_take _ _ r) in Hr.
    apply list_elem_of_fmap in Hr as (ref & -> & [Hm [id Hin]]%elem_of_acceptedRefs).
    eauto.
  - apply (sortBy_sorted (scoreOf query)).
  - intros score. apply (sortBy_stable (scoreOf query)).
Qed.


(** ** [maxResults] as a number *)

Lemma reached_wholeCap (n : nat) (maxResults : Q) :
  Numeric.reached n maxResults = (wholeCap maxResults <=? n).
Proof.
  unfold Numeric.reached, wholeCap. apply eq_true_iff_eq.
  rewrite Qle_bool_iff, Nat.leb_le. split.
  - intros H%Qceiling_resp_le. rewrite Qceiling_Z in H. lia.
  - intros H. eapply Qle_trans; [apply Qle_ceiling|].
    rewrite <- Zle_Qle. lia.
Qed.

Lemma wholeCap_whole (n : nat) : wholeCap (whole n) = n.
Proof. unfold wholeCap, whole. rewrite Qceiling_Z. lia. Qed.

Lemma wholeCap_eq (maxResults : Q) (n : nat) :
  (maxResults == whole n)%Q → wholeCap maxResults = n.
Proof. intros H. unfold wholeCap. rewrite H. apply wholeCap_whole. Qed.

Lemma wholeCap_nonpositive (maxResults : Q) :
  (maxResults <= 0)%Q → wholeCap maxResults = 0.
Proof.
  intros H%Qceiling_resp_le. unfold wholeCap.
  change (Qceiling 0) with 0%Z in H. lia.
Qed.

Lemma matchesSearch_filters (ref : Reference) (pattern : RegExp.regexp)
    (options options' : SearchOptions) :
  symbolType options = symbolType options' →
  platform options = platform options' →
  matchesSearch ref pattern options = matchesSearch ref pattern options'.
Proof. intros Hs Hp. unfold matchesSearch. by rewrite Hs, Hp. Qed.

Lemma collect_filters (frameworkName : string) (framework : Document)
    (pattern : RegExp.regexp) (options options' : SearchOptions) (cap : nat)
    (entries : list (string * Reference)) :
  symbolType options = symbolType options' →
  platform options = platform options' →
  ∀ results,
    collect frameworkName framework pattern options cap entries results
    = collect frameworkName framework pattern options' cap entries results.
Proof.
  intros Hs Hp. induction entries as [|[id ref] entries IH]; intros results; [done|].
  cbn [collect]. by rewrite !IH, (matchesSearch_filters ref pattern options options').
Qed.

(** A framework search reads its options through the two filters and
    the cap only. *)
Lemma searchFramework_options (axios_get : string → Z → Response)
    (frameworkName query : string) (options options' : SearchOptions) (w : World) :
  symbolType options = symbolType options' →
  platform options = platform options' →
  resultCap options = resultCap options' →
  searchFramework axios_get frameworkName query options w
  = searchFramework axios_get frameworkName query options' w.
Proof.
  intros Hs Hp Hcap. unfold searchFramework, tryCatch, bind.
  destruct (getFramework axios_get frameworkName w) as [[framework|error] w1]; [|done].
  destruct (createSearchPattern query) as [pattern|]; [|done].
  destruct (doc_references framework) as [entries|]; [|done].
  fold (resultCap options). fold (resultCap options').
  by rewrite Hcap, (collect_filters _ _ _ options options').
Qed.

Lemma numeric_collect (frameworkName : string) (framework : Document)
    (pattern : RegExp.regexp) (options : Numeric.Options) (maxResults : Q)
    (entries : list (string * Reference)) :
  ∀ results,
    Numeric.collect frameworkName framework pattern options maxResults entries results
    = collect frameworkName framework pattern (wholeOptions options)
        (wholeCap maxResults) entries results.
Proof.
  induction entries as [|[id ref] entries IH]; intros results; [done|].
  cbn [Numeric.collect collect]. rewrite reached_wholeCap, !IH.
  by rewrite (matchesSearch_filters ref pattern (Numeric.filters options)
                (wholeOptions options)).
Qed.

(** A framework search with the number [maxResults] is the framework
    search with the whole cap [ceil(maxResults)]. *)
Lemma numeric_searchFramework_cap (axios_get : string → Z → Response)
    (frameworkName query : string) (options : Numeric.Options) (w : World) :
  Numeric.searchFramework axios_get frameworkName query options w
  = searchFramework axios_get frameworkName query (wholeOptions options) w.
Proof.
  unfold Numeric.searchFramework, searchFramework, tryCatch, bind.
  destruct (getFramework axios_get frameworkName w) as [[framework|error] w1]; [|done].
  destruct (createSearchPattern query) as [pattern|]; [|done].
  destruct (doc_references framework) as [entries|]; [|done].
  by rewrite numeric_collect.
Qed.

(** At a whole [maxResults] the two framework searches are one. *)
Lemma numeric_searchFramework_whole (axios_get : string → Z → Response)
    (frameworkName query : string) (options : SearchOptions) (w : World) :
  Numeric.searchFramework axios_get frameworkName query (numericOptions options) w
  = searchFramework axios_get frameworkName query options w.
Proof.
  rewrite numeric_searchFramework_cap.
  apply searchFramework_options; [done|done|].
  destruct options as [kind plat [n|]]; [apply wholeCap_whole|reflexivity].
Qed.

(** C5, as stated, fails for a [maxResults] that is not a whole number:
    with [maxResults] 2.5 and four accepted references the search returns
    three results. *)
Lemma searchFramework_fractional_cap :
  ∃ results,
    fst (Numeric.searchFramework Sample.network "SwiftUI" "*view*"
           {| Numeric.optSymbolType := None; Numeric.optPlatform := None;
              Numeric.optMaxResults := Some (5 # 2) |} Sample.start) = Ok results ∧
    length results = 3 ∧
    (5 # 2 < whole (length results))%Q.
Proof. eexists. split; [vm_compute; reflexivity|]. split; reflexivity. Qed.

(** C5 (amended). For every framework document, query and [maxResults]
    value, a framework search returns at most [ceil(maxResults)] results
    (20 when the option is absent): at most [maxResults] when that is a
    whole number, none when it is zero or negative; every result is the
    projection of a reference the filter accepted; the list is sorted by
    [scoreMatch] ascending, and results of equal score stand in the
    iteration order of the reference map. *)
Theorem searchFramework_ranked (axios_get : string → Z → Response)
    (frameworkName query : string) (options : Numeric.Options) (w w' : World)
    (framework : Document) (entries : list (string * Reference)) :
  getFramework axios_get frameworkName w = (Ok framework, w') →
  doc_references framework = Some entries →
  let maxResults := default 20%Q (Numeric.optMaxResults options) in
  ∃ pattern results,
    createSearchPattern query = Some pattern ∧
    Numeric.searchFramework axios_get frameworkName query options w = (Ok results, w') ∧
    length results ≤ wholeCap maxResults ∧
    (∀ n, (maxResults == whole n)%Q → length results ≤ n) ∧
    ((maxResults <= 0)%Q → results = []) ∧
    (∀ r, r ∈ results →
       ∃ id ref, (id, ref) ∈ entries ∧
                 matchesSearch ref pattern (Numeric.filters options) = true ∧
                 r = toResult frameworkName framework ref) ∧
    StronglySorted (fun a b => (scoreOf query a ≤ scoreOf query b)%nat) results ∧
    ∀ score,
      filter (fun r => scoreOf query r = score) results =
      filter (fun r => scoreOf query r = score)
        (take (wholeCap maxResults)
           (toResult frameworkName framework <$>
            acceptedRefs pattern (Numeric.filters options) entries)).
Proof.
  intros Hget Hrefs maxResults.
  destruct (searchFramework_whole_ranked axios_get frameworkName query
              (wholeOptions options) w w' framework entries Hget Hrefs)
    as (pattern & results & Hpat & Hrun & Hlen & Hacc & Hsorted & Hstable).
  change (resultCap (wholeOptions options)) with (wholeCap maxResults) in *.
  exists pattern, results.
  split; [done|]. split; [by rewrite numeric_searchFramework_cap|].
  split; [done|].
  split; [by intros n <-%wholeCap_eq|].
  split.
  { intros Hle%wholeCap_nonpositive. rewrite Hle in Hlen.
    destruct results; [done|cbn [length] in Hlen; lia]. }
  split.
  { intros r (id & ref & Hin & Hm & ->)%Hacc. exists id, ref.
    split; [done|]. split; [|done].
    by rewrite (matchesSearch_filters ref pattern _ (wholeOptions options)). }
  split; [done|].
  intros score. by rewrite Hstable.
Qed.

Lemma searchFramework_ranked_witness :
  ∃ results,
    fst (Numeric.searchFramework Sample.network "SwiftUI" "*view*"
           {| Numeric.optSymbolType := None; Numeric.optPlatform := None;
              Numeric.optMaxResults := Some (whole 3) |} Sample.start) = Ok results ∧
    length results ≤ 3 ∧
    map res_title results = ["View"; "ViewBuilder"; "ScrollView"].
Proof.
  destruct (searchFramework_ranked Sample.network "SwiftUI" "*view*"
              {| Numeric.optSymbolType := None; Numeric.optPlatform := None;
                 Numeric.optMaxResults := Some (whole 3) |}
              Sample.start (snd (getFramework Sample.network "SwiftUI" Sample.start))
              Sample.swiftUIDoc
              (default [] (doc_references Sample.swiftUIDoc)) eq_refl eq_refl)
    as (pattern & results & Hpat & Hrun & _ & Hwhole & _).
  exists results. rewrite Hrun. split; [reflexivity|].
  split; [apply (Hwhole 3); reflexivity|].
  vm_compute in Hrun. injection Hrun as <-. reflexivity.
Defined.

(** ** The request cache *)

Example cacheTimeout_ten_minutes : cacheTimeout = 600000%Z.
Proof. reflexivity. Qed.

Lemma makeRequest_hit (axios_get : string → Z → Response) (url : string)
    (w : World) (entry : CacheEntry) :
  cache w !! url = Some entry → (now w - timestamp entry < cacheTimeout)%Z →
  makeRequest axios_get url w = (Ok (data entry), w).
Proof.
  intros Hentry Hage. unfold makeRequest. rewrite Hentry.
  by apply Z.ltb_lt in Hage as ->.
Qed.

Lemma makeRequest_miss (axios_get : string → Z → Response) (url : string) (w : World) :
  isFresh w url = false → makeRequest axios_get url w = fetch axios_get url w.
Proof.
  unfold isFresh, makeRequest. destruct (cache w !! url) as [entry|]; [|done].
  by intros ->.
Qed.

(** C8. Two calls for one URL within the TTL window make one network
    request, and the second returns the cached document and leaves the
    world as it is; a call for a URL whose entry is older than the TTL
    makes a new request, the entry stays in place (replaced by the fresh
    document and time when the request succeeds), and the entries of all
    other URLs stay as they are. *)
Theorem makeRequest_cache (axios_get : string → Z → Response) (url : string) (w : World) :
  (∀ body dt,
      isFresh w url = false →
      outcome (axios_get url (now w)) = Ok body →
      (dt < cacheTimeout)%Z →
      ∃ w1, makeRequest axios_get url w = (Ok body, w1) ∧
            requests w1 = requests w ++ [url] ∧
            makeRequest axios_get url (later dt w1) = (Ok body, later dt w1)) ∧
  (∀ entry,
      cache w !! url = Some entry →
      (cacheTimeout ≤ now w - timestamp entry)%Z →
      ∃ r w1, makeRequest axios_get url w = (r, w1) ∧
              requests w1 = requests w ++ [url] ∧
              is_Some (cache w1 !! url) ∧
              (∀ other, other ≠ url → cache w1 !! other = cache w !! other) ∧
              (∀ body, outcome (axios_get url (now w)) = Ok body →
                 r = Ok body ∧
                 cache w1 = <[url := {| data := body; timestamp := now w1 |}]> (cache w))).
Proof.
  split.
  - intros body dt Hstale Hbody Hdt. rewrite makeRequest_miss by done.
    unfold fetch. rewrite Hbody. eexists. split; [reflexivity|]. split; [done|].
    eapply (makeRequest_hit _ _ _ {| data := body |}).
    + cbn [later cache]. apply lookup_insert_eq.
    + cbn [later now timestamp]. lia.
  - intros entry Hentry Hage. rewrite makeRequest_miss.
    2: { unfold isFresh. rewrite Hentry. by apply Z.ltb_ge. }
    unfold fetch. destruct (outcome (axios_get url (now w))) as [body|error];
      eexists _, _; (split; [reflexivity|]); cbn [cache requests now].
    + split; [done|]. split; [by rewrite lookup_insert_eq|].
      split; [by intros other Hne; rewrite lookup_insert_ne|].
      by intros ? [= <-].
    + split; [done|]. split; [by rewrite Hentry|]. by split.
Qed.

Lemma makeRequest_cache_witness :
  let w1 := snd (makeRequest Sample.network technologiesUrl Sample.start) in
  requests w1 = [technologiesUrl] ∧
  makeRequest Sample.network technologiesUrl (later 599999 w1)
  = (Ok Sample.technologiesDoc, later 599999 w1) ∧
  requests (snd (makeRequest Sample.network technologiesUrl (later 600000 w1)))
  = [technologiesUrl; technologiesUrl].
Proof.
  pose proof (makeRequest_cache Sample.network technologiesUrl Sample.start) as [Hwithin _].
  destruct (Hwithin Sample.technologiesDoc 599999%Z eq_refl eq_refl eq_refl)
    as (w1 & Hfirst & Hreq & Hsecond).
  rewrite Hfirst. cbn [snd]. split; [exact Hreq|]. split; [exact Hsecond|].
  pose proof (makeRequest_cache Sample.network technologiesUrl (later 600000 w1)) as [_ Hafter].
  assert (w1 = snd (makeRequest Sample.network technologiesUrl Sample.start)) as Hw1
    by (by rewrite Hfirst).
  destruct (Hafter {| data := Sample.technologiesDoc; timestamp := 100 |})
    as (r & w2 & Hrun & Hreq2 & _).
  - rewrite Hw1. reflexivity.
  - rewrite Hw1. vm_compute. discriminate.
  - rewrite Hrun. cbn [snd]. rewrite Hreq2. cbn [later requests]. by rewrite Hreq.
Defined.

(** ** [searchGlobal] *)

Lemma gathered_cons (outcome : Result (list SearchResult))
    (outcomes : list (Result (list SearchResult))) :
  gathered (outcome :: outcomes) = contribution outcome ++ gathered outcomes.
Proof. reflexivity. Qed.

Lemma subCap_ceiling (cap : nat) : cap ≤ 4 * subCap cap < cap + 4.
Proof.
  unfold subCap. pose proof (Nat.div_mod_eq (cap + 3) 4).
  pose proof (Nat.mod_upper_bound (cap + 3) 4). lia.
Qed.

(** The loop is Framework Search on a prefix of the candidates: each is
    visited while fewer than [cap] results are at hand, and the loop ends
    with the candidates or with the cap. *)
Lemma searchLoop_visit (axios_get : string → Z → Response) (query : string)
    (options : SearchOptions) (frameworks : list Technology) :
  ∀ (results : list SearchResult) (w : World),
  ∃ k outcomes w',
    k ≤ length frameworks ∧
    visit axios_get query (subOptions options) (take k frameworks) w = (outcomes, w') ∧
    searchLoop axios_get query options (globalCap options) frameworks results w
    = (results ++ gathered outcomes, w') ∧
    (∀ j, j < k → length (results ++ gathered (take j outcomes)) < globalCap options) ∧
    (k = length frameworks ∨ globalCap options ≤ length (results ++ gathered outcomes)).
Proof.
  induction frameworks as [|framework rest IH]; intros results w.
  - exists 0, [], w. rewrite app_nil_r.
    split; [done|]. split; [done|]. split; [done|]. split; [lia|by left].
  - cbn [searchLoop]. destruct (globalCap options <=? length results) eqn:Hcap.
    + apply Nat.leb_le in Hcap. exists 0, [], w. rewrite app_nil_r.
      split; [cbn [length]; lia|]. split; [done|]. split; [done|]. split; [lia|by right].
    + apply Nat.leb_gt in Hcap.
      change {| symbolType := symbolType options; platform := platform options;
                maxResults := Some (subCap (globalCap options)) |}
        with (subOptions options).
      destruct (searchFramework axios_get (Js.show (ref_title framework)) query
                  (subOptions options) w) as [outcome w1] eqn:Hsearch.
      destruct (IH (results ++ contribution outcome) w1)
        as (k & outcomes & w' & Hk & Hvisit & Hloop & Hbelow & Hend).
      exists (S k), (outcome :: outcomes), w'.
      split; [cbn [length]; lia|].
      split; [cbn [take visit]; by rewrite Hsearch, Hvisit|].
      split.
      { rewrite gathered_cons, app_assoc, <- Hloop. by destruct outcome; rewrite ?app_nil_r. }
      split.
      { intros [|j] Hj; cbn [take].
        - by rewrite app_nil_r.
        - rewrite gathered_cons, app_assoc. apply Hbelow. lia. }
      rewrite gathered_cons, app_assoc. cbn [length].
      destruct Hend; [left; lia|by right].
Qed.

Lemma searchGlobal_run (axios_get : string → Z → Response) (query : string)
    (options : SearchOptions) (w w0 : World)
    (technologies : list (string * Technology)) :
  getTechnologies axios_get w = (Ok technologies, w0) →
  ∃ k outcomes w',
    k ≤ length (candidateFrameworks technologies) ∧
    visit axios_get query (subOptions options)
      (take k (candidateFrameworks technologies)) w0 = (outcomes, w') ∧
    searchGlobal axios_get query options w
    = (Ok (take (globalCap options) (gathered outcomes)), w') ∧
    (∀ j, j < k → length (gathered (take j outcomes)) < globalCap options) ∧
    (k = length (candidateFrameworks technologies) ∨
     globalCap options ≤ length (gathered outcomes)).
Proof.
  intros Hindex.
  destruct (searchLoop_visit axios_get query options
              (candidateFrameworks technologies) [] w0)
    as (k & outcomes & w' & Hk & Hvisit & Hloop & Hbelow & Hend).
  exists k, outcomes, w'. repeat split; try done.
  unfold searchGlobal, tryCatch, bind. rewrite Hindex.
  fold (globalCap options). fold (candidateFrameworks technologies).
  by rewrite Hloop.
Qed.

Lemma searchGlobal_index_failure (axios_get : string → Z → Response) (query : string)
    (options : SearchOptions) (w w0 : World) (error : JsError) :
  getTechnologies axios_get w = (Throw error, w0) →
  searchGlobal axios_get query options w
  = (Throw (newError ("Global search failed: " +:+ errorToString error)), w0).
Proof. intros Hindex. unfold searchGlobal, tryCatch, bind. by rewrite Hindex. Qed.

Lemma gathered_successes (outcomes : list (Result (list SearchResult))) :
  gathered outcomes = concat (successes outcomes).
Proof.
  unfold gathered, successes.
  induction outcomes as [|[found|error] outcomes IH]; cbn; [done| |done].
  by rewrite <- IH.
Qed.

(** C6. A global search throws exactly when the technology index cannot
    be fetched.  When the index is at hand the call returns a list, even
    if searches of candidate frameworks throw.  The candidates are
    searched in order, each one as long as fewer than [maxResults] results
    are at hand, up to the last candidate or to that count; a framework
    whose search throws contributes nothing and the next one is searched;
    the list returned is what the frameworks that did not throw returned,
    in order, cut to [maxResults]. *)
Theorem searchGlobal_partial_failure (axios_get : string → Z → Response)
    (query : string) (options : SearchOptions) (w : World) :
  match getTechnologies axios_get w with
  | (Throw _, w0) =>
      ∃ error, searchGlobal axios_get query options w = (Throw error, w0)
  | (Ok technologies, w0) =>
      ∃ k outcomes results w',
        k ≤ length (candidateFrameworks technologies) ∧
        visit axios_get query (subOptions options)
          (take k (candidateFrameworks technologies)) w0 = (outcomes, w') ∧
        (∀ j, j < k → length (concat (successes (take j outcomes))) < globalCap options) ∧
        (k = length (candidateFrameworks technologies) ∨
         globalCap options ≤ length (concat (successes outcomes))) ∧
        searchGlobal axios_get query options w = (Ok results, w') ∧
        results = take (globalCap options) (concat (successes outcomes)) ∧
        length results ≤ globalCap options ∧
        (∀ r, r ∈ results → ∃ found, Ok found ∈ outcomes ∧ r ∈ found) ∧
        (length (concat (successes outcomes)) ≤ globalCap options →
         ∀ found r, Ok found ∈ outcomes → r ∈ found → r ∈ results)
  end.
Proof.
  destruct (getTechnologies axios_get w) as [[technologies|error] w0] eqn:Hindex.
  - destruct (searchGlobal_run axios_get query options w w0 technologies Hindex)
      as (k & outcomes & w' & Hk & Hvisit & Hrun & Hbelow & Hend).
    exists k, outcomes, (take (globalCap options) (gathered outcomes)), w'.
    rewrite <- gathered_successes.
    split; [done|]. split; [done|].
    split; [by intros j Hj; rewrite <- gathered_successes; apply Hbelow|].
    split; [done|]. split; [done|]. split; [done|].
    split; [rewrite length_take; lia|].
    split.
    + intros r Hr%(subseteq_take _ _ r). unfold gathered in Hr.
      apply list_elem_of_In, in_concat in Hr as (found & Hfound & Hr).
      apply in_map_iff in Hfound as ([results|e] & <- & Hin%list_elem_of_In).
      * exists results. split; [done|]. by apply list_elem_of_In.
      * done.
    + intros Hfit found r Hfound Hr. rewrite take_ge by done.
      unfold gathered. apply list_elem_of_In, in_concat. exists found.
      split; [|by apply list_elem_of_In].
      apply in_map_iff. exists (Ok found). split; [done|by apply list_elem_of_In].
  - eexists. by apply searchGlobal_index_failure.
Qed.

Lemma searchGlobal_partial_failure_witness :
  ∃ results,
    fst (searchGlobal Sample.network "*view*" (Sample.options 5) Sample.start) = Ok results ∧
    map res_title results = ["View"; "ScrollView"; "UIViewController"; "UIView"].
Proof.
  pose proof (searchGlobal_partial_failure Sample.network "*view*" (Sample.options 5)
                Sample.start) as H.
  destruct (getTechnologies Sample.network Sample.start) as [[technologies|error] w0] eqn:Hindex;
    [|vm_compute in Hindex; discriminate].
  destruct H as (k & outcomes & results & w' & _ & _ & _ & _ & Hrun & _).
  exists results. rewrite Hrun. split; [reflexivity|].
  vm_compute in Hrun. by injection Hrun as <- _.
Defined.

(** A run in which the search of one candidate framework throws. *)
Example searchGlobal_survives_failure :
  let '(outcomes, _) :=
    visit Sample.network "*view*" (subOptions (Sample.options 5))
      (candidateFrameworks (default [] (doc_references Sample.technologiesDoc)))
      (snd (getTechnologies Sample.network Sample.start)) in
  map isOk outcomes = [true; false; true] ∧
  (fun r => map res_title (contribution r))
    (fst (searchGlobal Sample.network "*view*" (Sample.options 5) Sample.start))
  = ["View"; "ScrollView"; "UIViewController"; "UIView"].
Proof. vm_compute. done. Qed.

(** C7. In a global search the candidates are the entries of the
    technology index with kind "symbol" and role "collection", the first
    20 in index order; a prefix of them is searched in order, each with the
    sub-cap [ceil(maxResults / 4)]; a candidate is searched only while
    fewer than [maxResults] results are at hand, and the search stops with
    the candidates or with that count; the result is the concatenation of
    the per-framework results in that order, cut to [maxResults]. *)
Theorem searchGlobal_fan_out (axios_get : string → Z → Response) (query : string)
    (options : SearchOptions) (w w0 : World)
    (technologies : list (string * Technology)) :
  getTechnologies axios_get w = (Ok technologies, w0) →
  let candidates :=
    take 20 (filter (fun tech => ref_kind tech = Some "symbol" ∧
                                 ref_role tech = Some "collection")
               (map snd technologies)) in
  let cap := globalCap options in
  ∃ k outcomes w',
    k ≤ length candidates ∧
    visit axios_get query (subOptions options) (take k candidates) w0 = (outcomes, w') ∧
    maxResults (subOptions options) = Some (subCap cap) ∧
    cap ≤ 4 * subCap cap < cap + 4 ∧
    (∀ j, j < k → length (gathered (take j outcomes)) < cap) ∧
    (k = length candidates ∨ cap ≤ length (gathered outcomes)) ∧
    searchGlobal axios_get query options w = (Ok (take cap (gathered outcomes)), w').
Proof.
  intros Hindex candidates cap.
  assert (candidates = candidateFrameworks technologies) as ->.
  { unfold candidates, candidateFrameworks. f_equal. apply list_filter_iff.
    intros tech. unfold isFramework.
    rewrite andb_true_iff, !bool_decide_eq_true. done. }
  destruct (searchGlobal_run axios_get query options w w0 technologies Hindex)
    as (k & outcomes & w' & Hk & Hvisit & Hrun & Hbelow & Hend).
  exists k, outcomes, w'. repeat split; try done; apply subCap_ceiling.
Qed.

Lemma searchGlobal_fan_out_witness :
  ∃ k outcomes w',
    k ≤ 3 ∧ length outcomes = 3 ∧
    searchGlobal Sample.network "*view*" (Sample.options 5) Sample.start
    = (Ok (take 5 (gathered outcomes)), w').
Proof.
  destruct (searchGlobal_fan_out Sample.network "*view*" (Sample.options 5)
              Sample.start (snd (getTechnologies Sample.network Sample.start))
              (default [] (doc_references Sample.technologiesDoc)) eq_refl)
    as (k & outcomes & w' & Hk & Hvisit & _ & _ & _ & Hend & Hrun).
  exists k, outcomes, w'. split; [exact Hk|]. split; [|exact Hrun].
  destruct Hend as [->|Hcap].
  - vm_compute in Hvisit. by injection Hvisit as <- _.
  - do 4 (destruct k as [|k]; [vm_compute in Hvisit; injection Hvisit as <- _;
                                vm_compute in Hcap; lia|]).
    vm_compute in Hk. lia.
Defined.

(** ** The documentation lookup and its fallback *)

Lemma findTechnology_head (path : string) (technologies : list Technology) :
  findTechnology (cleanPathOf path) (Js.firstSegment "/" (cleanPathOf path)) technologies
  = head (matchingTitles path technologies).
Proof.
  induction technologies as [|tech rest IH]; [done|].
  cbn [findTechnology matchingTitles]. unfold titleMatches.
  destruct (ref_title tech) as [title|]; cbn [default from_option id]; [|exact IH].
  destruct (Js.truthy (Some title)); cbn [andb]; [|exact IH].
  rewrite <- orb_assoc.
  destruct (sameTitle title _ || sameTitle title _); cbn [orb]; [done|].
  by destruct (sameTitleNoSpaces title _ || sameTitleNoSpaces title _).
Qed.

Lemma checkIfTechnology_run (axios_get : string → Z → Response) (path : string)
    (w : World) :
  checkIfTechnology axios_get path w =
  match getTechnologies axios_get w with
  | (Ok technologies, w') => (Ok (head (matchingTitles path (map snd technologies))), w')
  | (Throw _, w') => (Ok None, w')
  end.
Proof.
  unfold checkIfTechnology, tryCatch, bind, ret.
  destruct (getTechnologies axios_get w) as [[technologies|error] w']; [|done].
  by rewrite findTechnology_head.
Qed.

Lemma handleGetDocumentation_run (axios_get : string → Z → Response) (path : string)
    (w w1 : World) (error : JsError) :
  getSymbol axios_get path w = (Throw error, w1) →
  handleGetDocumentation axios_get path w =
  match checkIfTechnology axios_get path w1 with
  | (Ok (Some name), w2) => handleTechnologyFallback axios_get name path w2
  | (Ok None, w2) => (Throw error, w2)
  | (Throw e, w2) => (Throw e, w2)
  end.
Proof.
  intros Hsymbol. unfold handleGetDocumentation, tryCatch at 1, bind at 1.
  rewrite Hsymbol. unfold bind.
  by destruct (checkIfTechnology axios_get path w1) as [[[name|]|e] w2].
Qed.

(** C1, as stated, fails.  With the technology index at hand and a
    technology titled "SwiftUI" in it, a lookup of "SwiftUI" whose
    framework document cannot be fetched ends in the "not found" payload;
    a lookup that matches no technology ends in an error that carries the
    message of the failed fetch; the handler of [src/index.ts] has no
    fallback at all. *)
Lemma getDocumentation_not_always_guidance :
  let fetchFailed :=
    "Error executing tool: Failed to fetch documentation: AxiosError: Request failed with status code 404" in
  (isOk (fst (getSymbol Sample.indexOnly "SwiftUI" Sample.start)) = false ∧
   matchingTitles "SwiftUI" (map snd (default [] (doc_references Sample.technologiesDoc)))
   = ["SwiftUI"] ∧
   fst (callTool (handleGetDocumentation Sample.indexOnly) "SwiftUI" Sample.start)
   = inl (SymbolNotFound "SwiftUI")) ∧
  (isOk (fst (getSymbol Sample.network "NotARealThing123" Sample.start)) = false ∧
   matchingTitles "NotARealThing123"
     (map snd (default [] (doc_references Sample.technologiesDoc))) = [] ∧
   fst (callTool (handleGetDocumentation Sample.network) "NotARealThing123" Sample.start)
   = inr {| mcp_code := InternalError; mcp_message := fetchFailed |}) ∧
  fst (callTool (handleGetSymbol Sample.network) "SwiftUI" Sample.start)
  = inr {| mcp_code := InternalError; mcp_message := fetchFailed |}.
Proof. vm_compute. done. Qed.

(** C1 (amended). When the symbol-document fetch of a lookup fails, the
    handler of the built server fetches the technology index.  If the
    index is at hand and holds a technology whose title matches the
    cleaned path or its first segment, the handler fetches the framework
    document of the first such title and returns the "framework detected"
    payload when that document arrives (with its topic sections), the
    "not found" payload otherwise.  If no title matches, or the index
    cannot be fetched, the error of the failed symbol fetch is thrown
    again and the caller receives it as an internal error with the same
    message.  The handler of [src/index.ts] always ends in that error. *)
Theorem handleGetDocumentation_fallback (axios_get : string → Z → Response)
    (path : string) (w w1 : World) (error : JsError) :
  getSymbol axios_get path w = (Throw error, w1) →
  callTool (handleGetSymbol axios_get) path w = (inr (internalError error), w1) ∧
  match getTechnologies axios_get w1 with
  | (Ok technologies, w2) =>
      match matchingTitles path (map snd technologies) with
      | name :: _ =>
          match getFramework axios_get name w2 with
          | (Ok data, w3) =>
              handleGetDocumentation axios_get path w =
              (Ok (match doc_topicSections data with
                   | Some _ => FrameworkDetected name path data
                   | None => SymbolNotFound path
                   end), w3)
          | (Throw _, w3) =>
              handleGetDocumentation axios_get path w = (Ok (SymbolNotFound path), w3)
          end
      | [] =>
          callTool (handleGetDocumentation axios_get) path w
          = (inr (internalError error), w2)
      end
  | (Throw _, w2) =>
      callTool (handleGetDocumentation axios_get) path w
      = (inr (internalError error), w2)
  end.
Proof.
  intros Hsymbol. split.
  { unfold callTool, handleGetSymbol, bind. by rewrite Hsymbol. }
  pose proof (handleGetDocumentation_run axios_get path w w1 error Hsymbol) as Hrun.
  rewrite checkIfTechnology_run in Hrun. unfold callTool.
  destruct (getTechnologies axios_get w1) as [[technologies|indexError] w2];
    [|by rewrite Hrun].
  destruct (matchingTitles path (map snd technologies)) as [|name others];
    cbn [head] in Hrun; [by rewrite Hrun|].
  rewrite Hrun. unfold handleTechnologyFallback, tryCatch, bind.
  destruct (getFramework axios_get name w2) as [[data|frameworkError] w3]; [|done].
  by destruct (doc_topicSections data).
Qed.

Lemma handleGetDocumentation_fallback_witness :
  ∃ w3,
    handleGetDocumentation Sample.network "documentation/swiftui/View" Sample.start
    = (Ok (FrameworkDetected "SwiftUI" "documentation/swiftui/View" Sample.swiftUIDoc), w3).
Proof.
  destruct (handleGetDocumentation_fallback Sample.network "documentation/swiftui/View"
              Sample.start
              (snd (getSymbol Sample.network "documentation/swiftui/View" Sample.start))
              (newError ("Failed to fetch documentation: " +:+ errorToString Sample.rejection))
              eq_refl) as [_ Hrun].
  vm_compute in Hrun. eexists. vm_compute. exact Hrun.
Defined.

(** ** Further properties of the client *)

(** *** [makeRequest] *)

Lemma makeRequest_stored (axios_get : string → Z → Response) (url : string)
    (w w1 : World) (body : Document) :
  makeRequest axios_get url w = (Ok body, w1) →
  ∃ entry, cache w1 !! url = Some entry ∧ data entry = body.
Proof.
  unfold makeRequest, fetch. destruct (cache w !! url) as [entry|] eqn:Hentry.
  - destruct (now w - timestamp entry <? cacheTimeout)%Z.
    + intros [= <- <-]. eauto.
    + destruct (outcome _); intros [= <- <-]. cbn [cache].
      rewrite lookup_insert_eq. eauto.
  - destruct (outcome _); intros [= <- <-]. cbn [cache].
    rewrite lookup_insert_eq. eauto.
Qed.

(** X1. [makeRequest] throws only when the cache holds no fresh entry
    and the request is rejected; the error wraps the rejection, the
    failure is not cached (the cache stays as it was) and one request
    was made. *)
Theorem makeRequest_failure (axios_get : string → Z → Response) (url : string)
    (w w1 : World) (error : JsError) :
  makeRequest axios_get url w = (Throw error, w1) →
  isFresh w url = false ∧
  cache w1 = cache w ∧
  requests w1 = requests w ++ [url] ∧
  ∃ rejection,
    outcome (axios_get url (now w)) = Throw rejection ∧
    error = newError ("Failed to fetch documentation: " +:+ errorToString rejection).
Proof.
  unfold makeRequest, isFresh, fetch.
  destruct (cache w !! url) as [entry|];
    [destruct (now w - timestamp entry <? cacheTimeout)%Z; [done|]|];
    (destruct (outcome _) as [body|rejection]; [done|]);
    intros [= <- <-]; (split; [done|]); (split; [done|]); (split; [done|]); eauto.
Qed.

Lemma makeRequest_failure_witness :
  cache (snd (makeRequest Sample.network (frameworkUrl "Broken") Sample.start)) = ∅.
Proof.
  destruct (makeRequest Sample.network (frameworkUrl "Broken") Sample.start)
    as [r w1] eqn:Hrun.
  destruct r as [body|error]; [vm_compute in Hrun; discriminate|].
  destruct (makeRequest_failure _ _ _ _ _ Hrun) as (_ & Hcache & _).
  cbn [snd]. rewrite Hcache. reflexivity.
Defined.

Lemma makeRequest_keepsCache (axios_get : string → Z → Response) (url : string)
    (w : World) :
  keepsCache w (snd (makeRequest axios_get url w)).
Proof.
  unfold makeRequest, fetch, keepsCache.
  destruct (cache w !! url) as [entry|];
    [destruct (now w - timestamp entry <? cacheTimeout)%Z; [done|]|];
    destruct (outcome _); cbn [snd cache]; try done;
    intros other Hother; destruct (decide (url = other)) as [->|Hne];
    by rewrite ?lookup_insert_eq, ?lookup_insert_ne.
Qed.

Lemma makeRequest_appends (axios_get : string → Z → Response) (url : string)
    (w : World) :
  appendsRequests 1 w (snd (makeRequest axios_get url w)).
Proof.
  unfold makeRequest, fetch, appendsRequests.
  destruct (cache w !! url) as [entry|];
    [destruct (now w - timestamp entry <? cacheTimeout)%Z|];
    try (exists []; rewrite app_nil_r; cbn [snd length]; split; [done|lia]);
    destruct (outcome _); exists [url]; cbn [snd requests length]; split; done || lia.
Qed.

Lemma keepsCache_refl (w : World) : keepsCache w w.
Proof. by intros url. Qed.

Lemma keepsCache_trans (w1 w2 w3 : World) :
  keepsCache w1 w2 → keepsCache w2 w3 → keepsCache w1 w3.
Proof. intros H12 H23 url H. by apply H23, H12. Qed.

Lemma appendsRequests_refl (n : nat) (w : World) : appendsRequests n w w.
Proof. exists []. rewrite app_nil_r. cbn [length]. split; [done|lia]. Qed.

Lemma appendsRequests_trans (n m : nat) (w1 w2 w3 : World) :
  appendsRequests n w1 w2 → appendsRequests m w2 w3 → appendsRequests (n + m) w1 w3.
Proof.
  intros (new1 & H1 & Hn) (new2 & H2 & Hm). exists (new1 ++ new2).
  rewrite H2, H1, app_assoc, length_app. split; [done|lia].
Qed.

Lemma appendsRequests_le (n m : nat) (w1 w2 : World) :
  n ≤ m → appendsRequests n w1 w2 → appendsRequests m w1 w2.
Proof. intros Hnm (new & H & Hn). exists new. split; [done|lia]. Qed.

(** *** [searchFramework] *)

Lemma searchFramework_world (axios_get : string → Z → Response)
    (frameworkName query : string) (options : SearchOptions) (w : World) :
  snd (searchFramework axios_get frameworkName query options w)
  = snd (makeRequest axios_get (frameworkUrl frameworkName) w).
Proof.
  unfold searchFramework, tryCatch, bind, getFramework.
  destruct (makeRequest _ _ w) as [[framework|error] w1]; [|done].
  rewrite createSearchPattern_globTerms.
  by destruct (doc_references framework).
Qed.

Lemma searchFramework_inv (axios_get : string → Z → Response)
    (frameworkName query : string) (options : SearchOptions) (w w1 : World)
    (results : list SearchResult) :
  searchFramework axios_get frameworkName query options w = (Ok results, w1) →
  ∃ framework entries,
    getFramework axios_get frameworkName w = (Ok framework, w1) ∧
    doc_references framework = Some entries.
Proof.
  unfold searchFramework, tryCatch, bind.
  destruct (getFramework _ _ w) as [[framework|error] w'] eqn:Hget; [|done].
  rewrite createSearchPattern_globTerms.
  destruct (doc_references framework) as [entries|] eqn:Hrefs; [|done].
  intros [= _ <-]. eauto.
Qed.

(** X2. A framework search throws in two cases only: the framework
    document cannot be obtained, or it has no [references] map; the error
    names the framework and wraps the cause.  No query makes it throw. *)
Theorem searchFramework_throws (axios_get : string → Z → Response)
    (frameworkName query : string) (options : SearchOptions) (w : World) :
  match getFramework axios_get frameworkName w with
  | (Throw cause, w1) =>
      searchFramework axios_get frameworkName query options w =
      (Throw (newError ("Framework search failed for " +:+ frameworkName +:+ ": "
                        +:+ errorToString cause)), w1)
  | (Ok framework, w1) =>
      match doc_references framework with
      | None =>
          ∃ cause,
            err_name cause = "TypeError" ∧
            searchFramework axios_get frameworkName query options w =
            (Throw (newError ("Framework search failed for " +:+ frameworkName +:+ ": "
                              +:+ errorToString cause)), w1)
      | Some _ =>
          ∃ results,
            searchFramework axios_get frameworkName query options w = (Ok results, w1)
      end
  end.
Proof.
  destruct (getFramework axios_get frameworkName w) as [[framework|cause] w1] eqn:Hget.
  - destruct (doc_references framework) as [entries|] eqn:Hrefs.
    + eexists. by apply searchFramework_run with (entries := entries).
    + unfold searchFramework, tryCatch, bind. rewrite Hget.
      rewrite createSearchPattern_globTerms, Hrefs. eexists. split; [|reflexivity]. done.
  - unfold searchFramework, tryCatch, bind. by rewrite Hget.
Qed.

(** X3. The results of a framework search are a rearrangement of the
    first [maxResults] accepted references in the iteration order of the
    reference map: the cut is made before ranking.  When no more than
    [maxResults] references are accepted, every one of them is reported. *)
Theorem searchFramework_complete (axios_get : string → Z → Response)
    (frameworkName query : string) (options : SearchOptions) (w w1 : World)
    (results : list SearchResult) :
  searchFramework axios_get frameworkName query options w = (Ok results, w1) →
  ∃ framework entries pattern,
    getFramework axios_get frameworkName w = (Ok framework, w1) ∧
    doc_references framework = Some entries ∧
    createSearchPattern query = Some pattern ∧
    let accepted := toResult frameworkName framework <$> acceptedRefs pattern options entries in
    results ≡ₚ take (resultCap options) accepted ∧
    (length accepted ≤ resultCap options → results ≡ₚ accepted).
Proof.
  intros Hrun.
  destruct (searchFramework_inv _ _ _ _ _ _ _ Hrun) as (framework & entries & Hget & Hrefs).
  exists framework, entries, (globTerms query).
  split; [done|]. split; [done|]. split; [apply createSearchPattern_globTerms|].
  rewrite (searchFramework_run _ _ _ _ _ _ _ _ Hget Hrefs) in Hrun.
  injection Hrun as <-. cbn zeta.
  pose proof (sortBy_perm (scoreOf query)
                (take (resultCap options)
                   (toResult frameworkName framework <$>
                    acceptedRefs (globTerms query) options entries))) as Hperm.
  split; [exact Hperm|].
  intros Hlen. etrans; [exact Hperm|]. by rewrite take_ge.
Qed.

Lemma searchFramework_complete_witness :
  ∃ results,
    fst (searchFramework Sample.network "UIKit" "UI" (Sample.options 10) Sample.start)
    = Ok results ∧ length results = 3.
Proof.
  destruct (searchFramework Sample.network "UIKit" "UI" (Sample.options 10) Sample.start)
    as [r w1] eqn:Hrun.
  destruct r as [results|error]; [|vm_compute in Hrun; discriminate].
  exists results. split; [reflexivity|].
  destruct (searchFramework_complete _ _ _ _ _ _ _ Hrun)
    as (framework & entries & pattern & Hget & Hrefs & Hpat & _ & Hall).
  vm_compute in Hget. injection Hget as <- _.
  vm_compute in Hrefs. injection Hrefs as <-.
  vm_compute in Hpat. injection Hpat as <-.
  rewrite Hall; vm_compute; lia.
Defined.

(** *** The fields of a search result *)

Lemma append_nil_inv (s t : string) : s +:+ t = "" → s = "" ∧ t = "".
Proof. destruct s; [done|]. by autorewrite with str. Qed.

Lemma join_nonempty (sep : string) (l : list string) :
  l ≠ [] → Forall (fun s => s ≠ "") l → Js.join sep l ≠ "".
Proof.
  destruct l as [|x l]; [done|]. intros _ Hall.
  apply Forall_cons in Hall as [Hx _].
  destruct l as [|y l]; cbn [Js.join]; [done|].
  by intros [? _]%append_nil_inv.
Qed.

Lemma formatPlatform_nonempty (p : Platform) : formatPlatform p ≠ "".
Proof.
  unfold formatPlatform. intros [_ H]%append_nil_inv.
  by autorewrite with str in H.
Qed.

Lemma formatPlatforms_nonempty (platforms : option (list Platform)) :
  formatPlatforms platforms ≠ "".
Proof.
  destruct platforms as [[|p ps]|]; [done| |done].
  unfold formatPlatforms. apply join_nonempty; [done|].
  apply Forall_fmap, Forall_forall. intros q _. apply formatPlatform_nonempty.
Qed.

Lemma matchesSearch_title (ref : Reference) (pattern : RegExp.regexp)
    (options : SearchOptions) :
  matchesSearch ref pattern options = true →
  ∃ title, ref_title ref = Some title ∧ title ≠ "" ∧ RegExp.test pattern title = true.
Proof.
  unfold matchesSearch.
  destruct (ref_title ref) as [[|c title]|];
    cbn [Js.truthy negb default from_option id]; try done.
  destruct (RegExp.test pattern (String c title)) eqn:Htest; cbn [negb]; [|done].
  intros _. by exists (String c title).
Qed.

(** X4. Every result of a framework search carries a non-empty title, a
    non-empty platform text and the name of the framework searched. *)
Theorem searchFramework_result_fields (axios_get : string → Z → Response)
    (frameworkName query : string) (options : SearchOptions) (w w1 : World)
    (results : list SearchResult) (r : SearchResult) :
  searchFramework axios_get frameworkName query options w = (Ok results, w1) →
  r ∈ results →
  res_title r ≠ "" ∧ res_platforms r ≠ "" ∧ res_framework r = frameworkName.
Proof.
  intros Hrun Hr.
  destruct (searchFramework_inv _ _ _ _ _ _ _ Hrun) as (framework & entries & Hget & Hrefs).
  rewrite (searchFramework_run _ _ _ _ _ _ _ _ Hget Hrefs) in Hrun.
  injection Hrun as <-.
  change (r ∈ sortBy (byKey (scoreOf query))
            (take (resultCap options)
               (toResult frameworkName framework <$>
                acceptedRefs (globTerms query) options entries))) in Hr.
  rewrite sortBy_perm in Hr. apply (subseteq_take _ _ r) in Hr.
  apply list_elem_of_fmap in Hr as (ref & -> & [Hm _]%elem_of_acceptedRefs).
  apply matchesSearch_title in Hm as (title & Htitle & Hne & _).
  cbn [toResult res_title res_platforms res_framework]. rewrite Htitle.
  split; [done|]. split; [apply formatPlatforms_nonempty|done].
Qed.

Lemma searchFramework_result_fields_witness :
  Forall (fun r => res_framework r = "UIKit")
    (contribution (fst (searchFramework Sample.network "UIKit" "UI"
                          (Sample.options 10) Sample.start))).
Proof.
  destruct (searchFramework Sample.network "UIKit" "UI" (Sample.options 10) Sample.start)
    as [[results|error] w1] eqn:Hrun; cbn [fst contribution]; [|constructor].
  apply Forall_forall. intros r Hr.
  by destruct (searchFramework_result_fields _ _ _ _ _ _ _ r Hrun Hr) as (_ & _ & ?).
Defined.

(** *** The cache and the network across a search *)

Lemma searchFramework_keepsCache (axios_get : string → Z → Response)
    (frameworkName query : string) (options : SearchOptions) (w : World) :
  keepsCache w (snd (searchFramework axios_get frameworkName query options w)).
Proof. rewrite searchFramework_world. apply makeRequest_keepsCache. Qed.

Lemma searchFramework_appends (axios_get : string → Z → Response)
    (frameworkName query : string) (options : SearchOptions) (w : World) :
  appendsRequests 1 w (snd (searchFramework axios_get frameworkName query options w)).
Proof. rewrite searchFramework_world. apply makeRequest_appends. Qed.

Lemma searchLoop_world (axios_get : string → Z → Response) (query : string)
    (options : SearchOptions) (cap : nat) (frameworks : list Technology) :
  ∀ (results : list SearchResult) (w : World),
    let w' := snd (searchLoop axios_get query options cap frameworks results w) in
    keepsCache w w' ∧ appendsRequests (length frameworks) w w'.
Proof.
  induction frameworks as [|framework rest IH]; intros results w; cbn [searchLoop].
  - split; [apply keepsCache_refl|apply appendsRequests_refl].
  - destruct (cap <=? length results).
    + split; [apply keepsCache_refl|apply appendsRequests_refl].
    + pose proof (searchFramework_keepsCache axios_get (Js.show (ref_title framework)) query
                    {| symbolType := symbolType options; platform := platform options;
                       maxResults := Some (subCap cap) |} w) as Hkeep.
      pose proof (searchFramework_appends axios_get (Js.show (ref_title framework)) query
                    {| symbolType := symbolType options; platform := platform options;
                       maxResults := Some (subCap cap) |} w) as Happ.
      destruct (searchFramework _ _ _ _ w) as [[found|error] w1]; cbn [snd] in Hkeep, Happ.
      * destruct (IH (results ++ found) w1) as [Hk Ha]. split.
        -- by eapply keepsCache_trans.
        -- by apply (appendsRequests_trans 1 (length rest) w w1).
      * destruct (IH results w1) as [Hk Ha]. split.
        -- by eapply keepsCache_trans.
        -- by apply (appendsRequests_trans 1 (length rest) w w1).
Qed.

Lemma getTechnologies_world (axios_get : string → Z → Response) (w : World) :
  snd (getTechnologies axios_get w) = snd (makeRequest axios_get technologiesUrl w).
Proof.
  unfold getTechnologies, bind. by destruct (makeRequest _ _ w) as [[body|error] w1].
Qed.

Lemma searchGlobal_world (axios_get : string → Z → Response) (query : string)
    (options : SearchOptions) (w : World) :
  let w' := snd (searchGlobal axios_get query options w) in
  keepsCache w w' ∧ appendsRequests 21 w w'.
Proof.
  pose proof (makeRequest_keepsCache axios_get technologiesUrl w) as Hkeep.
  pose proof (makeRequest_appends axios_get technologiesUrl w) as Happ.
  rewrite <- getTechnologies_world in Hkeep, Happ.
  unfold searchGlobal, tryCatch, bind.
  destruct (getTechnologies axios_get w) as [[technologies|error] w0];
    cbn [snd] in Hkeep, Happ |- *.
  - set (candidates := take 20 _).
    destruct (searchLoop_world axios_get query options (default 50 (maxResults options))
                candidates [] w0) as [Hk Ha].
    destruct (searchLoop _ _ _ _ candidates [] w0) as [results w1]. cbn [snd] in *.
    split; [by eapply keepsCache_trans|].
    apply (appendsRequests_le (1 + length candidates)).
    + unfold candidates. rewrite length_take. lia.
    + by apply (appendsRequests_trans 1 (length candidates) w w0).
  - split; [done|]. by apply (appendsRequests_le 1); [lia|].
Qed.

(** X5. Nothing is ever evicted from the cache: every URL cached
    before a request, a framework search or a global search is still
    cached after it. *)
Theorem cache_never_evicts (axios_get : string → Z → Response) (w : World) :
  (∀ url, keepsCache w (snd (makeRequest axios_get url w))) ∧
  (∀ frameworkName query options,
     keepsCache w (snd (searchFramework axios_get frameworkName query options w))) ∧
  (∀ query options, keepsCache w (snd (searchGlobal axios_get query options w))).
Proof.
  split; [intros; apply makeRequest_keepsCache|].
  split; [intros; apply searchFramework_keepsCache|].
  intros. apply searchGlobal_world.
Qed.

(** X6. A global search sends at most 21 requests to the network (the
    technology index and at most 20 framework documents), a framework
    search at most one; the request log is only ever appended to. *)
Theorem search_request_bound (axios_get : string → Z → Response) (w : World) :
  (∀ frameworkName query options,
     appendsRequests 1 w (snd (searchFramework axios_get frameworkName query options w))) ∧
  (∀ query options,
     appendsRequests 21 w (snd (searchGlobal axios_get query options w))).
Proof.
  split; [intros; apply searchFramework_appends|].
  intros. apply searchGlobal_world.
Qed.

(** X7. While the cache entry of a framework document is fresh, a
    framework search that succeeded gives the same results again, on any
    network, and leaves the world as it is. *)
Theorem searchFramework_repeatable (axios_get other_network : string → Z → Response)
    (frameworkName query : string) (options : SearchOptions) (w w1 : World)
    (results : list SearchResult) (dt : Z) :
  searchFramework axios_get frameworkName query options w = (Ok results, w1) →
  isFresh (later dt w1) (frameworkUrl frameworkName) = true →
  searchFramework other_network frameworkName query options (later dt w1)
  = (Ok results, later dt w1).
Proof.
  intros Hrun Hfresh.
  destruct (searchFramework_inv _ _ _ _ _ _ _ Hrun) as (framework & entries & Hget & Hrefs).
  rewrite (searchFramework_run _ _ _ _ _ _ _ _ Hget Hrefs) in Hrun.
  injection Hrun as <-.
  apply searchFramework_run; [|done].
  destruct (makeRequest_stored _ _ _ _ _ Hget) as (entry & Hentry & <-).
  unfold isFresh in Hfresh. cbn [later cache] in Hfresh. rewrite Hentry in Hfresh.
  apply makeRequest_hit; [done|]. by apply Z.ltb_lt.
Qed.

Lemma searchFramework_repeatable_witness :
  let w1 := snd (searchFramework Sample.network "UIKit" "UI" (Sample.options 10) Sample.start) in
  isOk (fst (searchFramework Sample.indexOnly "UIKit" "UI" (Sample.options 10)
               (later 1000 w1))) = true.
Proof.
  destruct (searchFramework Sample.network "UIKit" "UI" (Sample.options 10) Sample.start)
    as [[results|error] w1] eqn:Hrun; [|vm_compute in Hrun; discriminate].
  cbn [snd].
  rewrite (searchFramework_repeatable Sample.network Sample.indexOnly _ _ _ _ _ _ 1000 Hrun).
  - reflexivity.
  - vm_compute in Hrun. injection Hrun as _ <-. reflexivity.
Defined.

(** *** Matching and scoring together *)

Lemma includes_refl (s : string) : Js.includes s s = true.
Proof. apply includes_append. exists "", "". by rewrite append_nil_r. Qed.

Lemma startsWith_includes (s p : string) :
  Js.startsWith s p = true → Js.includes s p = true.
Proof. intros [rest ->]%startsWith_append. apply includes_append. by exists "", rest. Qed.

Lemma scoreMatch_below_3 (title query : string) :
  scoreMatch title query ≤ 2 ↔
  Js.includes (Js.toLowerCase title) (strippedQuery query) = true.
Proof.
  unfold scoreMatch, strippedQuery.
  destruct (String.eqb_spec (Js.toLowerCase title) (Js.toLowerCase (Js.removeAll "*" query)))
    as [<-|Hne].
  { rewrite includes_refl. split; [done|lia]. }
  destruct (Js.startsWith _ _) eqn:Hstart.
  { rewrite (startsWith_includes _ _ Hstart). split; [done|lia]. }
  destruct (Js.includes _ _); split; (done || lia).
Qed.

Lemma removeAll_literal (q : string) : isLiteral q = true → Js.removeAll "*" q = q.
Proof.
  induction q as [|c q IH]; [done|]. cbn [isLiteral Js.removeAll].
  intros [[Hc%negb_true_iff _]%andb_true_iff Hq]%andb_true_iff.
  by rewrite Hc, IH.
Qed.

(** X8. For a query without wildcards and a title, both made of ASCII
    characters, the filter and the ranker agree: the compiled pattern
    accepts the title exactly when [scoreMatch] puts it below tier 3. *)
Theorem literal_query_score (query title : string) (pattern : RegExp.regexp) :
  isAscii query = true → isAscii title = true →
  isLiteral query = true →
  createSearchPattern query = Some pattern →
  (RegExp.test pattern title = true ↔ scoreMatch title query ≤ 2).
Proof.
  intros _ _ Hlit Hpat. rewrite createSearchPattern_globTerms in Hpat. injection Hpat as <-.
  rewrite scoreMatch_below_3, test_literal by done.
  unfold containsIgnoringCase, strippedQuery. by rewrite removeAll_literal.
Qed.

Lemma literal_query_score_witness :
  scoreMatch "MyViewController" "view" ≤ 2.
Proof.
  apply (literal_query_score "view" "MyViewController" (globTerms "view")); reflexivity.
Defined.

(** *** Wildcards at the ends of a query *)

Lemma matchHere_leading_star (re : RegExp.regexp) (s : string) :
  RegExp.matchHere (RegExp.ZeroOrMore RegExp.AnyChar :: re) s = true →
  RegExp.test re s = true.
Proof.
  induction s as [|c s IH]; rewrite matchHere_star; cbn [RegExp.test].
  - by rewrite !orb_false_r.
  - intros [->|[_ Hs]%andb_true_iff]%orb_true_iff; [done|].
    rewrite (IH Hs). apply orb_true_r.
Qed.

Lemma test_leading_star (re : RegExp.regexp) (s : string) :
  RegExp.test (RegExp.ZeroOrMore RegExp.AnyChar :: re) s = RegExp.test re s.
Proof.
  apply eq_true_iff_eq. split.
  - induction s as [|c s IH]; cbn [RegExp.test].
    + rewrite orb_false_r. apply matchHere_leading_star.
    + intros [H%matchHere_leading_star|H%IH]%orb_true_iff; [done|].
      rewrite H. apply orb_true_r.
  - induction s as [|c s IH]; cbn [RegExp.test]; rewrite matchHere_star.
    + rewrite !orb_false_r. by intros ->.
    + intros [->|H%IH]%orb_true_iff; [done|]. rewrite H. apply orb_true_r.
Qed.

Lemma matchHere_trailing_star (a : RegExp.atom) (re : RegExp.regexp) (s : string) :
  RegExp.matchHere (re ++ [RegExp.ZeroOrMore a]) s = RegExp.matchHere re s.
Proof.
  revert s. induction re as [|[b|b] re IH]; intros s.
  - cbn [app]. rewrite matchHere_star. done.
  - destruct s as [|c s]; cbn [app RegExp.matchHere]; [done|]. by rewrite IH.
  - change ((RegExp.ZeroOrMore b :: re) ++ [RegExp.ZeroOrMore a])
      with (RegExp.ZeroOrMore b :: (re ++ [RegExp.ZeroOrMore a])).
    induction s as [|c s IHs];
      rewrite (matchHere_star b (re ++ _)), (matchHere_star b re), IH; [done|].
    by rewrite IHs.
Qed.

Lemma test_trailing_star (a : RegExp.atom) (re : RegExp.regexp) (s : string) :
  RegExp.test (re ++ [RegExp.ZeroOrMore a]) s = RegExp.test re s.
Proof.
  induction s as [|c s IH]; cbn [RegExp.test]; rewrite matchHere_trailing_star; [done|].
  by rewrite IH.
Qed.

Lemma globTerms_append (q1 q2 : string) :
  globTerms (q1 +:+ q2) = globTerms q1 ++ globTerms q2.
Proof.
  induction q1 as [|c q1 IH]; autorewrite with str; [done|].
  cbn [globTerms app]. by rewrite IH.
Qed.

(** X9. A [*] at the start or at the end of a query changes nothing:
    the patterns of [*q], [q*] and [q] accept the same titles. *)
Theorem wildcard_at_ends_redundant (query title : string) :
  ∃ plain leading trailing,
    createSearchPattern query = Some plain ∧
    createSearchPattern (String "*" query) = Some leading ∧
    createSearchPattern (query +:+ "*") = Some trailing ∧
    RegExp.test leading title = RegExp.test plain title ∧
    RegExp.test trailing title = RegExp.test plain title.
Proof.
  exists (globTerms query), (globTerms (String "*" query)), (globTerms (query +:+ "*")).
  rewrite !createSearchPattern_globTerms. repeat split.
  - rewrite globTerms_star. apply test_leading_star.
  - rewrite globTerms_append. apply test_trailing_star.
Qed.

(** *** Case *)

Lemma lowerChar_idem (c : ascii) : Js.lowerChar (Js.lowerChar c) = Js.lowerChar c.
Proof. destruct c as [[] [] [] [] [] [] [] []]; reflexivity. Qed.

Lemma lowerChar_star (c : ascii) : Ascii.eqb (Js.lowerChar c) "*" = Ascii.eqb c "*".
Proof. destruct c as [[] [] [] [] [] [] [] []]; reflexivity. Qed.

Lemma lowerChar_question (c : ascii) : Ascii.eqb (Js.lowerChar c) "?" = Ascii.eqb c "?".
Proof. destruct c as [[] [] [] [] [] [] [] []]; reflexivity. Qed.

Lemma lowerChar_lineTerminator (c : ascii) :
  RegExp.isLineTerminator (Js.lowerChar c) = RegExp.isLineTerminator c.
Proof. destruct c as [[] [] [] [] [] [] [] []]; reflexivity. Qed.

Lemma toLowerCase_idem (s : string) : Js.toLowerCase (Js.toLowerCase s) = Js.toLowerCase s.
Proof. induction s as [|c s IH]; cbn [Js.toLowerCase]; [done|]. by rewrite lowerChar_idem, IH. Qed.

Lemma removeAll_toLowerCase (s : string) :
  Js.removeAll "*" (Js.toLowerCase s) = Js.toLowerCase (Js.removeAll "*" s).
Proof.
  induction s as [|c s IH]; cbn [Js.toLowerCase Js.removeAll]; [done|].
  rewrite lowerChar_star. destruct (Ascii.eqb c "*"); cbn [Js.toLowerCase]; by rewrite IH.
Qed.

Lemma atomMatches_lower (a : RegExp.atom) (c : ascii) :
  RegExp.atomMatches a (Js.lowerChar c) = RegExp.atomMatches a c.
Proof.
  destruct a as [x|]; cbn [RegExp.atomMatches].
  - by rewrite upper_lower.
  - by rewrite lowerChar_lineTerminator.
Qed.

Lemma matchHere_lower (re : RegExp.regexp) (s : string) :
  RegExp.matchHere re (Js.toLowerCase s) = RegExp.matchHere re s.
Proof.
  revert s. induction re as [|[a|a] re IH]; intros s.
  - done.
  - destruct s as [|c s]; cbn [Js.toLowerCase RegExp.matchHere]; [done|].
    by rewrite atomMatches_lower, IH.
  - induction s as [|c s IHs].
    + by rewrite (matchHere_star a re (Js.toLowerCase "")), (matchHere_star a re ""), (IH "").
    + rewrite (matchHere_star a re (Js.toLowerCase (String c s))),
        (matchHere_star a re (String c s)), (IH (String c s)).
      cbn [Js.toLowerCase]. by rewrite atomMatches_lower, IHs.
Qed.

Lemma test_lower (re : RegExp.regexp) (s : string) :
  RegExp.test re (Js.toLowerCase s) = RegExp.test re s.
Proof.
  induction s as [|c s IH]; [done|].
  change (RegExp.test re (Js.toLowerCase (String c s)))
    with (RegExp.matchHere re (Js.toLowerCase (String c s)) ||
          RegExp.test re (Js.toLowerCase s)).
  by rewrite matchHere_lower, IH.
Qed.

Lemma matchHere_lower_query (q s : string) :
  RegExp.matchHere (globTerms (Js.toLowerCase q)) s = RegExp.matchHere (globTerms q) s.
Proof.
  revert s. induction q as [|a q IH]; intros s; [done|].
  cbn [Js.toLowerCase globTerms]. unfold globTerm.
  rewrite lowerChar_star, lowerChar_question.
  destruct (Ascii.eqb a "*"); [|destruct (Ascii.eqb a "?")].
  - induction s as [|c s IHs];
      rewrite (matchHere_star _ (globTerms (Js.toLowerCase q))), (matchHere_star _ (globTerms q)), IH;
      [done|by rewrite IHs].
  - destruct s as [|c s]; cbn [RegExp.matchHere]; [done|]. by rewrite IH.
  - destruct s as [|c s]; cbn [RegExp.matchHere RegExp.atomMatches]; [done|].
    by rewrite upper_lower, IH.
Qed.

(** X10. On ASCII strings search is case-insensitive throughout: for a
    title and a query made of ASCII characters, lower-casing the title or
    the query changes neither which titles the compiled pattern accepts
    nor the score. *)
Theorem search_ignores_case (title query : string) :
  isAscii title = true → isAscii query = true →
  (∃ pattern lowered,
     createSearchPattern query = Some pattern ∧
     createSearchPattern (Js.toLowerCase query) = Some lowered ∧
     RegExp.test pattern (Js.toLowerCase title) = RegExp.test pattern title ∧
     RegExp.test lowered title = RegExp.test pattern title) ∧
  scoreMatch (Js.toLowerCase title) query = scoreMatch title query ∧
  scoreMatch title (Js.toLowerCase query) = scoreMatch title query.
Proof.
  intros _ _. split; [|split].
  - exists (globTerms query), (globTerms (Js.toLowerCase query)).
    rewrite !createSearchPattern_globTerms. repeat split; [apply test_lower|].
    induction title as [|c title IH]; cbn [RegExp.test]; rewrite matchHere_lower_query;
      [done|by rewrite IH].
  - unfold scoreMatch. by rewrite toLowerCase_idem.
  - unfold scoreMatch. by rewrite removeAll_toLowerCase, toLowerCase_idem.
Qed.

Lemma search_ignores_case_witness :
  scoreMatch "uiview" "UIView" = scoreMatch "UIView" "UIView" ∧
  scoreMatch "UIView" "uiview" = scoreMatch "UIView" "UIView".
Proof.
  destruct (search_ignores_case "UIView" "UIView" eq_refl eq_refl) as (_ & Htitle & Hquery).
  split; [exact Htitle|exact Hquery].
Defined.

(** *** The reference filter as a whole *)

Lemma matchesSearch_tests (ref : Reference) (pattern : RegExp.regexp)
    (options : SearchOptions) :
  matchesSearch ref pattern options =
  titleAccepted ref pattern && kindAccepted ref options && platformAccepted ref options.
Proof.
  unfold matchesSearch, titleAccepted, kindAccepted, platformAccepted.
  destruct (Js.truthy (ref_title ref)); cbn [negb andb]; [|done].
  destruct (RegExp.test pattern _); cbn [negb andb]; [|done].
  destruct (Js.truthy (symbolType options)); cbn [negb andb orb].
  - destruct (bool_decide _); cbn [negb andb]; [|done].
    destruct (Js.truthy (platform options)), (ref_platforms ref); try done.
    by destruct (existsb _ _).
  - destruct (Js.truthy (platform options)), (ref_platforms ref); try done.
    by destruct (existsb _ _).
Qed.

Lemma truthy_spec (v : option string) :
  Js.truthy v = true ↔ ∃ s, v = Some s ∧ s ≠ "".
Proof.
  destruct v as [[|c s]|]; cbn [Js.truthy]; split; try done.
  - by intros (? & [= <-] & ?).
  - intros _. by exists (String c s).
  - by intros (? & ? & _).
Qed.

Lemma titleAccepted_spec (ref : Reference) (pattern : RegExp.regexp) :
  titleAccepted ref pattern = true ↔
  ∃ title, ref_title ref = Some title ∧ title ≠ "" ∧ RegExp.test pattern title = true.
Proof.
  unfold titleAccepted. rewrite andb_true_iff, truthy_spec. split.
  - intros [(title & Htitle & Hne) Htest]. rewrite Htitle in Htest. eauto.
  - intros (title & Htitle & Hne & Htest). rewrite Htitle. eauto.
Qed.

Lemma kindAccepted_spec (ref : Reference) (options : SearchOptions) :
  kindAccepted ref options = true ↔
  ∀ wanted, symbolType options = Some wanted → wanted ≠ "" → ref_kind ref = Some wanted.
Proof.
  unfold kindAccepted.
  rewrite orb_true_iff, negb_true_iff, bool_decide_eq_true. split.
  - intros [Hfalsy|Hkind] wanted Hwanted Hne; [|congruence].
    assert (Js.truthy (symbolType options) = true) by (apply truthy_spec; eauto).
    congruence.
  - intros H. destruct (Js.truthy (symbolType options)) eqn:Htruthy; [|by left].
    right. apply truthy_spec in Htruthy as (wanted & Hwanted & Hne).
    rewrite Hwanted. by apply H.
Qed.

Lemma platformAccepted_spec (ref : Reference) (options : SearchOptions) :
  platformAccepted ref options = true ↔
  ∀ wanted platforms,
    platform options = Some wanted → wanted ≠ "" →
    ref_platforms ref = Some platforms → carriesPlatform wanted platforms.
Proof.
  unfold platformAccepted.
  destruct (Js.truthy (platform options)) eqn:Htruthy.
  - apply truthy_spec in Htruthy as (wanted & Hwanted & Hne). rewrite Hwanted.
    cbn [default from_option id].
    destruct (ref_platforms ref) as [platforms|].
    + rewrite existsb_platformNamed. split.
      * by intros H ? ? [= <-] _ [= <-].
      * intros H. by apply H.
    + split; [by intros _ ? ? _ _ ?|done].
  - split; [|done]. intros _ wanted platforms Hwanted Hne _.
    assert (Js.truthy (platform options) = true) by (apply truthy_spec; eauto).
    congruence.
Qed.

(** X11. [matchesSearch] accepts an entry exactly when it has a
    non-empty title that the pattern accepts, its kind equals a non-empty
    [symbolType] filter, and, if it carries platform data, one of its
    platform names contains a non-empty [platform] filter, up to case.
    Filters can only narrow: what is accepted with filters is accepted
    without them. *)
Theorem matchesSearch_accepts (ref : Reference) (pattern : RegExp.regexp)
    (options : SearchOptions) :
  (matchesSearch ref pattern options = true ↔
   (∃ title, ref_title ref = Some title ∧ title ≠ "" ∧
             RegExp.test pattern title = true) ∧
   (∀ wanted, symbolType options = Some wanted → wanted ≠ "" →
              ref_kind ref = Some wanted) ∧
   (∀ wanted platforms,
      platform options = Some wanted → wanted ≠ "" →
      ref_platforms ref = Some platforms → carriesPlatform wanted platforms)) ∧
  (matchesSearch ref pattern options = true →
   matchesSearch ref pattern
     {| symbolType := None; platform := None; maxResults := maxResults options |} = true).
Proof.
  rewrite matchesSearch_tests. split.
  - rewrite !andb_true_iff, titleAccepted_spec, kindAccepted_spec, platformAccepted_spec.
    tauto.
  - rewrite (matchesSearch_tests ref pattern {| symbolType := None |}).
    intros [[-> _]%andb_true_iff _]%andb_true_iff. done.
Qed.

Lemma matchesSearch_accepts_witness :
  matchesSearch (Sample.mkRef "ScrollView" "struct" "symbol" (Some [Sample.iOS]))
    (globTerms "view")
    {| symbolType := None; platform := None; maxResults := Some 3 |} = true.
Proof.
  apply (matchesSearch_accepts
           (Sample.mkRef "ScrollView" "struct" "symbol" (Some [Sample.iOS]))
           (globTerms "view")
           {| symbolType := Some "struct"; platform := Some "ios"; maxResults := Some 3 |}).
  reflexivity.
Defined.

(** *** The URLs of the three kinds of document *)

Lemma append_assoc (s t u : string) : (s +:+ t) +:+ u = s +:+ (t +:+ u).
Proof. induction s as [|c s IH]; autorewrite with str; [done|by rewrite IH]. Qed.

Lemma symbolUrl_documentation (name : string) :
  symbolUrl ("documentation/" +:+ name) = frameworkUrl name.
Proof.
  unfold symbolUrl, frameworkUrl. autorewrite with str. cbn [Js.startsWith Ascii.eqb].
  change (Ascii.eqb "d" "/") with false. cbn [andb].
  unfold BASE_URL. autorewrite with str. repeat f_equal.
Qed.

Lemma symbolUrl_leading_slash (path : string) :
  Js.startsWith path "/" = false → symbolUrl (String "/" path) = symbolUrl path.
Proof.
  intros Hpath. unfold symbolUrl. rewrite Hpath.
  cbn [Js.startsWith]. rewrite Ascii.eqb_refl, startsWith_nil. cbn [andb].
  unfold Js.removeLeading. cbn [Js.stripPrefix]. by rewrite Ascii.eqb_refl.
Qed.

(** X12. The three fetchers share their URLs: a symbol lookup of
    [documentation/<name>] is the framework fetch of [<name>] (same
    request, same cache entry), the technology index is the framework
    document named [technologies], and one leading slash of a symbol path
    is ignored. *)
Theorem fetchers_share_urls (axios_get : string → Z → Response) (w : World) :
  (∀ name, getSymbol axios_get ("documentation/" +:+ name) w
           = getFramework axios_get name w) ∧
  (∀ path, Js.startsWith path "/" = false →
           getSymbol axios_get (String "/" path) w = getSymbol axios_get path w) ∧
  technologiesUrl = frameworkUrl "technologies".
Proof.
  split; [|split].
  - intros name. unfold getSymbol, getFramework. by rewrite symbolUrl_documentation.
  - intros path Hpath. unfold getSymbol. by rewrite symbolUrl_leading_slash.
  - reflexivity.
Qed.

Lemma fetchers_share_urls_witness :
  getSymbol Sample.network "/documentation/UIKit" Sample.start
  = getFramework Sample.network "UIKit" Sample.start.
Proof.
  destruct (fetchers_share_urls Sample.network Sample.start) as (Hdoc & Hslash & _).
  rewrite Hslash by reflexivity. apply (Hdoc "UIKit").
Defined.

(** ** Further properties of the server *)

(** *** The technology listing *)

Lemma source_groupTechnologies_acc (technologies : list Technology) :
  ∀ frameworks others,
    Source.groupTechnologies technologies frameworks others =
    (reverse (filter popularItem (frameworkItems technologies)) ++ frameworks
     ++ filter (fun f => ¬ popularItem f) (frameworkItems technologies),
     others ++ otherItems technologies).
Proof.
  unfold frameworkItems, otherItems.
  induction technologies as [|tech rest IH]; intros frameworks others.
  - cbn. by rewrite !app_nil_r.
  - cbn [Source.groupTechnologies]. rewrite !filter_cons.
    destruct (isFramework tech) eqn:Hfw.
    + rewrite decide_True, decide_False by (done || by intros []).
      rewrite fmap_cons, !filter_cons.
      destruct (Source.isPopular (ref_title tech)) eqn:Hpop.
      * assert (popularItem (itemOf tech)) as Hitem by done.
        rewrite decide_True, decide_False by (done || by intros []).
        rewrite IH, reverse_cons, <- !app_assoc. done.
      * assert (¬ popularItem (itemOf tech)) as Hitem.
        { unfold popularItem. cbn [itemOf item_name]. congruence. }
        rewrite decide_False, decide_True by done.
        rewrite IH, <- !app_assoc. done.
    + rewrite decide_False, decide_True by congruence.
      rewrite fmap_cons, IH, <- !app_assoc. done.
Qed.

(** X13. The listing of [src/index.ts] puts every technology in exactly
    one of two groups: the frameworks (kind "symbol", role "collection")
    and the others, the others in index order.  Among the frameworks
    the six popular ones come first, in reverse index order, and the rest
    follow in index order.  The total it prints counts every technology. *)
Theorem source_listing_groups (technologies : list Technology) :
  ∃ frameworks others,
    Source.groupTechnologies technologies [] [] = (frameworks, others) ∧
    frameworks = reverse (filter popularItem (frameworkItems technologies))
                 ++ filter (fun f => ¬ popularItem f) (frameworkItems technologies) ∧
    others = otherItems technologies ∧
    frameworks ≡ₚ frameworkItems technologies ∧
    length frameworks + length others = length technologies.
Proof.
  eexists _, _. rewrite source_groupTechnologies_acc. rewrite !app_nil_l.
  split; [done|]. split; [done|]. split; [done|].
  assert (reverse (filter popularItem (frameworkItems technologies))
          ++ filter (fun f => ¬ popularItem f) (frameworkItems technologies)
          ≡ₚ frameworkItems technologies) as Hperm.
  { rewrite reverse_Permutation. apply filter_app_complement. }
  split; [done|].
  rewrite Hperm. unfold frameworkItems, otherItems. rewrite !length_fmap.
  rewrite <- length_app. apply Permutation_length, filter_app_complement.
Qed.

Lemma built_groupTechnologies_acc (technologies : list Technology) :
  ∀ frameworks others,
    Built.groupTechnologies technologies frameworks others =
    (frameworks ++ frameworkItems technologies, others ++ otherItems technologies).
Proof.
  unfold frameworkItems, otherItems.
  induction technologies as [|tech rest IH]; intros frameworks others.
  - cbn. by rewrite !app_nil_r.
  - cbn [Built.groupTechnologies]. rewrite !filter_cons.
    destruct (isFramework tech) eqn:Hfw.
    + rewrite decide_True, decide_False by (done || by intros []).
      rewrite fmap_cons, IH, <- !app_assoc. done.
    + rewrite decide_False, decide_True by congruence.
      rewrite fmap_cons, IH, <- !app_assoc. done.
Qed.

(** X14. The grouping loop of [dist/index.js] keeps the index order in
    both groups.  Before the listings are cut to 15 and 10 lines, its
    groups hold the same frameworks as the groups of [src/index.ts] up to
    order, and the same others in the same order.  The others shown (the
    first 10) are the same in both listings; the frameworks shown (the
    first 15) are the same up to order when there are at most 15. *)
Theorem built_listing_groups (technologies : list Technology) :
  Built.groupTechnologies technologies [] [] =
  (frameworkItems technologies, otherItems technologies) ∧
  fst (Source.groupTechnologies technologies [] []) ≡ₚ
  fst (Built.groupTechnologies technologies [] []) ∧
  snd (Source.groupTechnologies technologies [] []) =
  snd (Built.groupTechnologies technologies [] []) ∧
  take 10 (snd (Source.groupTechnologies technologies [] [])) =
  take 10 (snd (Built.groupTechnologies technologies [] [])) ∧
  (length (frameworkItems technologies) ≤ 15 →
   take 15 (fst (Source.groupTechnologies technologies [] [])) ≡ₚ
   take 15 (fst (Built.groupTechnologies technologies [] []))).
Proof.
  rewrite built_groupTechnologies_acc, source_groupTechnologies_acc, !app_nil_l.
  cbn [fst snd].
  assert (reverse (filter popularItem (frameworkItems technologies))
          ++ filter (fun f => ¬ popularItem f) (frameworkItems technologies)
          ≡ₚ frameworkItems technologies) as Hperm.
  { rewrite reverse_Permutation. apply filter_app_complement. }
  split; [done|]. split; [done|]. split; [done|]. split; [done|].
  intros Hfew. rewrite !take_ge; [done|done|].
  by rewrite Hperm.
Qed.

Lemma built_listing_groups_witness :
  take 15 (fst (Source.groupTechnologies
                  (map snd (default [] (doc_references Sample.technologiesDoc))) [] [])) ≡ₚ
  take 15 (fst (Built.groupTechnologies
                  (map snd (default [] (doc_references Sample.technologiesDoc))) [] [])).
Proof.
  apply (built_listing_groups (map snd (default [] (doc_references Sample.technologiesDoc)))).
  vm_compute. lia.
Defined.

(** *** Clipped descriptions *)

Lemma length_append (s t : string) :
  String.length (s +:+ t) = String.length s + String.length t.
Proof. induction s as [|c s IH]; autorewrite with str; cbn [String.length]; [done|by rewrite IH]. Qed.

Lemma length_substring0 (n : nat) (s : string) :
  String.length (Text.substring0 n s) = n `min` String.length s.
Proof.
  revert s. induction n as [|n IH]; intros [|c s]; cbn [Text.substring0 String.length]; try done.
  by rewrite IH.
Qed.

Lemma substring0_all (n : nat) (s : string) :
  String.length s ≤ n → Text.substring0 n s = s.
Proof.
  revert s. induction n as [|n IH]; intros [|c s]; cbn [Text.substring0 String.length];
    try done; try lia.
  intros H. rewrite IH; [done|lia].
Qed.

(** X15. A description clipped to [limit] characters is the description
    itself when it fits, and its first [limit] characters followed by
    "..." otherwise; it is never longer than [limit + 3]. *)
Theorem clip_bounds (limit : nat) (s : string) :
  (String.length s ≤ limit → Text.clip limit s = s) ∧
  (limit < String.length s →
   Text.clip limit s = Text.substring0 limit s +:+ "..." ∧
   String.length (Text.clip limit s) = limit + 3) ∧
  String.length (Text.clip limit s) ≤ limit + 3.
Proof.
  unfold Text.clip. rewrite length_append, length_substring0.
  destruct (limit <? String.length s) eqn:Hlong.
  - apply Nat.ltb_lt in Hlong. cbn [String.length].
    split; [lia|]. split; [|lia]. intros _. split; [done|lia].
  - apply Nat.ltb_ge in Hlong. cbn [String.length].
    split; [|split; [lia|lia]]. intros _. by rewrite substring0_all, append_nil_r.
Qed.

Lemma clip_bounds_witness :
  Text.clip 100 "Declare the user interface." = "Declare the user interface." ∧
  Text.clip 5 "Declare the user interface." = "Decla...".
Proof.
  split.
  - apply (clip_bounds 100 "Declare the user interface."). vm_compute. lia.
  - apply (clip_bounds 5 "Declare the user interface."). vm_compute. lia.
Defined.

(** *** Searches with a number for [maxResults] *)

Lemma searchFramework_length (axios_get : string → Z → Response)
    (frameworkName query : string) (options : SearchOptions) (w w1 : World)
    (results : list SearchResult) :
  searchFramework axios_get frameworkName query options w = (Ok results, w1) →
  length results ≤ resultCap options.
Proof.
  intros Hrun.
  destruct (searchFramework_inv _ _ _ _ _ _ _ Hrun) as (framework & entries & Hget & Hrefs).
  rewrite (searchFramework_run _ _ _ _ _ _ _ _ Hget Hrefs) in Hrun.
  injection Hrun as <-.
  change (byScore query) with (byKey (scoreOf query)).
  rewrite sortBy_perm, length_take. lia.
Qed.

Lemma searchGlobal_length (axios_get : string → Z → Response) (query : string)
    (options : SearchOptions) (w w1 : World) (results : list SearchResult) :
  searchGlobal axios_get query options w = (Ok results, w1) →
  length results ≤ globalCap options.
Proof.
  destruct (getTechnologies axios_get w) as [[technologies|error] w0] eqn:Hindex.
  - destruct (searchGlobal_run axios_get query options w w0 technologies Hindex)
      as (k & outcomes & w' & _ & _ & -> & _).
    intros [= <- _]. rewrite length_take. lia.
  - by rewrite (searchGlobal_index_failure _ _ _ _ _ _ Hindex).
Qed.

Lemma floorCap_le_wholeCap (maxResults : Q) : floorCap maxResults ≤ wholeCap maxResults.
Proof.
  unfold floorCap, wholeCap.
  assert (Qfloor maxResults <= Qceiling maxResults)%Z; [|lia].
  rewrite Zle_Qle. eapply Qle_trans; [apply Qfloor_le|apply Qle_ceiling].
Qed.

Lemma floorCap_whole (n : nat) : floorCap (whole n) = n.
Proof. unfold floorCap, whole. rewrite Qfloor_Z. lia. Qed.

Lemma floorCap_below (maxResults : Q) (n : nat) :
  0 < n → n ≤ floorCap maxResults → (whole n <= maxResults)%Q.
Proof.
  unfold floorCap, whole. intros Hpos Hle.
  eapply Qle_trans; [|apply Qfloor_le]. rewrite <- Zle_Qle. lia.
Qed.

(** [Math.ceil(maxResults / 4)] is the quarter, rounded up, of
    [maxResults] rounded up. *)
Lemma ceilQuarter_subCap (maxResults : Q) :
  wholeCap (Numeric.ceilQuarter maxResults) = subCap (wholeCap maxResults).
Proof.
  unfold wholeCap, Numeric.ceilQuarter, subCap. rewrite Qceiling_Z.
  destruct maxResults as [n d].
  unfold Qceiling, Qfloor, Qdiv, Qmult, Qinv, Qopp. cbn [Qnum Qden].
  rewrite Z.mul_1_r, Pos2Z.inj_mul, <- Z.div_div by lia.
  set (m := (- n / Z.pos d)%Z).
  apply Nat2Z.inj. rewrite Nat2Z.inj_div, Nat2Z.inj_add.
  change (Z.of_nat 3) with 3%Z. change (Z.of_nat 4) with 4%Z.
  change (Z.pos 4) with 4%Z.
  assert (Z.of_nat (Z.to_nat (- m)) = Z.max 0 (- m)) as -> by lia.
  assert (Z.of_nat (Z.to_nat (- (m / 4))) = Z.max 0 (- (m / 4))) as -> by lia.
  Z.div_mod_to_equations. lia.
Qed.

Lemma searchLoop_zero (axios_get : string → Z → Response) (query : string)
    (options : SearchOptions) (searchFrameworks : list Technology)
    (results : list SearchResult) (w : World) :
  searchLoop axios_get query options 0 searchFrameworks results w = (results, w).
Proof. by destruct searchFrameworks. Qed.

(** The loop of a global search with the number [maxResults] is the loop
    with the whole cap [ceil(maxResults)]. *)
Lemma numeric_searchLoop_cap (axios_get : string → Z → Response) (query : string)
    (options : Numeric.Options) (maxResults : Q)
    (searchFrameworks : list Technology) :
  ∀ results w,
    Numeric.searchLoop axios_get query options maxResults searchFrameworks results w
    = searchLoop axios_get query (wholeGlobal options) (wholeCap maxResults)
        searchFrameworks results w.
Proof.
  induction searchFrameworks as [|framework rest IH]; intros results w; [done|].
  cbn [Numeric.searchLoop searchLoop]. rewrite reached_wholeCap.
  destruct (wholeCap maxResults <=? length results); [done|].
  rewrite numeric_searchFramework_cap. unfold wholeOptions.
  cbn [Numeric.optSymbolType Numeric.optPlatform Numeric.optMaxResults
       wholeGlobal symbolType platform default from_option id].
  rewrite ceilQuarter_subCap.
  destruct (searchFramework _ _ _ _ w) as [[found|error] w1]; apply IH.
Qed.

Lemma sliceTo_take {A} (maxResults : Q) (results : list A) :
  (wholeCap maxResults = 0 → results = []) →
  Numeric.sliceTo maxResults results = take (floorCap maxResults) results.
Proof.
  intros Hnil. unfold Numeric.sliceTo, Numeric.truncate, floorCap.
  destruct (Qle_bool 0 maxResults) eqn:Hsign.
  - apply Qle_bool_iff, Qfloor_resp_le in Hsign.
    change (Qfloor 0) with 0%Z in Hsign.
    destruct (Z.ltb_spec (Qfloor maxResults) 0) as [|_]; [lia|].
    destruct (Z.le_ge_cases (Qfloor maxResults) (Z.of_nat (length results))) as [Hle|Hge].
    + by rewrite Z.min_l.
    + rewrite Z.min_r, Nat2Z.id by done.
      rewrite !take_ge; [done|lia|lia].
  - rewrite Hnil; [by rewrite !take_nil|].
    apply wholeCap_nonpositive. apply Qlt_le_weak, Qnot_le_lt.
    intros Hle%Qle_bool_iff. congruence.
Qed.

(** A global search with the number [maxResults] is the global search
    with the whole cap [ceil(maxResults)], its results cut to the first
    [floor(maxResults)]. *)
Lemma numeric_searchGlobal_cap (axios_get : string → Z → Response) (query : string)
    (options : Numeric.Options) (w : World) :
  let run := searchGlobal axios_get query (wholeGlobal options) w in
  Numeric.searchGlobal axios_get query options w
  = (capped (floorCap (default 50%Q (Numeric.optMaxResults options))) (fst run), snd run).
Proof.
  unfold Numeric.searchGlobal, searchGlobal, tryCatch, bind.
  destruct (getTechnologies axios_get w) as [[technologies|error] w0]; [|done].
  rewrite numeric_searchLoop_cap.
  set (number := default 50%Q (Numeric.optMaxResults options)).
  change (default 50 (maxResults (wholeGlobal options))) with (wholeCap number).
  set (candidates := take 20 _).
  destruct (searchLoop axios_get query (wholeGlobal options) (wholeCap number)
              candidates [] w0) as [results w1] eqn:Hloop.
  cbn [fst snd capped]. f_equal. f_equal.
  rewrite take_take, Nat.min_l by apply floorCap_le_wholeCap.
  apply sliceTo_take. intros Hzero. rewrite Hzero, searchLoop_zero in Hloop.
  by injection Hloop as <- _.
Qed.

Lemma searchLoop_options (axios_get : string → Z → Response) (query : string)
    (options options' : SearchOptions) (cap : nat) (searchFrameworks : list Technology) :
  symbolType options = symbolType options' →
  platform options = platform options' →
  ∀ results w,
    searchLoop axios_get query options cap searchFrameworks results w
    = searchLoop axios_get query options' cap searchFrameworks results w.
Proof.
  intros Hs Hp.
  induction searchFrameworks as [|framework rest IH]; intros results w; [done|].
  cbn [searchLoop]. rewrite Hs, Hp.
  destruct (cap <=? length results); [done|].
  destruct (searchFramework _ _ _ _ w) as [[found|error] w1]; apply IH.
Qed.

(** A global search reads its options through the two filters and the
    cap only. *)
Lemma searchGlobal_options (axios_get : string → Z → Response) (query : string)
    (options options' : SearchOptions) (w : World) :
  symbolType options = symbolType options' →
  platform options = platform options' →
  globalCap options = globalCap options' →
  searchGlobal axios_get query options w = searchGlobal axios_get query options' w.
Proof.
  intros Hs Hp Hcap. unfold searchGlobal, tryCatch, bind.
  destruct (getTechnologies axios_get w) as [[technologies|error] w0]; [|done].
  fold (globalCap options). fold (globalCap options').
  by rewrite Hcap, (searchLoop_options _ _ options options').
Qed.

(** At a whole [maxResults] the two global searches are one. *)
Lemma numeric_searchGlobal_whole (axios_get : string → Z → Response) (query : string)
    (options : SearchOptions) (w : World) :
  Numeric.searchGlobal axios_get query (numericOptions options) w
  = searchGlobal axios_get query options w.
Proof.
  rewrite numeric_searchGlobal_cap. cbv zeta.
  assert (wholeCap (default 50%Q (Numeric.optMaxResults (numericOptions options)))
          = globalCap options) as Hwhole.
  { destruct options as [kind plat [n|]]; [apply wholeCap_whole|reflexivity]. }
  assert (floorCap (default 50%Q (Numeric.optMaxResults (numericOptions options)))
          = globalCap options) as ->.
  { destruct options as [kind plat [n|]]; [apply floorCap_whole|reflexivity]. }
  rewrite (searchGlobal_options _ _ (wholeGlobal (numericOptions options)) options)
    by done.
  destruct (searchGlobal axios_get query options w) as [[results|error] w1] eqn:Hrun;
    [|done].
  cbn [fst snd capped]. by rewrite take_ge by by eapply searchGlobal_length.
Qed.

Lemma numeric_searchFramework_length (axios_get : string → Z → Response)
    (frameworkName query : string) (options : Numeric.Options) (w w1 : World)
    (results : list SearchResult) :
  Numeric.searchFramework axios_get frameworkName query options w = (Ok results, w1) →
  length results ≤ wholeCap (default 20%Q (Numeric.optMaxResults options)).
Proof. rewrite numeric_searchFramework_cap. apply searchFramework_length. Qed.

Lemma numeric_searchGlobal_length (axios_get : string → Z → Response) (query : string)
    (options : Numeric.Options) (w w1 : World) (results : list SearchResult) :
  Numeric.searchGlobal axios_get query options w = (Ok results, w1) →
  length results ≤ floorCap (default 50%Q (Numeric.optMaxResults options)).
Proof.
  rewrite numeric_searchGlobal_cap. cbv zeta.
  destruct (searchGlobal _ _ _ w) as [[found|error] w2]; [|done].
  cbn [fst snd capped]. intros [= <- _]. rewrite length_take. lia.
Qed.

(** *** The search tool *)

(** Through the tool, a search scoped to a framework with [maxResults]
    2.5 returns three results. *)
Example searchSymbols_fractional :
  length (contribution
            (fst (Source.searchSymbols Sample.network
                    {| arg_path := ""; arg_query := "*view*";
                       arg_framework := Some "SwiftUI";
                       arg_symbolType := None; arg_platform := None;
                       arg_maxResults := Some (5 # 2) |} Sample.start))) = 3.
Proof. vm_compute. reflexivity. Qed.

(** X16. Through the search tool a search returns at most
    [ceil(maxResults)] results, where [maxResults] is 20 when the argument
    is absent (the tool's default replaces the default of 50 a global
    search has on its own): at most [maxResults] results when that is a
    whole number, and, in a global search, at most [floor(maxResults)]
    results, which never exceeds [maxResults]. *)
Theorem searchSymbols_cap (axios_get : string → Z → Response) (args : ToolArguments)
    (w w1 : World) (results : list SearchResult) :
  Source.searchSymbols axios_get args w = (Ok results, w1) →
  let number := default 20%Q (arg_maxResults args) in
  length results ≤ wholeCap number ∧
  (∀ n, (number == whole n)%Q → length results ≤ n) ∧
  (Js.truthy (arg_framework args) = false →
   length results ≤ floorCap number ∧
   (results = [] ∨ (whole (length results) <= number)%Q)).
Proof.
  intros Hrun number.
  assert (length results ≤ wholeCap number ∧
          (Js.truthy (arg_framework args) = false → length results ≤ floorCap number))
    as [Hceil Hfloor].
  { unfold Source.searchSymbols in Hrun.
    destruct (Js.truthy (arg_framework args)).
    - split; [|done]. by apply numeric_searchFramework_length in Hrun.
    - apply numeric_searchGlobal_length in Hrun.
      split; [|done]. etrans; [exact Hrun|apply floorCap_le_wholeCap]. }
  split; [done|]. split.
  - by intros n <-%wholeCap_eq.
  - intros Hglobal. split; [by apply Hfloor|].
    destruct results as [|r results']; [by left|right].
    apply floorCap_below; [cbn [length]; lia|by apply Hfloor].
Qed.

Lemma searchSymbols_cap_witness :
  length (contribution
            (fst (Source.searchSymbols Sample.network
                    {| arg_path := ""; arg_query := "*"; arg_framework := None;
                       arg_symbolType := None; arg_platform := None;
                       arg_maxResults := Some (5 # 2) |} Sample.start))) ≤ 2.
Proof.
  destruct (Source.searchSymbols Sample.network
              {| arg_path := ""; arg_query := "*"; arg_framework := None;
                 arg_symbolType := None; arg_platform := None;
                 arg_maxResults := Some (5 # 2) |}
              Sample.start) as [[results|error] w1] eqn:Hrun; cbn [fst contribution length];
    [|lia].
  destruct (searchSymbols_cap _ _ _ _ _ Hrun) as (_ & _ & Hglobal).
  apply (Hglobal eq_refl).
Defined.

(** *** Every tool of [src/index.ts] *)

Lemma bind_ret_world {A B} (m : M A) (f : A → B) (w : World) :
  snd ((let* a := m in ret (f a)) w) = snd (m w).
Proof. unfold bind, ret. by destruct (m w) as [[a|e] w1]. Qed.

Lemma getFramework_world (axios_get : string → Z → Response) (name : string) (w : World) :
  keepsCache w (snd (getFramework axios_get name w)) ∧
  appendsRequests 1 w (snd (getFramework axios_get name w)).
Proof. split; [apply makeRequest_keepsCache|apply makeRequest_appends]. Qed.

Lemma getTechnologies_keeps (axios_get : string → Z → Response) (w : World) :
  keepsCache w (snd (getTechnologies axios_get w)) ∧
  appendsRequests 1 w (snd (getTechnologies axios_get w)).
Proof.
  rewrite getTechnologies_world.
  split; [apply makeRequest_keepsCache|apply makeRequest_appends].
Qed.

Section SourceTools.
Variable axios_get : string → Z → Response.
Variable mcpErrorMessage : ErrorCode → string → string.

Lemma source_handlers_world (args : ToolArguments) (w : World) :
  let good w' := keepsCache w w' ∧ appendsRequests 21 w w' in
  good (snd (Source.handleListTechnologies axios_get w)) ∧
  good (snd (Source.handleBrowseFramework axios_get args w)) ∧
  good (snd (Source.handleGetSymbolText axios_get args w)) ∧
  good (snd (Source.handleSearchSymbols axios_get args w)).
Proof.
  cbn zeta. repeat split.
  - unfold Source.handleListTechnologies, bind.
    pose proof (getTechnologies_keeps axios_get w) as [H _].
    destruct (getTechnologies axios_get w) as [[technologies|e] w1]; [|done].
    by destruct (Source.groupTechnologies _ _ _).
  - unfold Source.handleListTechnologies, bind.
    pose proof (getTechnologies_keeps axios_get w) as [_ H].
    apply (appendsRequests_le 1); [lia|].
    destruct (getTechnologies axios_get w) as [[technologies|e] w1]; [|done].
    by destruct (Source.groupTechnologies _ _ _).
  - unfold Source.handleBrowseFramework, bind.
    pose proof (getFramework_world axios_get (Js.show (arg_framework args)) w) as [H _].
    destruct (getFramework _ _ w) as [[data|e] w1]; [|done].
    by destruct (doc_topicSections data).
  - unfold Source.handleBrowseFramework, bind.
    pose proof (getFramework_world axios_get (Js.show (arg_framework args)) w) as [_ H].
    apply (appendsRequests_le 1); [lia|].
    destruct (getFramework _ _ w) as [[data|e] w1]; [|done].
    by destruct (doc_topicSections data).
  - unfold Source.handleGetSymbolText. rewrite bind_ret_world. apply makeRequest_keepsCache.
  - unfold Source.handleGetSymbolText. rewrite bind_ret_world.
    apply (appendsRequests_le 1); [lia|]. apply makeRequest_appends.
  - unfold Source.handleSearchSymbols. rewrite bind_ret_world.
    unfold Source.searchSymbols. destruct (Js.truthy (arg_framework args)).
    + rewrite numeric_searchFramework_cap. apply searchFramework_keepsCache.
    + rewrite numeric_searchGlobal_cap. apply searchGlobal_world.
  - unfold Source.handleSearchSymbols. rewrite bind_ret_world.
    unfold Source.searchSymbols. destruct (Js.truthy (arg_framework args)).
    + rewrite numeric_searchFramework_cap.
      apply (appendsRequests_le 1); [lia|]. apply searchFramework_appends.
    + rewrite numeric_searchGlobal_cap. apply searchGlobal_world.
Qed.

(** X17. Whatever the tool and its arguments, a tool call of
    [src/index.ts] evicts nothing from the cache and sends at most 21
    requests; when it fails, the error code is [InternalError].  That
    holds for an unknown tool name too: the [MethodNotFound] error thrown
    for it is caught and reported as an internal error, and the world is
    left as it is. *)
Theorem callToolRequest_invariants (name : string) (args : ToolArguments) (w : World) :
  let '(response, w') := Source.callToolRequest axios_get mcpErrorMessage name args w in
  keepsCache w w' ∧
  appendsRequests 21 w w' ∧
  (∀ error, response = inr error → mcp_code error = InternalError) ∧
  (name ∉ ["list_technologies"; "browse_framework"; "get_symbol"; "search_symbols"] →
   w' = w ∧
   response = inr {| mcp_code := InternalError;
                     mcp_message :=
                       "Error executing tool: " +:+
                       mcpErrorMessage MethodNotFound ("Unknown tool: " +:+ name) |}).
Proof.
  unfold Source.callToolRequest.
  destruct (source_handlers_world args w) as ([L1 L2] & [B1 B2] & [G1 G2] & [S1 S2]).
  destruct (String.eqb_spec name "list_technologies") as [->|N1].
  { destruct (Source.handleListTechnologies axios_get w) as [[text|e] w'];
      (split; [done|]); (split; [done|]); (split; [by intros ? [= <-]|]);
      intros H; exfalso; apply H; set_solver. }
  destruct (String.eqb_spec name "browse_framework") as [->|N2].
  { destruct (Source.handleBrowseFramework axios_get args w) as [[text|e] w'];
      (split; [done|]); (split; [done|]); (split; [by intros ? [= <-]|]);
      intros H; exfalso; apply H; set_solver. }
  destruct (String.eqb_spec name "get_symbol") as [->|N3].
  { destruct (Source.handleGetSymbolText axios_get args w) as [[text|e] w'];
      (split; [done|]); (split; [done|]); (split; [by intros ? [= <-]|]);
      intros H; exfalso; apply H; set_solver. }
  destruct (String.eqb_spec name "search_symbols") as [->|N4].
  { destruct (Source.handleSearchSymbols axios_get args w) as [[text|e] w'];
      (split; [done|]); (split; [done|]); (split; [by intros ? [= <-]|]);
      intros H; exfalso; apply H; set_solver. }
  unfold throw. split; [apply keepsCache_refl|]. split; [apply appendsRequests_refl|].
  split; [by intros ? [= <-]|]. done.
Qed.

End SourceTools.

Lemma callToolRequest_invariants_witness :
  fst (Source.callToolRequest Sample.network (fun _ text => text) "check_updates"
         {| arg_path := ""; arg_query := ""; arg_framework := None; arg_symbolType := None;
            arg_platform := None; arg_maxResults := None |} Sample.start)
  = inr {| mcp_code := InternalError;
           mcp_message := "Error executing tool: Unknown tool: check_updates" |}.
Proof.
  pose proof (callToolRequest_invariants Sample.network (fun _ text => text) "check_updates"
                {| arg_path := ""; arg_query := ""; arg_framework := None;
                   arg_symbolType := None; arg_platform := None; arg_maxResults := None |}
                Sample.start) as H.
  destruct (Source.callToolRequest _ _ _ _ _) as [response w'].
  destruct H as (_ & _ & _ & Hunknown).
  destruct Hunknown as [_ ->]; [|reflexivity].
  intros Hin. by repeat (apply elem_of_cons in Hin as [?|Hin]; [done|]);
    apply elem_of_nil in Hin.
Defined.

(** *** The fallback resolver of [dist/index.js] *)

Lemma matchingTitles_sound (path name : string) (technologies : list Technology) :
  name ∈ matchingTitles path technologies →
  name ≠ "" ∧ titleMatches path name = true ∧
  ∃ tech, tech ∈ technologies ∧ ref_title tech = Some name.
Proof.
  induction technologies as [|tech rest IH]; cbn [matchingTitles].
  - by intros ?%elem_of_nil.
  - assert (name ∈ matchingTitles path rest →
            name ≠ "" ∧ titleMatches path name = true ∧
            ∃ tech0, tech0 ∈ tech :: rest ∧ ref_title tech0 = Some name) as Hrest.
    { intros (? & ? & tech0 & ? & ?)%IH. split; [done|]. split; [done|].
      exists tech0. split; [by right|done]. }
    destruct (ref_title tech) as [title|] eqn:Htitle; [|done].
    destruct (Js.truthy (Some title) && titleMatches path title) eqn:Hok; [|done].
    apply andb_true_iff in Hok as [Htruthy Hmatch].
    intros [->|Hin]%elem_of_cons; [|by apply Hrest].
    split; [by destruct title|]. split; [done|]. exists tech. split; [by left|done].
Qed.

(** X18. [checkIfTechnology] never throws.  It answers with a title
    only if the technology index was fetched and holds a technology with
    that title, and the title is non-empty and matches the path; it
    answers "none" when the index cannot be fetched. *)
Theorem checkIfTechnology_answers (axios_get : string → Z → Response) (path : string)
    (w : World) :
  ∃ answer w1,
    checkIfTechnology axios_get path w = (Ok answer, w1) ∧
    match getTechnologies axios_get w with
    | (Ok technologies, w0) =>
        w1 = w0 ∧
        ∀ name, answer = Some name →
                name ≠ "" ∧ titleMatches path name = true ∧
                ∃ id tech, (id, tech) ∈ technologies ∧ ref_title tech = Some name
    | (Throw _, w0) => w1 = w0 ∧ answer = None
    end.
Proof.
  rewrite checkIfTechnology_run.
  destruct (getTechnologies axios_get w) as [[technologies|error] w0]; eexists _, _;
    (split; [reflexivity|]); (split; [done|]); [|done].
  intros name Hhead.
  assert (name ∈ matchingTitles path (map snd technologies)) as Hin.
  { destruct (matchingTitles _ _) as [|first others]; [done|].
    injection Hhead as ->. by left. }
  apply matchingTitles_sound in Hin as (Hne & Hmatch & tech & Htech & Htitle).
  split; [done|]. split; [done|].
  apply list_elem_of_fmap in Htech as ([id tech'] & -> & Hin). eauto.
Qed.

(** X19. [handleTechnologyFallback] never throws: it ends in the
    "framework detected" payload, made from the framework document it
    fetched, or in the "not found" payload. *)
Theorem handleTechnologyFallback_total (axios_get : string → Z → Response)
    (frameworkName originalPath : string) (w : World) :
  ∃ payload w1,
    handleTechnologyFallback axios_get frameworkName originalPath w = (Ok payload, w1) ∧
    w1 = snd (getFramework axios_get frameworkName w) ∧
    (payload = SymbolNotFound originalPath ∨
     ∃ data, getFramework axios_get frameworkName w = (Ok data, w1) ∧
             is_Some (doc_topicSections data) ∧
             payload = FrameworkDetected frameworkName originalPath data).
Proof.
  unfold handleTechnologyFallback, tryCatch, bind.
  destruct (getFramework axios_get frameworkName w) as [[data|error] w1].
  - destruct (doc_topicSections data) as [sections|] eqn:Hsections; eexists _, _;
      (split; [reflexivity|]); (split; [done|]); [right|by left].
    exists data. by rewrite Hsections.
  - eexists _, _. split; [reflexivity|]. split; [done|]. by left.
Qed.

Lemma stripPrefix_append (p s : string) : Js.stripPrefix p (p +:+ s) = Some s.
Proof.
  induction p as [|c p IH]; autorewrite with str; cbn [Js.stripPrefix]; [by destruct s|].
  by rewrite Ascii.eqb_refl.
Qed.

Lemma matchingTitles_complete (path title : string) (technologies : list Technology)
    (tech : Technology) :
  tech ∈ technologies → ref_title tech = Some title → title ≠ "" →
  titleMatches path title = true →
  matchingTitles path technologies ≠ [].
Proof.
  intros Hin Htitle Hne Hmatch.
  induction technologies as [|first rest IH]; [by apply elem_of_nil in Hin|].
  cbn [matchingTitles]. apply elem_of_cons in Hin as [<-|Hin].
  - rewrite Htitle, Hmatch. by destruct title.
  - destruct (ref_title first) as [t|]; [|by apply IH].
    destruct (Js.truthy (Some t) && titleMatches path t); [done|by apply IH].
Qed.

(** X20. A technology of the index is always detected from its own
    title: for the path [documentation/<title>] the cleaned path is the
    title, and the search of the index finds a technology. *)
Theorem findTechnology_detects_title (technologies : list Technology)
    (tech : Technology) (title : string) :
  tech ∈ technologies → ref_title tech = Some title → title ≠ "" →
  let path := "documentation/" +:+ title in
  cleanPathOf path = title ∧
  is_Some (findTechnology (cleanPathOf path) (Js.firstSegment "/" (cleanPathOf path))
             technologies).
Proof.
  intros Hin Htitle Hne path.
  assert (cleanPathOf path = title) as Hclean.
  { unfold cleanPathOf, Js.removeLeading, path. by rewrite stripPrefix_append. }
  split; [done|].
  rewrite findTechnology_head.
  pose proof (matchingTitles_complete path title technologies tech Hin Htitle Hne) as Hfound.
  destruct (matchingTitles path technologies) as [|name others]; [|by eexists].
  destruct Hfound; [|done].
  unfold titleMatches. rewrite Hclean. unfold sameTitle at 2.
  rewrite String.eqb_refl. by rewrite orb_true_r.
Qed.

Lemma findTechnology_detects_title_witness :
  is_Some (findTechnology "UIKit" "UIKit"
             (map snd (default [] (doc_references Sample.technologiesDoc)))).
Proof.
  apply (findTechnology_detects_title
           (map snd (default [] (doc_references Sample.technologiesDoc)))
           (Sample.mkRef "UIKit" "symbol" "collection" None) "UIKit").
  - vm_compute. set_solver.
  - reflexivity.
  - discriminate.
Defined.

Lemma checkIfTechnology_world (axios_get : string → Z → Response) (path : string)
    (w : World) :
  snd (checkIfTechnology axios_get path w) = snd (getTechnologies axios_get w).
Proof.
  rewrite checkIfTechnology_run.
  by destruct (getTechnologies axios_get w) as [[technologies|error] w0].
Qed.

Lemma handleTechnologyFallback_world (axios_get : string → Z → Response)
    (frameworkName originalPath : string) (w : World) :
  snd (handleTechnologyFallback axios_get frameworkName originalPath w)
  = snd (getFramework axios_get frameworkName w).
Proof.
  destruct (handleTechnologyFallback_total axios_get frameworkName originalPath w)
    as (payload & w1 & -> & -> & _). done.
Qed.

(** X21. A documentation lookup of the built server sends at most three
    requests (the symbol document, the technology index, one framework
    document) and evicts nothing from the cache; when the symbol document
    is obtained it answers with it and the fallback is not entered. *)
Theorem handleGetDocumentation_world (axios_get : string → Z → Response) (path : string)
    (w : World) :
  let '(outcome, w') := handleGetDocumentation axios_get path w in
  keepsCache w w' ∧
  appendsRequests 3 w w' ∧
  ∀ data w1, getSymbol axios_get path w = (Ok data, w1) →
             outcome = Ok (SymbolDocumentation data) ∧ w' = w1.
Proof.
  pose proof (makeRequest_keepsCache axios_get (symbolUrl path) w) as Hk1.
  pose proof (makeRequest_appends axios_get (symbolUrl path) w) as Ha1.
  fold (getSymbol axios_get path w) in Hk1, Ha1.
  destruct (getSymbol axios_get path w) as [[data|error] w1] eqn:Hsymbol; cbn [snd] in *.
  - assert (handleGetDocumentation axios_get path w = (Ok (SymbolDocumentation data), w1))
      as ->.
    { unfold handleGetDocumentation, tryCatch, bind. by rewrite Hsymbol. }
    split; [done|]. split; [by apply (appendsRequests_le 1); [lia|]|].
    by intros ? ? [= <- <-].
  - rewrite (handleGetDocumentation_run _ _ _ _ _ Hsymbol).
    pose proof (getTechnologies_keeps axios_get w1) as [Hk2 Ha2].
    rewrite <- (checkIfTechnology_world axios_get path) in Hk2, Ha2.
    destruct (checkIfTechnology axios_get path w1) as [[[name|]|e] w2]; cbn [snd] in *.
    + pose proof (getFramework_world axios_get name w2) as [Hk3 Ha3].
      rewrite <- (handleTechnologyFallback_world axios_get name path) in Hk3, Ha3.
      destruct (handleTechnologyFallback axios_get name path w2) as [outcome w3].
      cbn [snd] in *. split; [|split; [|done]].
      * eapply keepsCache_trans; [|exact Hk3]. by eapply keepsCache_trans.
      * apply (appendsRequests_trans 2 1 w w2); [|done].
        by apply (appendsRequests_trans 1 1 w w1).
    + split; [by eapply keepsCache_trans|]. split; [|done].
      apply (appendsRequests_le 2); [lia|]. by apply (appendsRequests_trans 1 1 w w1).
    + split; [by eapply keepsCache_trans|]. split; [|done].
      apply (appendsRequests_le 2); [lia|]. by apply (appendsRequests_trans 1 1 w w1).
Qed.

Lemma checkIfTechnology_answers_witness :
  fst (checkIfTechnology Sample.network "swiftui" Sample.start) = Ok (Some "SwiftUI") ∧
  titleMatches "swiftui" "SwiftUI" = true.
Proof.
  destruct (checkIfTechnology_answers Sample.network "swiftui" Sample.start)
    as (answer & w1 & Hrun & Hspec).
  assert (answer = Some "SwiftUI") as -> by (vm_compute in Hrun; congruence).
  rewrite Hrun. split; [reflexivity|].
  destruct (getTechnologies Sample.network Sample.start) as [[technologies|error] w0].
  - destruct Hspec as [_ Hname]. by destruct (Hname "SwiftUI" eq_refl) as (_ & ? & _).
  - by destruct Hspec.
Defined.

Lemma handleGetDocumentation_world_witness :
  fst (handleGetDocumentation Sample.network "documentation/UIKit" Sample.start)
  = Ok (SymbolDocumentation Sample.uiKitDoc).
Proof.
  pose proof (handleGetDocumentation_world Sample.network "documentation/UIKit" Sample.start)
    as H.
  destruct (handleGetDocumentation Sample.network "documentation/UIKit" Sample.start)
    as [outcome w'].
  destruct H as (_ & _ & Hsymbol).
  destruct (Hsymbol Sample.uiKitDoc
              (snd (getSymbol Sample.network "documentation/UIKit" Sample.start)) eq_refl)
    as [-> _].
  reflexivity.
Defined.

(** *** The text of a symbol document *)

Lemma length_omap_le {A B} (f : A → option B) (l : list A) :
  length (omap f l) ≤ length l.
Proof. induction l as [|x l IH]; cbn; [done|]. destruct (f x); cbn; lia. Qed.

Lemma omap_none {A B} (f : A → option B) (l : list A) :
  Forall (fun x => f x = None) l → omap f l = [].
Proof. induction 1 as [|x l Hx _ IH]; cbn; [done|]. by rewrite Hx. Qed.

Lemma lookupReference_none (data : Document) (id : string) :
  Source.lookupReference data id = None ↔
  match doc_references data with
  | None => True
  | Some entries => (id ∉ map fst entries) ∧ (id ∉ Source.inheritedNames)
  end.
Proof.
  unfold Source.lookupReference. destruct (doc_references data) as [entries|]; [|done].
  destruct (List.find _ entries) as [entry|] eqn:Hfind.
  - apply find_some in Hfind as [Hin Hkey%String.eqb_eq]. split; [done|].
    intros [Hown _]. destruct Hown. apply list_elem_of_fmap. exists entry.
    split; [done|by apply list_elem_of_In].
  - assert (id ∉ map fst entries) as Hown.
    { intros ([key ref] & -> & Hin%list_elem_of_In)%list_elem_of_fmap.
      apply (find_none _ _ Hfind) in Hin. cbn [fst] in Hin.
      by rewrite String.eqb_refl in Hin. }
    case_bool_decide; split; try done; tauto.
Qed.

(** X22. In the text of a symbol document a topic section takes
    between two and eight lines: its heading, at most five references, at
    most one line for the items left out, and an empty line.  An
    identifier is skipped when the document has no reference map, or when
    it is neither a key of the map nor the name of a member of
    [Object.prototype]: a section of at most five such identifiers is its
    heading and the empty line.  An identifier that is no key of the map
    but names an inherited member gets a line with the title "undefined". *)
Theorem sectionLines_bounds (data : Document) (section : TopicSection) :
  2 ≤ length (Source.sectionLines data section) ≤ 8 ∧
  (∀ identifiers,
     sec_identifiers section = Some identifiers →
     length identifiers ≤ 5 →
     Forall (fun id =>
               match doc_references data with
               | None => True
               | Some entries => (id ∉ map fst entries) ∧ (id ∉ Source.inheritedNames)
               end) identifiers →
     Source.sectionLines data section = ["### " +:+ sec_title section; ""]) ∧
  (∀ id entries,
     doc_references data = Some entries →
     id ∉ map fst entries → id ∈ Source.inheritedNames →
     Source.referenceLine data id = Some "• **undefined** - ").
Proof.
  unfold Source.sectionLines. split; [|split].
  - destruct (sec_identifiers section) as [[|first identifiers]|];
      rewrite ?length_app; cbn [length]; try lia.
    pose proof (length_omap_le (Source.referenceLine data) (take 5 (first :: identifiers)))
      as Hshown.
    rewrite length_take in Hshown.
    destruct (_ <? _); cbn [length] in *; lia.
  - intros identifiers -> Hlen Hmissing.
    destruct identifiers as [|first identifiers]; [done|].
    rewrite take_ge by done.
    rewrite omap_none.
    + apply Nat.ltb_ge in Hlen. by rewrite Hlen.
    + eapply Forall_impl; [exact Hmissing|]. intros id' Hid%lookupReference_none.
      unfold Source.referenceLine. by rewrite Hid.
  - intros id entries Hrefs Hown Hinherited.
    unfold Source.referenceLine, Source.lookupReference. rewrite Hrefs.
    destruct (List.find _ entries) as [entry|] eqn:Hfind.
    + apply find_some in Hfind as [Hin Hkey%String.eqb_eq]. destruct Hown.
      apply list_elem_of_fmap. exists entry. split; [done|by apply list_elem_of_In].
    + by rewrite bool_decide_eq_true_2.
Qed.

Lemma sectionLines_bounds_witness :
  Source.sectionLines Sample.uiKitDoc
    {| sec_title := "Essentials"; sec_identifiers := Some ["missing"] |}
  = ["### Essentials"; ""] ∧
  Source.referenceLine Sample.uiKitDoc "constructor" = Some "• **undefined** - ".
Proof.
  destruct (sectionLines_bounds Sample.uiKitDoc
              {| sec_title := "Essentials"; sec_identifiers := Some ["missing"] |})
    as (_ & Hskipped & Hinherited).
  split.
  - apply (Hskipped ["missing"]).
    + reflexivity.
    + cbn [length]. lia.
    + constructor; [|constructor].
      apply (bool_decide_eq_true_1 _). reflexivity.
  - apply (Hinherited "constructor" (default [] (doc_references Sample.uiKitDoc))).
    + reflexivity.
    + apply (bool_decide_eq_true_1 _). reflexivity.
    + apply (bool_decide_eq_true_1 _). reflexivity.
Defined.
